(** * Research-Podcast-Agent: a shallow embedding of the orchestration core

    The development follows the Python sources module by module:
    [agent.py], [web_researcher.py], [supervisor.py] and [speaker.py].
    Python strings are Rocq [string]s (code points below 256), floats are
    read as exact rationals ([Q]), dictionaries with string values are
    association lists read through [Py.get], a task whose entries can
    be null is an association list of values read through [Any.get],
    and an exception is an [outcome] carrying the text of [str(e)].
    External capabilities
    (search API, page fetch, chat completion, the [re]/[json]/[urllib]
    library calls) are fields of a [World] record: every theorem
    quantifies over them. *)

From Stdlib Require Import List String Ascii Bool Arith Lia ZArith.
From Stdlib Require Import QArith Qminmax Lqa Permutation DecimalString.
From Stdlib Require Import Sorted.
Import ListNotations.
Close Scope Q_scope.
Open Scope list_scope.
Open Scope string_scope.
Open Scope nat_scope.

(* ================================================================== *)
(** ** Python builtins used by the sources *)
(* ================================================================== *)

Module Py.

(** Result of running a piece of code that may raise: the value it
    returns, or the message of the [Exception] it raised. *)
Inductive outcome (A : Type) : Type :=
| Returned (a : A)
| Raised (e : string).
Arguments Returned {A} a.
Arguments Raised {A} e.

(** [try: body  except Exception as e: handler(e)] *)
Definition try_except {A} (body : outcome A) (handler : string -> outcome A)
  : outcome A :=
  match body with
  | Returned a => Returned a
  | Raised e => handler e
  end.

(** Truth value of an optional string: [None] and [''] are falsy. *)
Definition truthy (v : option string) : bool :=
  match v with
  | Some (String _ _) => true
  | _ => false
  end.

Definition nonempty (s : string) : bool :=
  match s with
  | EmptyString => false
  | String _ _ => true
  end.

(** A dictionary with string keys and string values. *)
Definition dict : Type := list (string * string).

(** [d.get(key)] *)
Fixpoint get_opt (key : string) (d : dict) : option string :=
  match d with
  | [] => None
  | (k, v) :: d' => if String.eqb k key then Some v else get_opt key d'
  end.

(** [d.get(key, default)] *)
Definition get (key default : string) (d : dict) : string :=
  match get_opt key d with
  | Some v => v
  | None => default
  end.

(** [c.isspace()], which is also what [\s] matches in a [str] pattern. *)
Definition isspace (c : ascii) : bool :=
  let n := nat_of_ascii c in
  ((9 <=? n) && (n <=? 13)) || ((28 <=? n) && (n <=? 32))
  || (n =? 133) || (n =? 160).

Fixpoint lstrip (s : string) : string :=
  match s with
  | EmptyString => EmptyString
  | String c s' => if isspace c then lstrip s' else s
  end.

Fixpoint rstrip (s : string) : string :=
  match s with
  | EmptyString => EmptyString
  | String c s' =>
      match rstrip s' with
      | EmptyString => if isspace c then EmptyString else String c EmptyString
      | r => String c r
      end
  end.

(** [s.strip()] *)
Definition strip (s : string) : string := rstrip (lstrip s).

(** [s.startswith(p)] *)
Fixpoint startswith (p s : string) : bool :=
  match p, s with
  | EmptyString, _ => true
  | String a p', String b s' => Ascii.eqb a b && startswith p' s'
  | String _ _, EmptyString => false
  end.

(** [p in s] for strings. *)
Fixpoint contains (p s : string) : bool :=
  startswith p s ||
  match s with
  | EmptyString => false
  | String _ s' => contains p s'
  end.

(** [s[:n]] *)
Fixpoint slice_to (n : nat) (s : string) : string :=
  match n, s with
  | S n', String c s' => String c (slice_to n' s')
  | _, _ => EmptyString
  end.

(** [s.replace(old, new)] for a one-character [old]. *)
Fixpoint replace_char (old : ascii) (new : string) (s : string) : string :=
  match s with
  | EmptyString => EmptyString
  | String c s' =>
      if Ascii.eqb c old then new ++ replace_char old new s'
      else String c (replace_char old new s')
  end.

(** [s.replace(old, new)] for a non-empty [old]: scan left to right, and
    after a match skip the remaining [len(old) - 1] matched characters. *)
Fixpoint replace_from (old new : string) (skip : nat) (s : string) : string :=
  match s with
  | EmptyString => EmptyString
  | String c s' =>
      match skip with
      | S k => replace_from old new k s'
      | O =>
          if startswith old s
          then new ++ replace_from old new (String.length old - 1) s'
          else String c (replace_from old new 0 s')
      end
  end.

Definition replace (old new s : string) : string :=
  replace_from old new 0 s.

(** [c.lower()] for a code point below 256: the ASCII capitals and the
    Latin-1 capitals other than the multiplication sign move up by 32. *)
Definition lower_char (c : ascii) : ascii :=
  let n := nat_of_ascii c in
  if ((65 <=? n) && (n <=? 90))
     || ((192 <=? n) && (n <=? 222) && negb (n =? 215))
  then ascii_of_nat (n + 32) else c.

Fixpoint lower (s : string) : string :=
  match s with
  | EmptyString => EmptyString
  | String c s' => String (lower_char c) (lower s')
  end.

(** [str(n)] for a non-negative integer. *)
Definition str_of_nat (n : nat) : string :=
  NilZero.string_of_uint (Nat.to_uint n).

(** ["sep".join(parts)] *)
Fixpoint join (sep : string) (parts : list string) : string :=
  match parts with
  | [] => EmptyString
  | [p] => p
  | p :: ps => p ++ sep ++ join sep ps
  end.

(** [c * n] for a one-character string [c]. *)
Fixpoint repeat_char (c : ascii) (n : nat) : string :=
  match n with
  | O => EmptyString
  | S n' => String c (repeat_char c n')
  end.

(** A line feed. *)
Definition nl : string := String "010"%char EmptyString.

(** Sequencing of code that may raise. *)
Definition bind {A B} (c : outcome A) (k : A -> outcome B) : outcome B :=
  match c with
  | Returned a => k a
  | Raised e => Raised e
  end.

(** [enumerate(l, start)] *)
Fixpoint enumerate {A} (start : nat) (l : list A) : list (nat * A) :=
  match l with
  | [] => []
  | x :: l' => (start, x) :: enumerate (S start) l'
  end.

(** [c.isalnum()] for a code point below 256: the ASCII digits and
    letters, the Latin-1 letters, and the superscript digits and vulgar
    fractions of Latin-1. *)
Definition isalnum (c : ascii) : bool :=
  let n := nat_of_ascii c in
  ((48 <=? n) && (n <=? 57)) || ((65 <=? n) && (n <=? 90))
  || ((97 <=? n) && (n <=? 122))
  || (n =? 170) || (n =? 178) || (n =? 179) || (n =? 181)
  || (n =? 185) || (n =? 186) || ((188 <=? n) && (n <=? 190))
  || ((192 <=? n) && (n <=? 214)) || ((216 <=? n) && (n <=? 246))
  || ((248 <=? n) && (n <=? 255)).

(** Put a character in front of the first piece of a split. *)
Definition push_char (c : ascii) (pieces : list string) : list string :=
  match pieces with
  | [] => [String c EmptyString]
  | p :: ps => String c p :: ps
  end.

(** Cut at every whitespace character. *)
Fixpoint split_at_spaces (s : string) : list string :=
  match s with
  | EmptyString => [EmptyString]
  | String c s' =>
      if isspace c then EmptyString :: split_at_spaces s'
      else push_char c (split_at_spaces s')
  end.

(** [s.split()]: the maximal runs of characters that are not whitespace. *)
Definition split (s : string) : list string :=
  filter nonempty (split_at_spaces s).

(** [d[key]], which raises [KeyError(key)] when the key is missing. *)
Definition getitem (key : string) (d : dict) : outcome string :=
  match get_opt key d with
  | Some v => Returned v
  | None => Raised ("'" ++ key ++ "'")
  end.

End Py.

Notation "x <- c ;; k" := (Py.bind c (fun x => k))
  (at level 61, c at next level, right associativity).

(* ================================================================== *)
(** ** asyncio.gather *)
(* ================================================================== *)

Module asyncio.

(** The coroutines handed to [gather] finish in some order chosen by the
    event loop.  [completions order coros] is the log of (slot, result)
    pairs in the order in which the coroutines finish. *)
Definition completions {A} (order : list nat) (coros : list A)
  : list (nat * A) :=
  flat_map (fun i => match nth_error coros i with
                     | Some r => [(i, r)]
                     | None => []
                     end) order.

Fixpoint lookup {A} (i : nat) (log : list (nat * A)) : option A :=
  match log with
  | [] => None
  | (j, r) :: log' => if Nat.eqb j i then Some r else lookup i log'
  end.

(** What one slot of the result list holds once its coroutine is done. *)
Definition slot {A} (r : option A) : list A :=
  match r with Some x => [x] | None => [] end.

(** [await asyncio.gather] over the coroutines, with
    [return_exceptions=True]: the result list is read slot by slot, in
    the order the coroutines were passed. *)
Definition gather {A} (order : list nat) (coros : list A) : list A :=
  flat_map (fun i => slot (lookup i (completions order coros)))
    (seq 0 (List.length coros)).

(** Every coroutine that was started finishes exactly once. *)
Definition fair (scheduler : nat -> list nat) : Prop :=
  forall n, Permutation (scheduler n) (seq 0 n).

End asyncio.

(* ================================================================== *)
(** ** speaker.py *)
(* ================================================================== *)

Module speaker.

Definition max_chunk_size : nat := 4000.

Definition is_sentence_end (c : ascii) : bool :=
  Ascii.eqb c "."%char || Ascii.eqb c "!"%char || Ascii.eqb c "?"%char.

(** Where the scan of [re.split(r'(?<=[.!?])\s+', ...)] stands: the
    previous character satisfies the look-behind, it does not, or the
    scan is inside a separator that has already matched. *)
Inductive scan : Type := AfterEnd | AfterOther | InSeparator.

Definition scan_of (c : ascii) : scan :=
  if is_sentence_end c then AfterEnd else AfterOther.

Definition push_front (c : ascii) (pieces : list string) : list string :=
  match pieces with
  | [] => [String c EmptyString]
  | p :: ps => String c p :: ps
  end.

(** [re.split(r'(?<=[.!?])\s+', s)] *)
Fixpoint re_split_from (st : scan) (s : string) : list string :=
  match s with
  | EmptyString => [EmptyString]
  | String c s' =>
      match st with
      | InSeparator =>
          if Py.isspace c then re_split_from InSeparator s'
          else push_front c (re_split_from (scan_of c) s')
      | AfterEnd =>
          if Py.isspace c then EmptyString :: re_split_from InSeparator s'
          else push_front c (re_split_from (scan_of c) s')
      | AfterOther => push_front c (re_split_from (scan_of c) s')
      end
  end.

Definition re_split_sentences (s : string) : list string :=
  re_split_from AfterOther s.

(** The body of the [for sentence in sentences] loop; the state is the
    pair [(chunks, current_chunk)]. *)
Definition chunk_step (max_length : nat) (st : list string * string)
  (sentence : string) : list string * string :=
  let (chunks, current_chunk) := st in
  if negb (Py.nonempty sentence) then st
  else if (max_length <? String.length current_chunk + String.length sentence + 1)
          && Py.nonempty current_chunk
  then ((chunks ++ [Py.strip current_chunk])%list, sentence ++ " ")
  else (chunks, current_chunk ++ sentence ++ " ").

Definition _split_into_chunks (text : string) (max_length : nat) : list string :=
  let sentences := re_split_sentences (Py.replace_char "010"%char " " text) in
  let (chunks, current_chunk) :=
    fold_left (chunk_step max_length) sentences ([], EmptyString) in
  if Py.nonempty current_chunk then (chunks ++ [Py.strip current_chunk])%list
  else chunks.

(** The instance attributes set by [__init__]. *)
Record Speaker : Type := {
  voice_name : string;
  output_directory : string;
  max_chunk_size_of : nat
}.

Definition __init__ : Speaker := {|
  voice_name := "nova";
  output_directory := "podcasts";
  max_chunk_size_of := 4000
|}.

Definition valid_voices : list string :=
  ["alloy"; "echo"; "fable"; "onyx"; "nova"; "shimmer"].

Definition set_voice (self : Speaker) (name : string) : Speaker :=
  if existsb (String.eqb name) valid_voices
  then {| voice_name := name;
          output_directory := output_directory self;
          max_chunk_size_of := max_chunk_size_of self |}
  else self.

(** The expression that [_convert_text_to_audio] binds to [clean_topic]:
    every character that is not alphanumeric becomes an underscore. *)
Fixpoint clean_topic (topic_name : string) : string :=
  match topic_name with
  | EmptyString => EmptyString
  | String c rest =>
      String (if Py.isalnum c then c else "_"%char) (clean_topic rest)
  end.

End speaker.

(* ================================================================== *)
(** ** agent.py *)
(* ================================================================== *)

Module agent.

Record TaskResult : Type := {
  task_id : string;
  task_description : string;
  findings : string;
  sources : list string;
  confidence_score : Q;
  status : string
}.

(** The abstract class [BaseAgent]: an agent is known to the supervisor
    only through its identifier and its two abstract methods.  A task is
    the dictionary built by [plan_research]. *)
Record BaseAgent : Type := {
  agent_id : string;
  model_name : string;
  capabilities : list string;
  execute_task : Py.dict -> Py.outcome TaskResult;
  can_handle_task : string -> bool
}.

End agent.

(* ================================================================== *)
(** ** web_researcher.py *)
(* ================================================================== *)

Module web_researcher.

(** One search hit: the dictionary with the keys [title], [url],
    [snippet], [domain] and [source] that both
    [parse_google_search_results] and [simulate_search_results] build. *)
Record SearchResult : Type := {
  sr_title : string;
  sr_url : string;
  sr_snippet : string;
  sr_domain : string;
  sr_source : string
}.

(** One extracted source, as built by [extract_single_source]. *)
Record ExtractedSource : Type := {
  url : string;
  title : string;
  domain : string;
  content : string;
  snippet : string;
  relevance_score : Q
}.

(** Answer of the search provider: the request or the decoding of its
    body raised, or a response with a status, its text and the [items]
    entry of its JSON body when there is one. *)
Inductive google_reply : Type :=
| GoogleFailure (err : string)
| GoogleHttp (status : nat) (error_text : string)
             (items : option (list Py.dict)).

(** Answer of a page fetch: the request or the HTML parse raised, or a
    response with a status and the text that the content selectors of
    [scrape_web_content] picked out of the page. *)
Inductive page_reply : Type :=
| PageFailure (err : string)
| PageHttp (status : nat) (text : string).

(** What lies outside the agent. *)
Record World : Type := {
  scheduler : nat -> list nat;
  google_search_api : string -> nat -> google_reply;
  fetch_page : string -> page_reply;
  chat_completion :
    string -> string -> string -> list ExtractedSource -> Py.outcome string;
  clean_extracted_content : string -> string;
  urlparse_netloc : string -> Py.outcome string
}.

(** The instance attributes set by [__init__]. *)
Record WebResearcher : Type := {
  agent_id : string;
  model_name : string;
  capabilities : list string;
  max_sources : nat;
  timeout : nat;
  google_api_key : option string;
  google_search_engine_id : option string
}.

Definition __init__ (api_key engine_id : option string) : WebResearcher := {|
  agent_id := "web_researcher";
  model_name := "gpt-4o-mini";
  capabilities := ["web_search"; "content_extraction"; "fact_checking"];
  max_sources := 10;
  timeout := 10;
  google_api_key := api_key;
  google_search_engine_id := engine_id
|}.

Definition can_handle_task (self : WebResearcher) (task_type : string) : bool :=
  existsb (String.eqb task_type) ["web_search"; "fact_checking"; "current_events"].

Definition extract_domain_from_url (w : World) (link : string) : string :=
  match urlparse_netloc w link with
  | Py.Returned netloc => netloc
  | Py.Raised _ => "unknown-domain"
  end.

Definition parse_item (w : World) (item : Py.dict) : SearchResult :=
  let display_link := Py.get "displayLink" EmptyString item in
  {| sr_title := Py.get "title" "No title" item;
     sr_url := Py.get "link" EmptyString item;
     sr_snippet := Py.get "snippet" "No snippet available" item;
     sr_domain := if Py.nonempty display_link then display_link
                  else extract_domain_from_url w (Py.get "link" EmptyString item);
     sr_source := "google_search" |}.

Definition valid_url (u : string) : bool :=
  Py.nonempty u && (Py.startswith "http://" u || Py.startswith "https://" u).

Definition parse_google_search_results (w : World)
  (items : option (list Py.dict)) : list SearchResult :=
  let items := match items with Some l => l | None => [] end in
  filter (fun result => valid_url (sr_url result)) (map (parse_item w) items).

Definition call_google_search_api (self : WebResearcher) (w : World)
  (query : string) (num_results : nat) : Py.outcome (list SearchResult) :=
  if negb (Py.truthy (google_api_key self))
     || negb (Py.truthy (google_search_engine_id self))
  then Py.Raised "Google Search API credentials not configured"
  else
    match google_search_api w query (Nat.min num_results 10) with
    | GoogleFailure err => Py.Raised err
    | GoogleHttp status error_text items =>
        if status =? 200
        then Py.Returned (parse_google_search_results w items)
        else Py.Raised ("Google Search API error " ++ Py.str_of_nat status
                        ++ ": " ++ error_text)
    end.

Definition simulate_search_results (query : string) : list SearchResult :=
  [ {| sr_title := "Research on " ++ query;
       sr_url := "https://example.com/research/"
                 ++ Py.replace_char " "%char "-" query;
       sr_snippet := "Comprehensive information about " ++ query;
       sr_domain := "example.com";
       sr_source := "simulated" |};
    {| sr_title := query ++ " - Academic Study";
       sr_url := "https://academic.edu/study/"
                 ++ Py.replace_char " "%char "_" query;
       sr_snippet := "Academic research on " ++ query;
       sr_domain := "academic.edu";
       sr_source := "simulated" |} ].

Definition perform_web_search (self : WebResearcher) (w : World)
  (query : string) : list SearchResult :=
  let search_results :=
    if Py.truthy (google_api_key self)
       && Py.truthy (google_search_engine_id self)
    then match call_google_search_api self w query 10 with
         | Py.Returned results => results
         | Py.Raised _ => []
         end
    else [] in
  match search_results with
  | [] => simulate_search_results query
  | _ => search_results
  end.

Definition calculate_relevance_score (content : string) (source : SearchResult)
  : Q :=
  let score := 0%Q in
  let domain := sr_domain source in
  let score :=
    if existsb (fun trusted => Py.contains trusted domain)
         [".edu"; ".gov"; ".org"]
    then (score + 0.3)%Q
    else if existsb (fun news => Py.contains news domain)
              ["bbc"; "reuters"; "cnn"; "nytimes"]
    then (score + 0.2)%Q
    else score in
  let score :=
    if 1000 <? String.length content then (score + 0.2)%Q
    else if 500 <? String.length content then (score + 0.1)%Q
    else score in
  let title := Py.lower (sr_title source) in
  let score := if 10 <? String.length title then (score + 0.1)%Q else score in
  Qmin score 1.

Definition scrape_web_content (w : World) (link : string) : option string :=
  match fetch_page w link with
  | PageFailure _ => None
  | PageHttp status text =>
      if status =? 200
      then Some (Py.slice_to 5000 (clean_extracted_content w text))
      else None
  end.

Definition extract_single_source (w : World) (source : SearchResult)
  : option ExtractedSource :=
  match scrape_web_content w (sr_url source) with
  | Some c =>
      if Py.nonempty c && (100 <? String.length c)
      then Some {| url := sr_url source;
                   title := sr_title source;
                   domain := sr_domain source;
                   content := c;
                   snippet := sr_snippet source;
                   relevance_score := calculate_relevance_score c source |}
      else None
  | None => None
  end.

(** [list.sort(key=relevance_score, reverse=True)]: stable, descending. *)
Fixpoint insert_by_relevance (x : ExtractedSource) (l : list ExtractedSource)
  : list ExtractedSource :=
  match l with
  | [] => [x]
  | y :: l' =>
      if Qle_bool (relevance_score y) (relevance_score x) then x :: l
      else y :: insert_by_relevance x l'
  end.

Definition sort_by_relevance (l : list ExtractedSource) : list ExtractedSource :=
  fold_right insert_by_relevance [] l.

Definition not_none {A} (results : list (option A)) : list A :=
  flat_map (fun r => match r with Some x => [x] | None => [] end) results.

Definition extract_content_from_sources (self : WebResearcher) (w : World)
  (search_results : list SearchResult) : list ExtractedSource :=
  match search_results with
  | [] => []
  | _ =>
      let limited_results := firstn (max_sources self) search_results in
      let extraction_tasks := map (extract_single_source w) limited_results in
      let results :=
        asyncio.gather (scheduler w (List.length extraction_tasks))
          extraction_tasks in
      sort_by_relevance (not_none results)
  end.

Definition create_fallback_summary (query : string)
  (extracted_content : list ExtractedSource) : string :=
  match extracted_content with
  | [] => "No substantial information found for '" ++ query ++ "'."
  | _ =>
      let summary_parts :=
        ("Research findings for '" ++ query ++ "':" ++ Py.nl)
        :: map (fun '(i, content_item) =>
                  Py.str_of_nat i ++ ". From " ++ domain content_item ++ ": "
                  ++ Py.slice_to 200 (content content_item) ++ "...")
             (Py.enumerate 1 (firstn 2 extracted_content)) in
      Py.join Py.nl summary_parts
  end.

Definition synthesize_research_findings (w : World)
  (query description context : string)
  (extracted_content : list ExtractedSource) : string :=
  match extracted_content with
  | [] => "Unable to find substantial information about '" ++ query
          ++ "'. No reliable sources were accessible."
  | _ =>
      match chat_completion w query description context extracted_content with
      | Py.Returned synthesized_findings => synthesized_findings
      | Py.Raised _ => create_fallback_summary query extracted_content
      end
  end.

Definition extract_reliable_sources (extracted_content : list ExtractedSource)
  : list string :=
  map url (filter (fun c => negb (Qle_bool (relevance_score c) 0.1))
             extracted_content).

Definition q_of_nat (n : nat) : Q := inject_Z (Z.of_nat n).

Definition q_sum (l : list Q) : Q := fold_left Qplus l 0%Q.

Definition calculate_confidence_score
  (extracted_content : list ExtractedSource) (sources : list string) : Q :=
  match extracted_content with
  | [] => 0%Q
  | _ =>
      let source_score := Qmin (q_of_nat (List.length sources) * 0.2) 0.6 in
      let avg_relevance :=
        (q_sum (map relevance_score extracted_content)
         / q_of_nat (List.length extracted_content))%Q in
      let quality_score := (avg_relevance * 0.4)%Q in
      Qmin (source_score + quality_score) 0.95
  end.

Definition execute_task (self : WebResearcher) (w : World) (task : Py.dict)
  : agent.TaskResult :=
  let query := Py.get_opt "query" task in
  let description := Py.get "description" "No description provided" task in
  let context := Py.get "context" EmptyString task in
  if negb (Py.truthy query)
  then {| agent.task_id := agent_id self;
          agent.task_description := description;
          agent.findings := "No query provided for web search";
          agent.sources := [];
          agent.confidence_score := 0%Q;
          agent.status := "failed" |}
  else
    let query := match query with Some q => q | None => EmptyString end in
    let search_results := perform_web_search self w query in
    let extracted_content :=
      extract_content_from_sources self w search_results in
    let synthesized_findings :=
      synthesize_research_findings w query description context
        extracted_content in
    let reliable_sources := extract_reliable_sources extracted_content in
    let confidence_score :=
      calculate_confidence_score extracted_content reliable_sources in
    {| agent.task_id := agent_id self;
       agent.task_description := description;
       agent.findings := synthesized_findings;
       agent.sources := reliable_sources;
       agent.confidence_score := confidence_score;
       agent.status := "completed" |}.

(** The researcher seen through the [BaseAgent] interface, as the
    supervisor holds it after [add_sub_agent].  On a task of strings,
    with a completion that is text, the fields of the result are
    strings and building it does not raise; [any_researcher] below has
    the general case. *)
Definition as_agent (self : WebResearcher) (w : World) : agent.BaseAgent := {|
  agent.agent_id := agent_id self;
  agent.model_name := model_name self;
  agent.capabilities := capabilities self;
  agent.execute_task := fun task => Py.Returned (execute_task self w task);
  agent.can_handle_task := can_handle_task self
|}.

End web_researcher.

(* ================================================================== *)
(** ** supervisor.py *)
(* ================================================================== *)

Module supervisor.

(** What lies outside the supervisor: the event loop, the chat
    completion asked for follow-up questions on a topic (the text of its
    first choice), and [json.loads] followed by the two [get] calls on
    the decoded object, which raises when the text is not JSON or does
    not decode to an object. *)
Record World : Type := {
  scheduler : nat -> list nat;
  chat_completion : string -> Py.outcome string;
  json_loads : string -> Py.outcome (option (list string) * option string)
}.

(** The instance attributes set by [__init__] and [add_sub_agent]. *)
Record Supervisor : Type := {
  agent_id : string;
  model_name : string;
  sub_agents : list agent.BaseAgent;
  task_queue : list Py.dict;
  max_parallel_tasks : nat
}.

Definition __init__ : Supervisor := {|
  agent_id := "supervisor";
  model_name := "gpt-o4-mini";
  sub_agents := [];
  task_queue := [];
  max_parallel_tasks := 10
|}.

Definition add_sub_agent (self : Supervisor) (a : agent.BaseAgent)
  : Supervisor := {|
  agent_id := agent_id self;
  model_name := model_name self;
  sub_agents := (sub_agents self ++ [a])%list;
  task_queue := task_queue self;
  max_parallel_tasks := max_parallel_tasks self
|}.

Definition can_handle_task (self : Supervisor) (task_type : string) : bool :=
  existsb (String.eqb task_type)
    ["coordinate_research"; "plan_research"; "delegate_tasks"].

Definition message_header : string :=
  "To better focus the research, please consider these follow-up questions:"
  ++ Py.nl ++ Py.nl.

(** The loop [for i, question in enumerate(questions, 1)] appending one
    numbered line per question to [message]. *)
Definition number_questions (message : string) (questions : list string)
  : string :=
  fold_left (fun message '(i, question) =>
               message ++ Py.str_of_nat i ++ ". " ++ question ++ Py.nl)
    (Py.enumerate 1 questions) message.

Definition fallback_questions (research_topic : string) : list string :=
  [ "What specific aspects of " ++ research_topic
    ++ " are you most interested in?";
    "Are there any time constraints or geographic focus for this research on "
    ++ research_topic ++ "?";
    "What is the primary goal or outcome you hope to achieve with this research?"
  ].

(** The clean-up of the provider's text before it is decoded: strip it,
    and drop a markdown code fence when the text starts with one. *)
Definition strip_code_fence (content : string) : string :=
  let response_text := Py.strip content in
  if Py.startswith "```json" response_text
  then Py.strip (Py.replace "```" EmptyString
                   (Py.replace "```json" EmptyString response_text))
  else response_text.

(** The body of the [try] block of [generate_follow_up_questions]. *)
Definition ask_follow_up_questions (w : World) (research_topic : string)
  : Py.outcome (list string * string) :=
  content <- chat_completion w research_topic ;;
  let response_text := strip_code_fence content in
  question_data <- json_loads w response_text ;;
  let questions :=
    match fst question_data with Some l => l | None => [] end in
  let explanation :=
    match snd question_data with Some e => e | None => EmptyString end in
  let question_message := number_questions message_header questions in
  let question_message := question_message ++ Py.nl ++ explanation in
  Py.Returned (questions, question_message).

Definition generate_follow_up_questions (w : World) (research_topic : string)
  : Py.outcome (list string * string) :=
  Py.try_except (ask_follow_up_questions w research_topic)
    (fun e =>
       let fallback_questions := fallback_questions research_topic in
       let fallback_message :=
         number_questions message_header fallback_questions in
       Py.Returned (fallback_questions, fallback_message)).

(** [task_groups[task_type].append(task)], creating the group at the end
    of the dictionary when the type is seen for the first time. *)
Fixpoint add_to_group (task_type : string) (task : Py.dict)
  (task_groups : list (string * list Py.dict))
  : list (string * list Py.dict) :=
  match task_groups with
  | [] => [(task_type, [task])]
  | (k, task_list) :: rest =>
      if String.eqb k task_type then (k, (task_list ++ [task])%list) :: rest
      else (k, task_list) :: add_to_group task_type task rest
  end.

Definition group_tasks_by_type (tasks : list Py.dict)
  : list (string * list Py.dict) :=
  fold_left (fun task_groups task =>
               add_to_group (Py.get "type" "unknown" task) task task_groups)
    tasks [].

(** The coroutine [execute_single_task].  On a task of strings the
    [task_id] and the [description] that the [except] block copies are
    strings, and building the failure result does not raise;
    [any_supervisor] below has the general case. *)
Definition execute_single_task (task : Py.dict) (a : agent.BaseAgent)
  : Py.outcome agent.TaskResult :=
  Py.try_except (agent.execute_task a task)
    (fun e => Py.Returned
       {| agent.task_id := Py.get "task_id" "failed_task" task;
          agent.task_description := Py.get "description" "Failed task" task;
          agent.findings := "Task failed with error: " ++ e;
          agent.sources := [];
          agent.confidence_score := 0%Q;
          agent.status := "failed" |}).

(** [agents[i % len(agents)]] in a list that starts with [first]. *)
Definition round_robin (agents : list agent.BaseAgent)
  (first : agent.BaseAgent) (i : nat) : agent.BaseAgent :=
  nth (i mod List.length agents) agents first.

(** The list comprehension keeping the [TaskResult] instances. *)
Definition valid_results (results : list (Py.outcome agent.TaskResult))
  : list agent.TaskResult :=
  flat_map (fun result => match result with
                          | Py.Returned r => [r]
                          | Py.Raised _ => []
                          end) results.

(** The loop that builds [task_assignments]: the task at index [i] goes
    to [agents[i % len(agents)]]. *)
Definition task_assignments (tasks : list Py.dict)
  (agents : list agent.BaseAgent) (first : agent.BaseAgent)
  : list (Py.outcome agent.TaskResult) :=
  map (fun '(i, task) => execute_single_task task (round_robin agents first i))
    (Py.enumerate 0 tasks).

Definition execute_tasks_parallel (w : World) (tasks : list Py.dict)
  (agents : list agent.BaseAgent) : list agent.TaskResult :=
  match tasks, agents with
  | [], _ => []
  | _, [] => []
  | _, first :: _ =>
      let task_assignments := task_assignments tasks agents first in
      let results :=
        asyncio.gather (scheduler w (List.length task_assignments))
          task_assignments in
      valid_results results
  end.

Definition capable_agents (self : Supervisor) (task_type : string)
  : list agent.BaseAgent :=
  filter (fun a => agent.can_handle_task a task_type) (sub_agents self).

Definition delegate_tasks (self : Supervisor) (w : World)
  (tasks : list Py.dict) : list agent.TaskResult :=
  match tasks with
  | [] => []
  | _ =>
      let task_groups := group_tasks_by_type tasks in
      fold_left (fun all_results '(task_type, task_list) =>
                   match capable_agents self task_type with
                   | [] => all_results
                   | capable =>
                       (all_results
                        ++ execute_tasks_parallel w task_list capable)%list
                   end)
        task_groups []
  end.

(** The decoded complexity assessment: the entries of the JSON object
    that the code reads, each absent when the object has no such key.
    [is_complex] holds the truth value of the entry. *)
Record Analysis : Type := {
  is_complex : option bool;
  main_aspects : option (list string);
  recommended_subtopics : option nat;
  research_approach : option string;
  reasoning : option string
}.

(** What the planning steps need from outside, on top of [World]: the
    two chat completions (the text of their first choice) and
    [json.loads] on their cleaned text, which raises when the text is
    not JSON or does not decode to what the code then reads (an object
    for the assessment, an object with a [subtopics] list for the
    sub-topics). *)
Record Planner : Type := {
  base : World;
  chat_complexity : string -> string -> Py.outcome string;
  json_loads_analysis : string -> Py.outcome Analysis;
  chat_subtopics : string -> Analysis -> string -> Py.outcome string;
  json_loads_subtopics : string -> Py.outcome (list Py.dict)
}.

(** The message of the [UnboundLocalError] raised when the clause
    [except json.JSONDecodeError] is evaluated before the statement
    [import json] of the [try] block has run: [json] is a local name of
    the function and the module does not import it. *)
Definition json_unbound : string :=
  "cannot access local variable 'json' where it is not associated with a value".

Definition _get_fallback_complexity_analysis (research_topic : string)
  : Analysis := {|
  is_complex := Some (3 <? List.length (Py.split research_topic));
  main_aspects := Some [research_topic];
  recommended_subtopics := Some 1;
  research_approach := Some "exploratory";
  reasoning := Some "Fallback analysis due to LLM error"
|}.

(** The provider call and the reading of its text come before
    [import json]: when they raise, matching the first [except] clause
    raises in turn and the function raises.  Once [json] is imported,
    both clauses lead to the fallback. *)
Definition analyze_topic_complexity (p : Planner)
  (research_topic enhanced_context : string) : Py.outcome Analysis :=
  match chat_complexity p research_topic enhanced_context with
  | Py.Raised _ => Py.Raised json_unbound
  | Py.Returned content =>
      let response_text := strip_code_fence content in
      Py.try_except (json_loads_analysis p response_text)
        (fun e =>
           Py.Returned (_get_fallback_complexity_analysis research_topic))
  end.

Definition _get_fallback_subtopics (research_topic : string) : list Py.dict :=
  [ [ ("query", research_topic);
      ("description", "Research on " ++ research_topic);
      ("context", "comprehensive overview");
      ("priority", "high");
      ("rationale", "Fallback single topic due to LLM error") ] ].

Definition generate_subtopics (p : Planner) (research_topic : string)
  (complexity_analysis : Analysis) (enhanced_context : string)
  : Py.outcome (list Py.dict) :=
  match chat_subtopics p research_topic complexity_analysis enhanced_context with
  | Py.Raised _ => Py.Raised json_unbound
  | Py.Returned content =>
      let response_text := strip_code_fence content in
      Py.try_except (json_loads_subtopics p response_text)
        (fun e => Py.Returned (_get_fallback_subtopics research_topic))
  end.

Definition analyze_and_break_down_topic (p : Planner)
  (research_topic enhanced_context : string) : Py.outcome (list Py.dict) :=
  complexity_analysis <-
    analyze_topic_complexity p research_topic enhanced_context ;;
  match is_complex complexity_analysis with
  | None => Py.Raised "'is_complex'"
  | Some true =>
      generate_subtopics p research_topic complexity_analysis enhanced_context
  | Some false =>
      Py.Returned
        [ [ ("query", research_topic);
            ("description", "Comprehensive research on " ++ research_topic);
            ("context",
             if Py.nonempty enhanced_context then enhanced_context
             else "provide a thorough overview of the topic");
            ("priority", "high") ] ]
  end.

(** The loop of [plan_research] over [enumerate(sub_topics)], from index
    [i] on.  The entry [sources], an empty list that no code reads, is
    left out of the task: the dictionaries of the model hold strings. *)
Fixpoint build_tasks (i : nat) (sub_topics : list Py.dict)
  : Py.outcome (list Py.dict) :=
  match sub_topics with
  | [] => Py.Returned []
  | sub_topic :: rest =>
      query <- Py.getitem "query" sub_topic ;;
      description <- Py.getitem "description" sub_topic ;;
      context <- Py.getitem "context" sub_topic ;;
      let task :=
        [ ("task_id", "research_task_" ++ Py.str_of_nat (i + 1));
          ("type", "web_search");
          ("query", query);
          ("description", description);
          ("context", context);
          ("priority", Py.get "priority" "medium" sub_topic) ] in
      tasks <- build_tasks (S i) rest ;;
      Py.Returned (task :: tasks)
  end.

Definition set_task_queue (self : Supervisor) (tasks : list Py.dict)
  : Supervisor := {|
  agent_id := agent_id self;
  model_name := model_name self;
  sub_agents := sub_agents self;
  task_queue := tasks;
  max_parallel_tasks := max_parallel_tasks self
|}.

(** [plan_research] returns the tasks and leaves them in
    [self.task_queue]; the supervisor after the call is the first
    component of the result. *)
Definition plan_research (self : Supervisor) (p : Planner)
  (research_topic additional_context : string)
  : Py.outcome (Supervisor * list Py.dict) :=
  enhanced_context <-
    (if negb (Py.nonempty additional_context)
     then
       asked <- generate_follow_up_questions (base p) research_topic ;;
       Py.Returned
         (research_topic ++ Py.nl ++ Py.nl
          ++ "Additional context/questions to consider:" ++ Py.nl
          ++ snd asked)
     else
       Py.Returned (research_topic ++ Py.nl ++ Py.nl ++ additional_context)) ;;
  sub_topics <- analyze_and_break_down_topic p research_topic enhanced_context ;;
  tasks <- build_tasks 0 sub_topics ;;
  Py.Returned (set_task_queue self tasks, tasks).

(** The dictionary returned by [get_research_summary]. *)
Record Summary : Type := {
  total_agents : nat;
  queued_tasks : nat;
  agent_capabilities : list (list string);
  summary_max_parallel_tasks : nat
}.

Definition get_research_summary (self : Supervisor) : Summary := {|
  total_agents := List.length (sub_agents self);
  queued_tasks := List.length (task_queue self);
  agent_capabilities := map agent.capabilities (sub_agents self);
  summary_max_parallel_tasks := max_parallel_tasks self
|}.

Definition execute_task (self : Supervisor) (p : Planner) (task : Py.dict)
  : Py.outcome (Supervisor * agent.TaskResult) :=
  let coordinate :=
    match Py.get_opt "type" task with
    | Some task_type => String.eqb task_type "coordinate_research"
    | None => false
    end in
  if coordinate
  then
      let topic := Py.get "query" "Unknown topic" task in
      asked <- generate_follow_up_questions (base p) topic ;;
      let enhanced_context := topic ++ Py.nl ++ Py.nl ++ snd asked in
      planned <- plan_research self p topic enhanced_context ;;
      let (self, subtasks) := planned in
      let results := delegate_tasks self (base p) subtasks in
      let findings :=
        "Coordinated research on '" ++ topic ++ "' with "
        ++ Py.str_of_nat (List.length subtasks) ++ " sub-tasks. "
        ++ "Collected " ++ Py.str_of_nat (List.length results)
        ++ " results from sub-agents." in
      Py.Returned
        (self,
         {| agent.task_id := agent_id self;
            agent.task_description := "Coordinated research on " ++ topic;
            agent.findings := findings;
            agent.sources := [];
            agent.confidence_score := 0.9%Q;
            agent.status := "completed" |})
  else
      Py.Returned
        (self,
         {| agent.task_id := agent_id self;
            agent.task_description := "Unsupported supervisor task";
            agent.findings := "Supervisor only handles coordination tasks";
            agent.sources := [];
            agent.confidence_score := 0%Q;
            agent.status := "unsupported" |}).

End supervisor.

(* ================================================================== *)
(** ** main_system.py *)
(* ================================================================== *)

Module main_system.

(** [DeepResearchSystem._setup_agents]: the supervisor of the system
    holds one web researcher. *)
Definition _setup_agents (researcher : web_researcher.WebResearcher)
  (w : web_researcher.World) : supervisor.Supervisor :=
  supervisor.add_sub_agent supervisor.__init__
    (web_researcher.as_agent researcher w).

End main_system.

(* ================================================================== *)
(** ** Tasks as the supervisor receives them: [Dict[str, Any]] *)
(* ================================================================== *)

(** The modules above read a task as a dictionary of strings, and the
    text of a completion as a string.  The entries of a task come from
    the decoded answer of the provider, where an entry can also be
    null, and so can the text of a completion.  The modules below model
    the code on such tasks, with the validation that building a
    [TaskResult] performs: there the researcher and the coroutine of
    the supervisor can raise.  On tasks that hold strings only, and
    with completions that are text, they agree with the modules above
    (see [execute_task_lift], [execute_single_task_lift] and
    [delegate_tasks_lift]). *)

Module Any.

(** A value of a task: a [str], or [None] (a JSON null).  The other
    values that a decoded answer can hold (numbers, lists, objects) are
    not modelled. *)
Inductive value : Type :=
| Str (s : string)
| NoneValue.

Definition dict : Type := list (string * value).

(** [d.get(key)] *)
Fixpoint get_opt (key : string) (d : dict) : option value :=
  match d with
  | [] => None
  | (k, v) :: d' => if String.eqb k key then Some v else get_opt key d'
  end.

(** [d.get(key, default)] *)
Definition get (key : string) (default : value) (d : dict) : value :=
  match get_opt key d with
  | Some v => v
  | None => default
  end.

(** Truth value of [d.get(key)]: a missing entry, [None] and [''] are
    falsy. *)
Definition truthy (v : option value) : bool :=
  match v with
  | Some (Str (String _ _)) => true
  | _ => false
  end.

(** [a == b], also the comparison of dictionary keys. *)
Definition eqb (a b : value) : bool :=
  match a, b with
  | Str x, Str y => String.eqb x y
  | NoneValue, NoneValue => true
  | _, _ => false
  end.

Definition is_str (v : value) : bool :=
  match v with
  | Str _ => true
  | NoneValue => false
  end.

(** [str(v)], as an f-string formats a value. *)
Definition format (v : value) : string :=
  match v with
  | Str s => s
  | NoneValue => "None"
  end.

(** A dictionary of strings seen as a dictionary of values. *)
Definition lift (d : Py.dict) : dict :=
  map (fun '(k, v) => (k, Str v)) d.

End Any.

(* ================================================================== *)
(** ** pydantic: building a [TaskResult] *)
(* ================================================================== *)

Module pydantic.

(** The text of a [ValidationError]; it depends on the version of the
    library and is abbreviated here. *)
Definition validation_error : string := "validation error for TaskResult".

(** A field annotated [str] accepts a string and rejects [None]. *)
Definition str_field (v : Any.value) : Py.outcome string :=
  match v with
  | Any.Str s => Py.Returned s
  | Any.NoneValue => Py.Raised validation_error
  end.

(** [TaskResult(task_id=..., task_description=..., findings=..., ...)]:
    the three fields that the code fills from values it does not
    control are validated; the others are given literally. *)
Definition TaskResult (task_id task_description findings : Any.value)
  (sources : list string) (confidence_score : Q) (status : string)
  : Py.outcome agent.TaskResult :=
  task_id <- str_field task_id ;;
  task_description <- str_field task_description ;;
  findings <- str_field findings ;;
  Py.Returned {| agent.task_id := task_id;
                 agent.task_description := task_description;
                 agent.findings := findings;
                 agent.sources := sources;
                 agent.confidence_score := confidence_score;
                 agent.status := status |}.

End pydantic.

(* ================================================================== *)
(** ** agent.py, on tasks of values *)
(* ================================================================== *)

Module any_agent.

(** [BaseAgent]: [execute_task] receives the task as it is, and
    [can_handle_task] the value found under [type]. *)
Record BaseAgent : Type := {
  agent_id : string;
  model_name : string;
  capabilities : list string;
  execute_task : Any.dict -> Py.outcome agent.TaskResult;
  can_handle_task : Any.value -> bool
}.

(** An agent on tasks of values, seen on tasks of strings. *)
Definition on_strings (a : BaseAgent) : agent.BaseAgent := {|
  agent.agent_id := agent_id a;
  agent.model_name := model_name a;
  agent.capabilities := capabilities a;
  agent.execute_task := fun task => execute_task a (Any.lift task);
  agent.can_handle_task := fun task_type => can_handle_task a (Any.Str task_type)
|}.

End any_agent.

(* ================================================================== *)
(** ** web_researcher.py, on tasks of values *)
(* ================================================================== *)

Module any_researcher.

(** The world of the researcher, where the text of the completion can
    be [None]: [chat_content] is the [content] of the first choice, and
    takes the place of [chat_completion] of [base]. *)
Record World : Type := {
  base : web_researcher.World;
  chat_content :
    string -> Any.value -> Any.value -> list web_researcher.ExtractedSource
    -> Py.outcome Any.value
}.

(** A world whose completions are always text. *)
Definition of_strings (w : web_researcher.World) : World := {|
  base := w;
  chat_content := fun query description context extracted_content =>
    match web_researcher.chat_completion w query (Any.format description)
            (Any.format context) extracted_content with
    | Py.Returned text => Py.Returned (Any.Str text)
    | Py.Raised e => Py.Raised e
    end
|}.

Definition can_handle_task (self : web_researcher.WebResearcher)
  (task_type : Any.value) : bool :=
  match task_type with
  | Any.Str t => web_researcher.can_handle_task self t
  | Any.NoneValue => false
  end.

Definition synthesize_research_findings (w : World) (query : string)
  (description context : Any.value)
  (extracted_content : list web_researcher.ExtractedSource) : Any.value :=
  match extracted_content with
  | [] => Any.Str ("Unable to find substantial information about '" ++ query
                   ++ "'. No reliable sources were accessible.")
  | _ =>
      match chat_content w query description context extracted_content with
      | Py.Returned synthesized_findings => synthesized_findings
      | Py.Raised _ =>
          Any.Str (web_researcher.create_fallback_summary query
                     extracted_content)
      end
  end.

Definition execute_task (self : web_researcher.WebResearcher) (w : World)
  (task : Any.dict) : Py.outcome agent.TaskResult :=
  let query := Any.get_opt "query" task in
  let description :=
    Any.get "description" (Any.Str "No description provided") task in
  let context := Any.get "context" (Any.Str EmptyString) task in
  if negb (Any.truthy query)
  then pydantic.TaskResult
         (Any.Str (web_researcher.agent_id self))
         description
         (Any.Str "No query provided for web search")
         [] 0%Q "failed"
  else
    let query :=
      match query with Some (Any.Str q) => q | _ => EmptyString end in
    let search_results :=
      web_researcher.perform_web_search self (base w) query in
    let extracted_content :=
      web_researcher.extract_content_from_sources self (base w)
        search_results in
    let synthesized_findings :=
      synthesize_research_findings w query description context
        extracted_content in
    let reliable_sources :=
      web_researcher.extract_reliable_sources extracted_content in
    let confidence_score :=
      web_researcher.calculate_confidence_score extracted_content
        reliable_sources in
    pydantic.TaskResult
      (Any.Str (web_researcher.agent_id self))
      description
      synthesized_findings
      reliable_sources confidence_score "completed".

Definition as_agent (self : web_researcher.WebResearcher) (w : World)
  : any_agent.BaseAgent := {|
  any_agent.agent_id := web_researcher.agent_id self;
  any_agent.model_name := web_researcher.model_name self;
  any_agent.capabilities := web_researcher.capabilities self;
  any_agent.execute_task := execute_task self w;
  any_agent.can_handle_task := can_handle_task self
|}.

End any_researcher.

(* ================================================================== *)
(** ** supervisor.py, on tasks of values *)
(* ================================================================== *)

Module any_supervisor.

Record Supervisor : Type := {
  agent_id : string;
  model_name : string;
  sub_agents : list any_agent.BaseAgent;
  task_queue : list Any.dict;
  max_parallel_tasks : nat
}.

Definition __init__ : Supervisor := {|
  agent_id := "supervisor";
  model_name := "gpt-o4-mini";
  sub_agents := [];
  task_queue := [];
  max_parallel_tasks := 10
|}.

Definition add_sub_agent (self : Supervisor) (a : any_agent.BaseAgent)
  : Supervisor := {|
  agent_id := agent_id self;
  model_name := model_name self;
  sub_agents := (sub_agents self ++ [a])%list;
  task_queue := task_queue self;
  max_parallel_tasks := max_parallel_tasks self
|}.

(** [task_groups[task_type].append(task)], creating the group at the end
    of the dictionary when the type is seen for the first time. *)
Fixpoint add_to_group (task_type : Any.value) (task : Any.dict)
  (task_groups : list (Any.value * list Any.dict))
  : list (Any.value * list Any.dict) :=
  match task_groups with
  | [] => [(task_type, [task])]
  | (k, task_list) :: rest =>
      if Any.eqb k task_type then (k, (task_list ++ [task])%list) :: rest
      else (k, task_list) :: add_to_group task_type task rest
  end.

Definition group_tasks_by_type (tasks : list Any.dict)
  : list (Any.value * list Any.dict) :=
  fold_left (fun task_groups task =>
               add_to_group (Any.get "type" (Any.Str "unknown") task) task
                 task_groups)
    tasks [].

(** The coroutine [execute_single_task]: building the result of the
    [except] block can itself raise, and then the coroutine raises. *)
Definition execute_single_task (task : Any.dict) (a : any_agent.BaseAgent)
  : Py.outcome agent.TaskResult :=
  Py.try_except (any_agent.execute_task a task)
    (fun e =>
       pydantic.TaskResult
         (Any.get "task_id" (Any.Str "failed_task") task)
         (Any.get "description" (Any.Str "Failed task") task)
         (Any.Str ("Task failed with error: " ++ e))
         [] 0%Q "failed").

(** [agents[i % len(agents)]] in a list that starts with [first]. *)
Definition round_robin (agents : list any_agent.BaseAgent)
  (first : any_agent.BaseAgent) (i : nat) : any_agent.BaseAgent :=
  nth (i mod List.length agents) agents first.

Definition task_assignments (tasks : list Any.dict)
  (agents : list any_agent.BaseAgent) (first : any_agent.BaseAgent)
  : list (Py.outcome agent.TaskResult) :=
  map (fun '(i, task) => execute_single_task task (round_robin agents first i))
    (Py.enumerate 0 tasks).

(** [gather] hands back the exception of a coroutine that raised, and
    the list comprehension keeps the [TaskResult] instances only. *)
Definition execute_tasks_parallel (w : supervisor.World)
  (tasks : list Any.dict) (agents : list any_agent.BaseAgent)
  : list agent.TaskResult :=
  match tasks, agents with
  | [], _ => []
  | _, [] => []
  | _, first :: _ =>
      let task_assignments := task_assignments tasks agents first in
      let results :=
        asyncio.gather (supervisor.scheduler w (List.length task_assignments))
          task_assignments in
      supervisor.valid_results results
  end.

Definition capable_agents (self : Supervisor) (task_type : Any.value)
  : list any_agent.BaseAgent :=
  filter (fun a => any_agent.can_handle_task a task_type) (sub_agents self).

Definition delegate_tasks (self : Supervisor) (w : supervisor.World)
  (tasks : list Any.dict) : list agent.TaskResult :=
  match tasks with
  | [] => []
  | _ =>
      let task_groups := group_tasks_by_type tasks in
      fold_left (fun all_results '(task_type, task_list) =>
                   match capable_agents self task_type with
                   | [] => all_results
                   | capable =>
                       (all_results
                        ++ execute_tasks_parallel w task_list capable)%list
                   end)
        task_groups []
  end.

(** [DeepResearchSystem._setup_agents]: the supervisor of the system
    holds one web researcher. *)
Definition _setup_agents (researcher : web_researcher.WebResearcher)
  (w : any_researcher.World) : Supervisor :=
  add_sub_agent __init__ (any_researcher.as_agent researcher w).

(** A group of tasks of strings seen as a group of tasks of values. *)
Definition lift_group (g : string * list Py.dict)
  : Any.value * list Any.dict :=
  (Any.Str (fst g), map Any.lift (snd g)).

(** A supervisor of agents on tasks of values, seen on tasks of
    strings. *)
Definition on_strings (self : Supervisor) : supervisor.Supervisor := {|
  supervisor.agent_id := agent_id self;
  supervisor.model_name := model_name self;
  supervisor.sub_agents := map any_agent.on_strings (sub_agents self);
  supervisor.task_queue := [];
  supervisor.max_parallel_tasks := max_parallel_tasks self
|}.

End any_supervisor.

(* ================================================================== *)
(** ** Concrete worlds used to run the model *)
(* ================================================================== *)

Module demo.

(** Completion in the reverse of the submission order. *)
Definition last_first (n : nat) : list nat := rev (seq 0 n).

(** No network, no provider: every external call raises. *)
Definition offline : web_researcher.World := {|
  web_researcher.scheduler := last_first;
  web_researcher.google_search_api := fun _ _ =>
    web_researcher.GoogleFailure "network unreachable";
  web_researcher.fetch_page := fun _ =>
    web_researcher.PageFailure "network unreachable";
  web_researcher.chat_completion := fun _ _ _ _ =>
    Py.Raised "provider unavailable";
  web_researcher.clean_extracted_content := fun text => text;
  web_researcher.urlparse_netloc := fun _ => Py.Raised "no parser"
|}.

(** Every page answers 200 with [n] letters of text that cleaning
    leaves alone. *)
Definition pages_of_length (n : nat) : web_researcher.World := {|
  web_researcher.scheduler := last_first;
  web_researcher.google_search_api := fun _ _ =>
    web_researcher.GoogleFailure "network unreachable";
  web_researcher.fetch_page := fun _ =>
    web_researcher.PageHttp 200 (Py.repeat_char "a"%char n);
  web_researcher.chat_completion := fun _ _ _ _ =>
    Py.Raised "provider unavailable";
  web_researcher.clean_extracted_content := fun text => text;
  web_researcher.urlparse_netloc := fun _ => Py.Raised "no parser"
|}.

Definition researcher : web_researcher.WebResearcher :=
  web_researcher.__init__ None None.

Definition task_1 : Py.dict :=
  [ ("task_id", "research_task_1"); ("type", "web_search");
    ("query", "solar power"); ("description", "Research on solar power");
    ("context", "comprehensive overview"); ("priority", "high") ].

Definition a_source : web_researcher.SearchResult := {|
  web_researcher.sr_title := "Research on solar power";
  web_researcher.sr_url := "https://example.com/research/solar-power";
  web_researcher.sr_snippet := "Comprehensive information about solar power";
  web_researcher.sr_domain := "example.com";
  web_researcher.sr_source := "simulated"
|}.

(** A supervisor world whose provider always raises. *)
Definition no_provider : supervisor.World := {|
  supervisor.scheduler := last_first;
  supervisor.chat_completion := fun _ => Py.Raised "provider unavailable";
  supervisor.json_loads := fun _ => Py.Raised "Expecting value"
|}.

(** An agent whose [execute_task] always raises. *)
Definition broken_agent : agent.BaseAgent := {|
  agent.agent_id := "broken";
  agent.model_name := "none";
  agent.capabilities := [];
  agent.execute_task := fun _ => Py.Raised "boom";
  agent.can_handle_task := fun task_type => String.eqb task_type "web_search"
|}.

Definition a_supervisor : supervisor.Supervisor :=
  supervisor.add_sub_agent
    (supervisor.add_sub_agent supervisor.__init__
       (web_researcher.as_agent researcher offline))
    broken_agent.

Definition task_2 : Py.dict :=
  [ ("task_id", "research_task_2"); ("type", "web_search");
    ("query", "wind power"); ("description", "Research on wind power") ].

Definition task_3 : Py.dict :=
  [ ("task_id", "research_task_3"); ("type", "data_analysis");
    ("query", "grid load"); ("description", "Analyse grid load") ].

End demo.

(* ================================================================== *)
(** ** Concrete planners *)
(* ================================================================== *)

Module demo_plan.

(** The provider is down: every chat completion raises. *)
Definition provider_down : supervisor.Planner := {|
  supervisor.base := demo.no_provider;
  supervisor.chat_complexity := fun _ _ => Py.Raised "provider unavailable";
  supervisor.json_loads_analysis := fun _ => Py.Raised "Expecting value";
  supervisor.chat_subtopics := fun _ _ _ => Py.Raised "provider unavailable";
  supervisor.json_loads_subtopics := fun _ => Py.Raised "Expecting value"
|}.

(** The provider answers with prose that is not JSON. *)
Definition prose_provider : supervisor.Planner := {|
  supervisor.base := {|
    supervisor.scheduler := demo.last_first;
    supervisor.chat_completion := fun _ => Py.Returned "Sure, here you go";
    supervisor.json_loads := fun _ => Py.Raised "Expecting value"
  |};
  supervisor.chat_complexity := fun _ _ => Py.Returned "It is complex";
  supervisor.json_loads_analysis := fun _ => Py.Raised "Expecting value";
  supervisor.chat_subtopics := fun _ _ _ => Py.Returned "Three sub-topics";
  supervisor.json_loads_subtopics := fun _ => Py.Raised "Expecting value"
|}.

Definition coordinate_task : Py.dict :=
  [ ("type", "coordinate_research"); ("query", "solar power") ].

Definition plan_task : Py.dict :=
  [ ("type", "plan_research"); ("query", "solar power") ].

(** The task planned for the topic [solar power] with the context
    [focus on Europe] when the provider answers with prose. *)
Definition simple_task : Py.dict :=
  [ ("task_id", "research_task_1"); ("type", "web_search");
    ("query", "solar power");
    ("description", "Comprehensive research on solar power");
    ("context", "solar power" ++ Py.nl ++ Py.nl ++ "focus on Europe");
    ("priority", "high") ].

Definition system : supervisor.Supervisor :=
  main_system._setup_agents demo.researcher demo.offline.

End demo_plan.

(* ================================================================== *)
(** ** A world with a search provider *)
(* ================================================================== *)

Module demo_search.

Definition items : list Py.dict :=
  [ [ ("title", "Solar power"); ("link", "https://energy.gov/solar");
      ("snippet", "Solar basics"); ("displayLink", "energy.gov") ];
    [ ("title", "An FTP mirror"); ("link", "ftp://mirror.org/solar") ];
    [ ("title", "No link at all") ] ].

(** The provider answers 200 with three items, of which one has an
    [http] or [https] link; no page can be fetched. *)
Definition online : web_researcher.World := {|
  web_researcher.scheduler := demo.last_first;
  web_researcher.google_search_api := fun _ _ =>
    web_researcher.GoogleHttp 200 EmptyString (Some items);
  web_researcher.fetch_page := fun _ =>
    web_researcher.PageFailure "network unreachable";
  web_researcher.chat_completion := fun _ _ _ _ =>
    Py.Raised "provider unavailable";
  web_researcher.clean_extracted_content := fun text => text;
  web_researcher.urlparse_netloc := fun _ => Py.Raised "no parser"
|}.

Definition researcher : web_researcher.WebResearcher :=
  web_researcher.__init__ (Some "key") (Some "engine").

End demo_search.

(* ================================================================== *)
(** ** Tasks with a null entry *)
(* ================================================================== *)

Module demo_any.

(** A task as [plan_research] builds it from a sub-topic whose
    description the provider left null. *)
Definition null_description : Any.dict :=
  [ ("task_id", Any.Str "research_task_1"); ("type", Any.Str "web_search");
    ("query", Any.Str "solar power"); ("description", Any.NoneValue);
    ("context", Any.Str "comprehensive overview");
    ("priority", Any.Str "high") ].

Definition wind_task : Any.dict := Any.lift demo.task_2.

Definition offline : any_researcher.World :=
  any_researcher.of_strings demo.offline.

(** A world where pages can be read and the completion has no text. *)
Definition no_text : any_researcher.World := {|
  any_researcher.base := demo.pages_of_length 1200;
  any_researcher.chat_content := fun _ _ _ _ => Py.Returned Any.NoneValue
|}.

(** The system as [main_system] sets it up, without network. *)
Definition system : any_supervisor.Supervisor :=
  any_supervisor._setup_agents demo.researcher offline.

(** An agent whose [execute_task] always raises. *)
Definition broken_agent : any_agent.BaseAgent := {|
  any_agent.agent_id := "broken";
  any_agent.model_name := "none";
  any_agent.capabilities := [];
  any_agent.execute_task := fun _ => Py.Raised "boom";
  any_agent.can_handle_task := fun task_type =>
    Any.eqb task_type (Any.Str "web_search")
|}.

Definition two_agents : any_supervisor.Supervisor :=
  any_supervisor.add_sub_agent system broken_agent.

End demo_any.

(* ================================================================== *)
(** ** Vocabulary of the specification *)
(* ================================================================== *)

(** [p] occurs in [s] as a substring. *)
Definition is_substring (p s : string) : Prop :=
  exists pre post, s = pre ++ p ++ post.

(** The arithmetic mean of a list of scores. *)
Definition mean (scores : list Q) : Q :=
  (fold_right Qplus 0 scores / inject_Z (Z.of_nat (List.length scores)))%Q.

(** The confidence formula as the specification words it. *)
Definition spec_confidence (scores : list Q) (reliable : nat) : Q :=
  Qmin (Qmin (0.2 * inject_Z (Z.of_nat (Nat.min reliable 3))) 0.6
        + 0.4 * mean scores) 0.95.

(** The invariant of a [TaskResult]: a confidence within the unit
    interval, and a failure carries no confidence and no source. *)
Definition result_invariant (r : agent.TaskResult) : Prop :=
  (0 <= agent.confidence_score r <= 1)%Q /\
  (agent.status r = "failed" ->
   (agent.confidence_score r == 0)%Q /\ agent.sources r = []).

(** A task type is covered when some registered agent accepts it, and a
    task is covered when its type (or [unknown]) is. *)
Definition covered_type (self : supervisor.Supervisor) (task_type : string)
  : bool :=
  existsb (fun a => agent.can_handle_task a task_type)
    (supervisor.sub_agents self).

Definition covered (self : supervisor.Supervisor) (task : Py.dict) : bool :=
  covered_type self (Py.get "type" "unknown" task).

(** What the loop of [_split_into_chunks] maintains about
    [current_chunk]: it is empty, or it is some text of at most
    [max_length] characters followed by a blank. *)
Definition chunk_ok (max_length : nat) (current_chunk : string) : Prop :=
  current_chunk = EmptyString \/
  exists x, current_chunk = x ++ " " /\ String.length x <= max_length.

Definition chunks_ok (max_length : nat) (chunks : list string) : Prop :=
  Forall (fun chunk => String.length chunk <= max_length) chunks.

(** A list of extracted sources in descending order of relevance. *)
Definition descending (l : list web_researcher.ExtractedSource) : Prop :=
  Sorted (fun a b => (web_researcher.relevance_score b
                      <= web_researcher.relevance_score a)%Q) l.

(** The type under which [group_tasks_by_type] files a task. *)
Definition type_of (task : Py.dict) : string := Py.get "type" "unknown" task.

(** The elements of a list in the order of their first occurrence. *)
Definition first_seen (l : list string) : list string :=
  fold_left (fun seen x =>
               if existsb (String.eqb x) seen then seen else (seen ++ [x])%list)
    l [].

(** The tasks of a given type, in their input order. *)
Definition of_type (task_type : string) (tasks : list Py.dict)
  : list Py.dict :=
  filter (fun task => String.eqb (type_of task) task_type) tasks.

(** The characters of a string that are not whitespace. *)
Fixpoint non_blank (s : string) : string :=
  match s with
  | EmptyString => EmptyString
  | String c s' =>
      if Py.isspace c then non_blank s' else String c (non_blank s')
  end.

(** The concatenation of a list of strings. *)
Definition concat_strings (l : list string) : string :=
  fold_right String.append EmptyString l.

(** Every character of the string satisfies the test. *)
Fixpoint all_chars (f : ascii -> bool) (s : string) : bool :=
  match s with
  | EmptyString => true
  | String c s' => f c && all_chars f s'
  end.

(** A word: a non-empty string without whitespace. *)
Definition is_word (s : string) : bool :=
  Py.nonempty s && all_chars (fun c => negb (Py.isspace c)) s.

(** What a planned task looks like at index [k] when numbering starts
    after [i] tasks. *)
Definition planned_at (i k : nat) (task : Py.dict) : Prop :=
  Py.get_opt "task_id" task
    = Some ("research_task_" ++ Py.str_of_nat (i + k + 1))
  /\ Py.get_opt "type" task = Some "web_search"
  /\ Py.get_opt "query" task <> None
  /\ Py.get_opt "description" task <> None
  /\ Py.get_opt "context" task <> None
  /\ Py.get_opt "priority" task <> None.

(** A string that is empty or starts with a character that is not
    whitespace. *)
Definition starts_clean (s : string) : Prop :=
  match s with
  | EmptyString => True
  | String c _ => Py.isspace c = false
  end.

(** A character allowed in the directory name of a podcast. *)
Definition file_safe (c : ascii) : bool :=
  Py.isalnum c || Ascii.eqb c "_"%char.

(** The value under which [group_tasks_by_type] files a task of
    values. *)
Definition any_type_of (task : Any.dict) : Any.value :=
  Any.get "type" (Any.Str "unknown") task.

(** The values of a list in the order of their first occurrence. *)
Definition first_seen_values (l : list Any.value) : list Any.value :=
  fold_left (fun seen x =>
               if existsb (Any.eqb x) seen then seen else (seen ++ [x])%list)
    l [].

(** The tasks filed under a given value, in their input order. *)
Definition any_of_type (task_type : Any.value) (tasks : list Any.dict)
  : list Any.dict :=
  filter (fun task => Any.eqb (any_type_of task) task_type) tasks.


(** The [task_id] and the [description] of the task are strings, or
    absent: the values that the synthetic failure result is built
    from. *)
Definition identified (task : Any.dict) : bool :=
  Any.is_str (Any.get "task_id" (Any.Str "failed_task") task)
  && Any.is_str (Any.get "description" (Any.Str "Failed task") task).

(** The synthetic failure result for a task and an error text. *)
Definition synthetic_failure (task : Any.dict) (e : string)
  : Py.outcome agent.TaskResult :=
  pydantic.TaskResult
    (Any.get "task_id" (Any.Str "failed_task") task)
    (Any.get "description" (Any.Str "Failed task") task)
    (Any.Str ("Task failed with error: " ++ e))
    [] 0%Q "failed".



(** The [description] of the task is a string, or absent. *)
Definition described (task : Any.dict) : bool :=
  match Any.get_opt "description" task with
  | Some Any.NoneValue => false
  | _ => true
  end.

(** A task as [plan_research] builds its tasks: the type is
    [web_search] and the [task_id] is a string. *)
Definition planned (task : Any.dict) : bool :=
  Any.eqb (any_type_of task) (Any.Str "web_search")
  && Any.is_str (Any.get "task_id" (Any.Str "failed_task") task).

(* ================================================================== *)
(** * Properties *)
(* ================================================================== *)

(** ** Running the model on small inputs *)

Example re_split_example :
  speaker.re_split_sentences "a. b!  c ?d. " = ["a."; "b!"; "c ?d."; EmptyString].
Proof. reflexivity. Qed.

Example split_example :
  speaker._split_into_chunks "Hello there.  How are you? Fine! " 16
  = ["Hello there."; "How are you?"; "Fine!"].
Proof. reflexivity. Qed.

Example strip_code_fence_example :
  supervisor.strip_code_fence " ```json {} ``` " = "{}".
Proof. reflexivity. Qed.

Example delegate_example :
  map (fun r => (agent.task_id r, agent.status r))
    (supervisor.delegate_tasks demo.a_supervisor demo.no_provider
       [demo.task_1; demo.task_3; demo.task_2])
  = [("web_researcher", "completed"); ("research_task_2", "failed")].
Proof. vm_compute. reflexivity. Qed.

(** ** Facts about the string builtins *)

Section StringFacts.

Lemma length_append (a b : string) :
  String.length (a ++ b) = String.length a + String.length b.
Proof. induction a as [|c a IH]; simpl; [reflexivity | now rewrite IH]. Qed.

Lemma append_assoc (a b c : string) : (a ++ b) ++ c = a ++ (b ++ c).
Proof. induction a as [|x a IH]; simpl; [reflexivity | now rewrite IH]. Qed.

Lemma nonempty_length (s : string) :
  Py.nonempty s = true <-> 0 < String.length s.
Proof. destruct s; simpl; split; intros H; try lia; congruence. Qed.

Lemma startswith_spec (p s : string) :
  Py.startswith p s = true <-> exists post, s = p ++ post.
Proof.
  revert s; induction p as [|a p IH]; intros s; simpl.
  - split; [intros _; now exists s | reflexivity].
  - destruct s as [|b s].
    + split; [discriminate | intros [post H]; discriminate].
    + rewrite andb_true_iff, Ascii.eqb_eq, IH. split.
      * intros [-> [post ->]]. now exists post.
      * intros [post H]. injection H as -> ->. split; [reflexivity | now exists post].
Qed.

Lemma contains_spec (p s : string) :
  Py.contains p s = true <-> is_substring p s.
Proof.
  unfold is_substring. induction s as [|c s IH].
  - simpl. rewrite orb_false_r, startswith_spec. split.
    + intros [post H]. now exists EmptyString, post.
    + intros [pre [post H]]. destruct pre; [now exists post | discriminate].
  - cbn [Py.contains]. rewrite orb_true_iff, startswith_spec, IH. split.
    + intros [[post H] | [pre [post H]]].
      * now exists EmptyString, post.
      * exists (String c pre), post. simpl. now rewrite H.
    + intros [pre [post H]]. destruct pre as [|x pre].
      * left. now exists post.
      * right. simpl in H. injection H as _ H. now exists pre, post.
Qed.

Lemma slice_to_length (n : nat) (s : string) :
  String.length (Py.slice_to n s) = Nat.min n (String.length s).
Proof.
  revert s; induction n as [|n IH]; intros [|c s]; simpl; try reflexivity.
  now rewrite IH.
Qed.

Lemma lstrip_length (s : string) :
  String.length (Py.lstrip s) <= String.length s.
Proof.
  induction s as [|c s IH]; simpl; [lia|].
  destruct (Py.isspace c); simpl; lia.
Qed.

Lemma rstrip_length (s : string) :
  String.length (Py.rstrip s) <= String.length s.
Proof.
  induction s as [|c s IH]; simpl; [lia|].
  destruct (Py.rstrip s); [destruct (Py.isspace c)|]; simpl in *; lia.
Qed.

Lemma strip_length (s : string) :
  String.length (Py.strip s) <= String.length s.
Proof.
  unfold Py.strip.
  etransitivity; [apply rstrip_length | apply lstrip_length].
Qed.

Lemma rstrip_append_space (s : string) : Py.rstrip (s ++ " ") = Py.rstrip s.
Proof.
  induction s as [|c s IH]; [reflexivity|].
  simpl. now rewrite IH.
Qed.

Lemma lstrip_append_space (s : string) :
  Py.lstrip (s ++ " ") =
  if Py.nonempty (Py.lstrip s) then Py.lstrip s ++ " " else EmptyString.
Proof.
  induction s as [|c s IH]; [reflexivity|].
  simpl. destruct (Py.isspace c); [exact IH | reflexivity].
Qed.

(** Stripping forgets a trailing blank. *)
Lemma strip_append_space (s : string) : Py.strip (s ++ " ") = Py.strip s.
Proof.
  unfold Py.strip. rewrite lstrip_append_space.
  destruct (Py.lstrip s) eqn:E; simpl Py.nonempty; cbv iota.
  - reflexivity.
  - apply rstrip_append_space.
Qed.

Lemma repeat_char_length (c : ascii) (n : nat) :
  String.length (Py.repeat_char c n) = n.
Proof. induction n as [|n IH]; simpl; [reflexivity | now rewrite IH]. Qed.

End StringFacts.

(** ** speaker.py: splitting a script into chunks *)

Section Chunks.

Variable max_length : nat.

Lemma chunk_ok_strip (current_chunk : string) :
  chunk_ok max_length current_chunk ->
  String.length (Py.strip current_chunk) <= max_length.
Proof.
  intros [-> | [x [-> Hx]]].
  - simpl. lia.
  - rewrite strip_append_space. pose proof (strip_length x). lia.
Qed.

Lemma chunk_step_ok (chunks : list string) (current_chunk sentence : string) :
  String.length sentence <= max_length ->
  chunks_ok max_length chunks -> chunk_ok max_length current_chunk ->
  chunks_ok max_length (fst (speaker.chunk_step max_length (chunks, current_chunk) sentence))
  /\ chunk_ok max_length (snd (speaker.chunk_step max_length (chunks, current_chunk) sentence)).
Proof.
  intros Hs Hc Hcur. unfold speaker.chunk_step.
  destruct (Py.nonempty sentence) eqn:Hne; simpl negb; cbv iota.
  2: { simpl. now split. }
  destruct (max_length <? _) eqn:Hlt; simpl andb.
  - destruct (Py.nonempty current_chunk) eqn:Hcne; simpl.
    + split.
      * apply Forall_app. split; [exact Hc|].
        constructor; [now apply chunk_ok_strip | constructor].
      * right. now exists sentence.
    + split; [exact Hc|]. right. exists (current_chunk ++ sentence).
      destruct current_chunk; [|discriminate]. simpl. split; [reflexivity | exact Hs].
  - simpl. split; [exact Hc|]. right. exists (current_chunk ++ sentence).
    split; [now rewrite append_assoc|].
    apply Nat.ltb_ge in Hlt. rewrite length_append. lia.
Qed.

Lemma chunk_loop_ok (sentences : list string) :
  Forall (fun sentence => String.length sentence <= max_length) sentences ->
  forall st,
    chunks_ok max_length (fst st) -> chunk_ok max_length (snd st) ->
    chunks_ok max_length (fst (fold_left (speaker.chunk_step max_length) sentences st))
    /\ chunk_ok max_length (snd (fold_left (speaker.chunk_step max_length) sentences st)).
Proof.
  induction 1 as [|sentence sentences Hs _ IH]; intros [chunks cur] Hc Hcur.
  - now split.
  - cbn [fold_left]. simpl in Hc, Hcur.
    destruct (chunk_step_ok chunks cur sentence Hs Hc Hcur) as [H1 H2].
    apply IH; assumption.
Qed.

(** The chunks respect the limit as long as no single sentence is
    longer than the limit. *)
Lemma split_into_chunks_bounded (text : string) :
  Forall (fun sentence => String.length sentence <= max_length)
    (speaker.re_split_sentences (Py.replace_char "010"%char " " text)) ->
  Forall (fun chunk => String.length chunk <= max_length)
    (speaker._split_into_chunks text max_length).
Proof.
  intros Hs. unfold speaker._split_into_chunks.
  pose proof (chunk_loop_ok _ Hs ([], EmptyString)) as H.
  destruct (fold_left _ _ _) as [chunks cur]. simpl in H.
  destruct H as [Hc Hcur]; [constructor | now left |].
  destruct (Py.nonempty cur); [|exact Hc].
  apply Forall_app. split; [exact Hc|].
  constructor; [now apply chunk_ok_strip | constructor].
Qed.

End Chunks.

(** C9 (the code departs from the claim).  A script made of one
    sentence of 4001 letters comes back from [_split_into_chunks] with
    the limit 4000 as a single chunk of 4001 characters: a sentence
    longer than the limit is never cut, so a segment handed to the
    speech synthesis can exceed 4000 characters. *)
Theorem split_into_chunks_long_sentence :
  speaker._split_into_chunks (Py.repeat_char "a"%char 4001)
    speaker.max_chunk_size = [Py.repeat_char "a"%char 4001]
  /\ speaker.max_chunk_size < String.length (Py.repeat_char "a"%char 4001).
Proof.
  split.
  - vm_compute. reflexivity.
  - rewrite repeat_char_length. unfold speaker.max_chunk_size. lia.
Qed.

(** ** supervisor.py: follow-up questions *)

Section FollowUp.

Variable w : supervisor.World.
Variable research_topic : string.

Lemma number_questions_three (message q1 q2 q3 : string) :
  supervisor.number_questions message [q1; q2; q3] =
  ((message ++ "1. " ++ q1 ++ Py.nl) ++ "2. " ++ q2 ++ Py.nl)
  ++ "3. " ++ q3 ++ Py.nl.
Proof. reflexivity. Qed.

(** The [try] block raises exactly when the provider call raises or the
    decoding of its cleaned text does. *)
Lemma ask_follow_up_questions_raises (e : string) :
  supervisor.ask_follow_up_questions w research_topic = Py.Raised e <->
  supervisor.chat_completion w research_topic = Py.Raised e \/
  exists content,
    supervisor.chat_completion w research_topic = Py.Returned content /\
    supervisor.json_loads w (supervisor.strip_code_fence content) = Py.Raised e.
Proof.
  unfold supervisor.ask_follow_up_questions, Py.bind.
  destruct (supervisor.chat_completion w research_topic) as [content|e1];
    cbv beta iota.
  - destruct (supervisor.json_loads w _) as [data|e2] eqn:Hj; cbv beta iota.
    + split; [discriminate|].
      intros [H | [c [Hc H]]]; [discriminate|].
      injection Hc as <-. rewrite Hj in H. discriminate.
    + split.
      * intros H. injection H as ->. right. now exists content.
      * intros [H | [c [Hc H]]]; [discriminate|].
        injection Hc as <-. rewrite Hj in H. now injection H as ->.
  - split.
    + intros H. injection H as ->. now left.
    + intros [H | [c [Hc _]]]; [now injection H as -> | discriminate].
Qed.

Lemma first_question_has_topic :
  is_substring research_topic
    ("What specific aspects of " ++ research_topic
     ++ " are you most interested in?").
Proof. now exists "What specific aspects of ", " are you most interested in?". Qed.

Lemma second_question_has_topic :
  is_substring research_topic
    ("Are there any time constraints or geographic focus for this research on "
     ++ research_topic ++ "?").
Proof.
  now exists
    "Are there any time constraints or geographic focus for this research on ",
    "?".
Qed.

End FollowUp.

(** C6 (as the code has it).  When the provider call raises, or the
    decoding of its cleaned answer raises, [generate_follow_up_questions]
    does not raise: it returns the three fallback questions and the
    message that numbers them under the fixed header.  The first two
    questions contain the topic; the third is a fixed sentence in which
    the topic is not interpolated. *)
Theorem follow_up_fallback (w : supervisor.World) (research_topic e : string) :
  (supervisor.chat_completion w research_topic = Py.Raised e \/
   exists content,
     supervisor.chat_completion w research_topic = Py.Returned content /\
     supervisor.json_loads w (supervisor.strip_code_fence content) = Py.Raised e) ->
  exists q1 q2 q3,
    supervisor.generate_follow_up_questions w research_topic =
      Py.Returned
        ([q1; q2; q3],
         ((supervisor.message_header ++ "1. " ++ q1 ++ Py.nl)
          ++ "2. " ++ q2 ++ Py.nl) ++ "3. " ++ q3 ++ Py.nl)
    /\ is_substring research_topic q1
    /\ is_substring research_topic q2
    /\ q3 = "What is the primary goal or outcome you hope to achieve with this research?".
Proof.
  intros H. apply ask_follow_up_questions_raises in H.
  unfold supervisor.generate_follow_up_questions. rewrite H. simpl Py.try_except.
  unfold supervisor.fallback_questions.
  do 3 eexists. rewrite number_questions_three.
  split; [reflexivity|].
  split; [apply first_question_has_topic|].
  split; [apply second_question_has_topic | reflexivity].
Qed.

Lemma follow_up_fallback_witness :
  supervisor.chat_completion demo.no_provider "topic X"
    = Py.Raised "provider unavailable"
  /\ exists q1 q2 q3,
    supervisor.generate_follow_up_questions demo.no_provider "topic X" =
      Py.Returned
        ([q1; q2; q3],
         ((supervisor.message_header ++ "1. " ++ q1 ++ Py.nl)
          ++ "2. " ++ q2 ++ Py.nl) ++ "3. " ++ q3 ++ Py.nl)
    /\ is_substring "topic X" q1
    /\ is_substring "topic X" q2
    /\ q3 = "What is the primary goal or outcome you hope to achieve with this research?".
Proof.
  split; [reflexivity|].
  apply (follow_up_fallback demo.no_provider "topic X" "provider unavailable").
  left. reflexivity.
Defined.

(** C6, the claim as stated, fails: with a provider that raises, the
    third question returned for the topic [topic X] does not contain
    that topic. *)
Lemma follow_up_fallback_not_all_with_topic :
  exists questions message,
    supervisor.generate_follow_up_questions demo.no_provider "topic X" =
      Py.Returned (questions, message)
    /\ List.length questions = 3
    /\ ~ Forall (is_substring "topic X") questions.
Proof.
  eexists. eexists. split; [reflexivity|]. split; [reflexivity|].
  intros H. inversion H as [|? ? _ H1]; subst.
  inversion H1 as [|? ? _ H2]; subst.
  inversion H2 as [|? ? H3 _]; subst.
  apply contains_spec in H3. vm_compute in H3. discriminate.
Qed.

(** ** web_researcher.py: scores *)

Section Scores.

Import web_researcher.

Lemma q_sum_from (l : list Q) (a : Q) :
  (fold_left Qplus l a == a + fold_right Qplus 0 l)%Q.
Proof.
  revert a; induction l as [|x l IH]; intros a; simpl.
  - lra.
  - rewrite IH. lra.
Qed.

Lemma q_sum_fold_right (l : list Q) : (q_sum l == fold_right Qplus 0 l)%Q.
Proof. unfold q_sum. rewrite q_sum_from. lra. Qed.

Lemma q_of_nat_nonneg (n : nat) : (0 <= q_of_nat n)%Q.
Proof.
  unfold q_of_nat. change 0%Q with (inject_Z 0).
  rewrite <- Zle_Qle. lia.
Qed.

Lemma q_of_nat_pos (n : nat) : 0 < n -> (0 < q_of_nat n)%Q.
Proof.
  intros H. unfold q_of_nat. change 0%Q with (inject_Z 0).
  rewrite <- Zlt_Qlt. lia.
Qed.

Lemma q_of_nat_le (n m : nat) : n <= m -> (q_of_nat n <= q_of_nat m)%Q.
Proof. intros H. unfold q_of_nat. rewrite <- Zle_Qle. lia. Qed.

(** The source-count term: capping the count at three changes nothing
    once the product is capped at 0.6. *)
Lemma source_score_capped (n : nat) :
  (Qmin (q_of_nat n * 0.2) 0.6
   == Qmin (0.2 * inject_Z (Z.of_nat (Nat.min n 3))) 0.6)%Q.
Proof.
  destruct (Nat.le_gt_cases n 3) as [Hle | Hgt].
  - rewrite Nat.min_l by exact Hle. fold (q_of_nat n).
    apply Q.min_compat; [apply Qmult_comm | reflexivity].
  - rewrite Nat.min_r by lia.
    assert (H4 : (q_of_nat 4 <= q_of_nat n)%Q) by (apply q_of_nat_le; lia).
    change (q_of_nat 4) with 4%Q in H4.
    rewrite Q.min_r by lra.
    rewrite Q.min_r; [reflexivity|].
    change (inject_Z (Z.of_nat 3)) with 3%Q. lra.
Qed.

Lemma q_sum_nonneg (l : list Q) :
  Forall (fun x => 0 <= x)%Q l -> (0 <= q_sum l)%Q.
Proof.
  intros H. rewrite q_sum_fold_right.
  induction H as [|x l Hx _ IH]; simpl; lra.
Qed.

Lemma relevance_score_bounds (c : string) (source : SearchResult) :
  (0 <= calculate_relevance_score c source <= 1)%Q.
Proof.
  unfold calculate_relevance_score.
  split; [|apply Q.le_min_r].
  apply Q.min_glb; [|lra].
  repeat match goal with
         | |- context [if ?b then _ else _] => destruct b
         end; lra.
Qed.

End Scores.

(** C3.  [calculate_confidence_score] returns 0 when nothing was
    extracted; otherwise it returns the source-count term
    min(0.2 * min(number of reliable sources, 3), 0.6) plus 0.4 times the
    mean relevance of all extracted items, the sum capped at 0.95
    (floats read as exact rationals). *)
Theorem confidence_score_formula
  (extracted_content : list web_researcher.ExtractedSource)
  (sources : list string) :
  (web_researcher.calculate_confidence_score extracted_content sources ==
   match extracted_content with
   | [] => 0
   | _ => spec_confidence
            (map web_researcher.relevance_score extracted_content)
            (List.length sources)
   end)%Q.
Proof.
  destruct extracted_content as [|x l]; [reflexivity|].
  unfold web_researcher.calculate_confidence_score, spec_confidence, mean.
  rewrite length_map.
  apply Q.min_compat; [|reflexivity].
  rewrite source_score_capped, q_sum_fold_right.
  fold (web_researcher.q_of_nat (List.length (x :: l))).
  rewrite (Qmult_comm _ 0.4). reflexivity.
Qed.

(** ** asyncio.gather: results come back in submission order *)

Section Gather.

Context {A : Type}.

Lemma lookup_completions (order : list nat) (coros : list A) (i : nat) :
  asyncio.lookup i (asyncio.completions order coros) =
  if existsb (Nat.eqb i) order then nth_error coros i else None.
Proof.
  induction order as [|j order IH]; [reflexivity|].
  unfold asyncio.completions in *. cbn [flat_map existsb].
  destruct (Nat.eqb_spec i j) as [-> | Hij]; cbn [orb].
  - destruct (nth_error coros j) as [r|] eqn:Hj; cbn [app asyncio.lookup].
    + now rewrite Nat.eqb_refl.
    + rewrite IH. now destruct (existsb _ order).
  - destruct (nth_error coros j) as [r|] eqn:Hj; cbn [app asyncio.lookup].
    + destruct (Nat.eqb_spec j i) as [E | _]; [congruence | exact IH].
    + exact IH.
Qed.

(** Nothing comes out of [gather] that did not go in. *)
Lemma gather_In (order : list nat) (coros : list A) (r : A) :
  In r (asyncio.gather order coros) -> In r coros.
Proof.
  unfold asyncio.gather. intros H. apply in_flat_map in H.
  destruct H as [i [_ H]]. rewrite lookup_completions in H.
  destruct (existsb _ order); [|contradiction].
  destruct (nth_error coros i) as [x|] eqn:E; [|contradiction].
  destruct H as [<- | []]. eapply nth_error_In; eassumption.
Qed.

Lemma slots_in_order (l : list A) (start : nat) :
  flat_map (fun i => asyncio.slot (nth_error l (i - start))) (seq start (List.length l))
  = l.
Proof.
  revert start; induction l as [|x l IH]; intros start; [reflexivity|].
  cbn [List.length seq flat_map]. rewrite Nat.sub_diag. cbn [nth_error asyncio.slot app].
  f_equal. rewrite <- (IH (S start)) at 2.
  rewrite !flat_map_concat_map. f_equal. apply map_ext_in.
  intros i Hi. apply in_seq in Hi.
  replace (i - start) with (S (i - S start)) by lia. reflexivity.
Qed.

(** When every coroutine finishes exactly once, in whatever order, the
    list that [gather] returns is the list of their results in the
    order in which they were passed. *)
Lemma gather_submission_order (order : list nat) (coros : list A) :
  Permutation order (seq 0 (List.length coros)) ->
  asyncio.gather order coros = coros.
Proof.
  intros Hperm. unfold asyncio.gather.
  transitivity
    (flat_map (fun i => asyncio.slot (nth_error coros (i - 0)))
       (seq 0 (List.length coros))); [|apply slots_in_order].
  rewrite !flat_map_concat_map. f_equal. apply map_ext_in.
  intros i Hi. rewrite lookup_completions, Nat.sub_0_r.
  assert (Hin : In i order).
  { eapply Permutation_in; [symmetry; exact Hperm | exact Hi]. }
  assert (E : existsb (Nat.eqb i) order = true).
  { apply existsb_exists. exists i. split; [exact Hin | apply Nat.eqb_refl]. }
  now rewrite E.
Qed.

End Gather.

Lemma last_first_fair : asyncio.fair demo.last_first.
Proof. intros n. unfold demo.last_first. symmetry. apply Permutation_rev. Qed.

(** ** web_researcher.py: content extraction *)

Section Extraction.

Import web_researcher.

Variable w : World.

Lemma some_eq {A} (x y : A) : Some x = Some y -> x = y.
Proof. congruence. Qed.

Lemma some_eq_returned {A} (x y : A) : Py.Returned x = Py.Returned y -> x = y.
Proof. congruence. Qed.

Lemma scrape_web_content_length (link c : string) :
  scrape_web_content w link = Some c -> String.length c <= 5000.
Proof.
  unfold scrape_web_content.
  destruct (fetch_page w link) as [err|status text]; [discriminate|].
  destruct (status =? 200); [|discriminate].
  intros H. apply some_eq in H. rewrite <- H, slice_to_length. lia.
Qed.

(** Cutting at 5000 characters does not change on which side of 100 the
    length falls. *)
Lemma slice_keeps_threshold (s : string) :
  (100 <? String.length (Py.slice_to 5000 s)) = (100 <? String.length s).
Proof.
  rewrite slice_to_length.
  destruct (Nat.ltb_spec 100 (String.length s)) as [H | H].
  - apply Nat.ltb_lt. lia.
  - apply Nat.ltb_ge. lia.
Qed.

Lemma extract_single_source_some (source : SearchResult) (item : ExtractedSource) :
  extract_single_source w source = Some item ->
  scrape_web_content w (sr_url source) = Some (content item)
  /\ 100 < String.length (content item)
  /\ url item = sr_url source
  /\ relevance_score item = calculate_relevance_score (content item) source.
Proof.
  unfold extract_single_source.
  destruct (scrape_web_content w (sr_url source)) as [c|]; [|discriminate].
  destruct (Py.nonempty c); simpl andb; [|discriminate].
  destruct (Nat.ltb_spec 100 (String.length c)) as [H | H]; [|discriminate].
  intros E. injection E as <-. simpl. auto.
Qed.

Lemma extract_single_source_none (source : SearchResult) :
  extract_single_source w source = None <->
  scrape_web_content w (sr_url source) = None
  \/ exists c, scrape_web_content w (sr_url source) = Some c
               /\ String.length c <= 100.
Proof.
  unfold extract_single_source.
  destruct (scrape_web_content w (sr_url source)) as [c|].
  - destruct (Nat.ltb_spec 100 (String.length c)) as [H | H].
    + assert (Hne : Py.nonempty c = true) by (apply nonempty_length; lia).
      rewrite Hne. simpl. split; [discriminate|].
      intros [E | [c' [E Hc']]]; [discriminate|].
      injection E as <-. lia.
    + rewrite andb_false_r. split; [|reflexivity].
      intros _. right. now exists c.
  - split; [now left | reflexivity].
Qed.

Lemma insert_by_relevance_perm (x : ExtractedSource) (l : list ExtractedSource) :
  Permutation (insert_by_relevance x l) (x :: l).
Proof.
  induction l as [|y l IH]; simpl; [reflexivity|].
  destruct (Qle_bool _ _); [reflexivity|].
  rewrite IH. apply perm_swap.
Qed.

Lemma sort_by_relevance_perm (l : list ExtractedSource) :
  Permutation (sort_by_relevance l) l.
Proof.
  induction l as [|x l IH]; simpl; [reflexivity|].
  rewrite insert_by_relevance_perm. now constructor.
Qed.

Lemma not_none_In {A} (results : list (option A)) (x : A) :
  In x (not_none results) <-> In (Some x) results.
Proof.
  unfold not_none. rewrite in_flat_map. split.
  - intros [[y|] [Hin H]]; [|contradiction].
    destruct H as [<- | []]. exact Hin.
  - intros H. exists (Some x). split; [exact H | now left].
Qed.

Lemma In_firstn {A} (n : nat) (l : list A) (x : A) :
  In x (firstn n l) -> In x l.
Proof.
  intros H. rewrite <- (firstn_skipn n l). apply in_or_app. now left.
Qed.

(** Every extracted item is what [extract_single_source] made of one of
    the search results. *)
Lemma extracted_from_source (self : WebResearcher)
  (search_results : list SearchResult) (item : ExtractedSource) :
  In item (extract_content_from_sources self w search_results) ->
  exists source,
    In source search_results /\ extract_single_source w source = Some item.
Proof.
  unfold extract_content_from_sources.
  destruct search_results as [|s0 rest]; [contradiction|].
  set (results := s0 :: rest). intros H.
  eapply Permutation_in in H; [|apply sort_by_relevance_perm].
  apply not_none_In, gather_In, in_map_iff in H.
  destruct H as [source [E Hin]]. exists source. split; [|exact E].
  eapply In_firstn; eassumption.
Qed.

(** Under a fair event loop, whatever [extract_single_source] makes of
    one of the first [max_sources] results is in the returned list. *)
Lemma retained_source_extracted (self : WebResearcher)
  (search_results : list SearchResult) (source : SearchResult)
  (item : ExtractedSource) :
  asyncio.fair (scheduler w) ->
  In source (firstn (max_sources self) search_results) ->
  extract_single_source w source = Some item ->
  In item (extract_content_from_sources self w search_results).
Proof.
  intros Hfair Hin E. unfold extract_content_from_sources.
  destruct search_results as [|s0 rest].
  - rewrite firstn_nil in Hin. contradiction.
  - set (results := s0 :: rest) in *.
    eapply Permutation_in; [symmetry; apply sort_by_relevance_perm|].
    apply not_none_In. rewrite gather_submission_order by apply Hfair.
    rewrite <- E. now apply in_map.
Qed.

End Extraction.

(** C8 (as the code has it).  A fetched source contributes no item
    exactly when its fetch raised, answered with a status other than
    200, or gave a cleaned content of at most 100 characters: the test
    is [len(content) > 100], so a content of exactly 100 characters is
    dropped and one of 101 or more is kept.  Every item kept, by
    [extract_single_source] or in the list returned by
    [extract_content_from_sources], holds the cleaned content cut to at
    most 5000 characters; and when the event loop completes every fetch,
    each item kept for one of the first [max_sources] results is in
    that list. *)
Theorem extraction_keeps_long_content
  (self : web_researcher.WebResearcher) (w : web_researcher.World) :
  (forall source,
     web_researcher.extract_single_source w source = None <->
     match web_researcher.fetch_page w (web_researcher.sr_url source) with
     | web_researcher.PageFailure _ => True
     | web_researcher.PageHttp status text =>
         status <> 200 \/
         String.length (web_researcher.clean_extracted_content w text) <= 100
     end)
  /\ (forall source item,
        web_researcher.extract_single_source w source = Some item ->
        exists text,
          web_researcher.fetch_page w (web_researcher.sr_url source)
            = web_researcher.PageHttp 200 text
          /\ web_researcher.content item
             = Py.slice_to 5000 (web_researcher.clean_extracted_content w text)
          /\ 100 < String.length (web_researcher.content item) <= 5000)
  /\ (forall search_results item,
        In item
          (web_researcher.extract_content_from_sources self w search_results) ->
        100 < String.length (web_researcher.content item) <= 5000
        /\ exists source,
             In source search_results
             /\ web_researcher.extract_single_source w source = Some item)
  /\ (asyncio.fair (web_researcher.scheduler w) ->
      forall search_results source item,
        In source
          (firstn (web_researcher.max_sources self) search_results) ->
        web_researcher.extract_single_source w source = Some item ->
        In item
          (web_researcher.extract_content_from_sources self w search_results)).
Proof.
  split; [|split; [|split]].
  - intros source. rewrite extract_single_source_none.
    unfold web_researcher.scrape_web_content.
    destruct (web_researcher.fetch_page w _) as [err|status text].
    + split; [trivial | now left].
    + destruct (Nat.eqb_spec status 200) as [-> | Hne].
      * split.
        -- intros [E | [c [E Hc]]]; [discriminate|].
           apply some_eq in E. right.
           rewrite <- E, slice_to_length in Hc. lia.
        -- intros [E | Hlen]; [congruence|]. right.
           eexists. split; [reflexivity|]. rewrite slice_to_length. lia.
      * split; [now left | now left].
  - intros source item H.
    apply extract_single_source_some in H. destruct H as [Hs [Hlen _]].
    pose proof (scrape_web_content_length w _ _ Hs) as Hmax.
    unfold web_researcher.scrape_web_content in Hs.
    destruct (web_researcher.fetch_page w _) as [err|status text]; [discriminate|].
    destruct (Nat.eqb_spec status 200) as [-> | Hne]; [|discriminate].
    apply some_eq in Hs. exists text. repeat split; auto.
  - intros search_results item H.
    apply extracted_from_source in H. destruct H as [source [Hin H]].
    split; [|now exists source].
    apply extract_single_source_some in H. destruct H as [Hs [Hlen _]].
    pose proof (scrape_web_content_length w _ _ Hs). lia.
  - intros Hfair search_results source item Hin E.
    now apply retained_source_extracted with source.
Qed.

(** C8, the claim as stated, fails: a page that answers 200 with a
    cleaned content of exactly 100 characters (not fewer than 100) is
    dropped. *)
Lemma extraction_drops_content_of_100 :
  web_researcher.fetch_page (demo.pages_of_length 100)
    (web_researcher.sr_url demo.a_source)
    = web_researcher.PageHttp 200 (Py.repeat_char "a"%char 100)
  /\ String.length
       (web_researcher.clean_extracted_content (demo.pages_of_length 100)
          (Py.repeat_char "a"%char 100)) = 100
  /\ web_researcher.extract_single_source (demo.pages_of_length 100)
       demo.a_source = None
  /\ web_researcher.extract_content_from_sources demo.researcher
       (demo.pages_of_length 100) [demo.a_source] = [].
Proof. repeat split; vm_compute; reflexivity. Qed.

Example extraction_keeps_content_of_101 :
  map web_researcher.url
    (web_researcher.extract_content_from_sources demo.researcher
       (demo.pages_of_length 101) [demo.a_source])
  = ["https://example.com/research/solar-power"].
Proof. vm_compute. reflexivity. Qed.

(** ** web_researcher.py: the result of a task *)

Section ExecuteTask.

Import web_researcher.

Variable self : WebResearcher.
Variable w : World.

Lemma extracted_relevance_nonneg (search_results : list SearchResult) :
  Forall (fun x => 0 <= x)%Q
    (map relevance_score (extract_content_from_sources self w search_results)).
Proof.
  apply Forall_map, Forall_forall. intros item H.
  apply extracted_from_source in H. destruct H as [source [_ H]].
  apply extract_single_source_some in H. destruct H as [_ [_ [_ ->]]].
  apply relevance_score_bounds.
Qed.

Lemma confidence_score_bounds (extracted_content : list ExtractedSource)
  (sources : list string) :
  Forall (fun x => 0 <= x)%Q (map relevance_score extracted_content) ->
  (0 <= calculate_confidence_score extracted_content sources <= 1)%Q.
Proof.
  intros Hrel. unfold calculate_confidence_score.
  destruct extracted_content as [|x l]; [split; lra|].
  set (items := x :: l) in *.
  split.
  - apply Q.min_glb; [|lra].
    assert (H1 : (0 <= Qmin (q_of_nat (List.length sources) * 0.2) 0.6)%Q).
    { apply Q.min_glb; [|lra].
      pose proof (q_of_nat_nonneg (List.length sources)). nra. }
    assert (H2 : (0 <= q_sum (map relevance_score items)
                       / q_of_nat (List.length items))%Q).
    { apply Qle_shift_div_l.
      - apply q_of_nat_pos. simpl. lia.
      - rewrite Qmult_0_l. now apply q_sum_nonneg. }
    nra.
  - apply Qle_trans with 0.95%Q; [apply Q.le_min_r | lra].
Qed.

Lemma execute_task_failed (task : Py.dict) :
  Py.truthy (Py.get_opt "query" task) = false ->
  execute_task self w task =
  {| agent.task_id := agent_id self;
     agent.task_description :=
       Py.get "description" "No description provided" task;
     agent.findings := "No query provided for web search";
     agent.sources := [];
     agent.confidence_score := 0%Q;
     agent.status := "failed" |}.
Proof. intros H. unfold execute_task. now rewrite H. Qed.

Lemma execute_task_completed (task : Py.dict) :
  Py.truthy (Py.get_opt "query" task) = true ->
  exists extracted_content findings,
    execute_task self w task =
    {| agent.task_id := agent_id self;
       agent.task_description :=
         Py.get "description" "No description provided" task;
       agent.findings := findings;
       agent.sources := extract_reliable_sources extracted_content;
       agent.confidence_score :=
         calculate_confidence_score extracted_content
           (extract_reliable_sources extracted_content);
       agent.status := "completed" |}
    /\ Forall (fun x => 0 <= x)%Q (map relevance_score extracted_content).
Proof.
  intros H. unfold execute_task. rewrite H. cbv beta iota zeta. simpl negb.
  cbv iota. do 2 eexists. split; [reflexivity|].
  apply extracted_relevance_nonneg.
Qed.

Lemma execute_task_invariant (task : Py.dict) :
  result_invariant (execute_task self w task).
Proof.
  destruct (Py.truthy (Py.get_opt "query" task)) eqn:Hq.
  - destruct (execute_task_completed task Hq) as [ex [f [-> Hrel]]].
    split; simpl.
    + now apply confidence_score_bounds.
    + discriminate.
  - rewrite (execute_task_failed task Hq). split; simpl.
    + split; lra.
    + intros _. split; reflexivity.
Qed.

End ExecuteTask.

Example execute_task_example :
  let r := web_researcher.execute_task demo.researcher
             (demo.pages_of_length 1200) demo.task_1 in
  agent.sources r = ["https://academic.edu/study/solar_power";
                     "https://example.com/research/solar-power"]
  /\ (agent.confidence_score r == 0.58)%Q
  /\ agent.status r = "completed".
Proof. repeat split; vm_compute; reflexivity. Qed.

(** C10.  The status of the result of [WebResearcher.execute_task] is
    [completed] or [failed], never [partial] or [unsupported], and it is
    [failed] exactly when the task has no truthy query. *)
Theorem execute_task_status
  (self : web_researcher.WebResearcher) (w : web_researcher.World)
  (task : Py.dict) :
  (agent.status (web_researcher.execute_task self w task) = "completed"
   \/ agent.status (web_researcher.execute_task self w task) = "failed")
  /\ (agent.status (web_researcher.execute_task self w task) = "failed"
      <-> Py.truthy (Py.get_opt "query" task) = false).
Proof.
  destruct (Py.truthy (Py.get_opt "query" task)) eqn:Hq.
  - destruct (execute_task_completed self w task Hq) as [ex [f [-> _]]].
    simpl. split; [now left|]. split; discriminate.
  - rewrite (execute_task_failed self w task Hq).
    simpl. split; [now right|]. split; reflexivity.
Qed.

(** C2 (as the code has it).  The result that [WebResearcher.execute_task]
    returns carries the agent's own identifier as [task_id] and the
    task's description (or [No description provided]) as
    [task_description], and the supervisor passes it on unchanged.  The
    result that the supervisor makes up when [execute_task] raises
    carries the task's own [task_id] (or [failed_task]) and description
    (or [Failed task]). *)
Theorem task_result_identity
  (self : web_researcher.WebResearcher) (w : web_researcher.World)
  (task : Py.dict) :
  agent.task_id (web_researcher.execute_task self w task)
    = web_researcher.agent_id self
  /\ agent.task_description (web_researcher.execute_task self w task)
    = Py.get "description" "No description provided" task
  /\ supervisor.execute_single_task task (web_researcher.as_agent self w)
    = Py.Returned (web_researcher.execute_task self w task)
  /\ (forall (a : agent.BaseAgent) (e : string),
        agent.execute_task a task = Py.Raised e ->
        exists r,
          supervisor.execute_single_task task a = Py.Returned r
          /\ agent.task_id r = Py.get "task_id" "failed_task" task
          /\ agent.task_description r = Py.get "description" "Failed task" task
          /\ agent.status r = "failed").
Proof.
  repeat split.
  - destruct (Py.truthy (Py.get_opt "query" task)) eqn:Hq.
    + now destruct (execute_task_completed self w task Hq) as [ex [f [-> _]]].
    + now rewrite (execute_task_failed self w task Hq).
  - destruct (Py.truthy (Py.get_opt "query" task)) eqn:Hq.
    + now destruct (execute_task_completed self w task Hq) as [ex [f [-> _]]].
    + now rewrite (execute_task_failed self w task Hq).
  - intros a e H. unfold supervisor.execute_single_task. rewrite H.
    eexists. split; [reflexivity|]. simpl. auto.
Qed.

(** C2, the claim as stated, fails: the task [research_task_1] runs to
    completion in the researcher, without any exception, and its result
    carries the identifier [web_researcher]; the same task given to an
    agent that raises comes back under its own identifier. *)
Lemma direct_result_carries_agent_id :
  exists r r',
    agent.execute_task (web_researcher.as_agent demo.researcher demo.offline)
      demo.task_1 = Py.Returned r
    /\ supervisor.execute_single_task demo.task_1
         (web_researcher.as_agent demo.researcher demo.offline) = Py.Returned r
    /\ agent.status r = "completed"
    /\ Py.get_opt "task_id" demo.task_1 = Some "research_task_1"
    /\ agent.task_id r = "web_researcher"
    /\ agent.task_id r <> "research_task_1"
    /\ supervisor.execute_single_task demo.task_1 demo.broken_agent
       = Py.Returned r'
    /\ agent.task_id r' = "research_task_1".
Proof.
  do 2 eexists. repeat split; try (vm_compute; reflexivity).
  vm_compute. discriminate.
Qed.

(** C4.  The result of [WebResearcher.execute_task], the result that
    the supervisor's [execute_single_task] hands back for the
    researcher, and the result it makes up for any agent whose
    [execute_task] raises, all have a confidence between 0 and 1, and
    have confidence 0 and no source when their status is [failed]. *)
Theorem task_results_invariant
  (self : web_researcher.WebResearcher) (w : web_researcher.World)
  (task : Py.dict) :
  result_invariant (web_researcher.execute_task self w task)
  /\ (forall r,
        supervisor.execute_single_task task (web_researcher.as_agent self w)
          = Py.Returned r -> result_invariant r)
  /\ (forall (a : agent.BaseAgent) (e : string) r,
        agent.execute_task a task = Py.Raised e ->
        supervisor.execute_single_task task a = Py.Returned r ->
        result_invariant r
        /\ agent.status r = "failed").
Proof.
  split; [apply execute_task_invariant|]. split.
  - intros r H. cbn in H. apply some_eq_returned in H. subst r.
    apply execute_task_invariant.
  - intros a e r Hraise H. unfold supervisor.execute_single_task in H.
    rewrite Hraise in H. cbn in H. apply some_eq_returned in H. subst r.
    split; [|reflexivity]. split; simpl.
    + split; lra.
    + intros _. split; reflexivity.
Qed.

(** ** supervisor.py: delegation *)

Section Delegation.

Import supervisor.

Lemma valid_results_all (results : list (Py.outcome agent.TaskResult)) :
  Forall (fun result => exists r, result = Py.Returned r) results ->
  map Py.Returned (valid_results results) = results.
Proof.
  induction 1 as [|result results [r ->] _ IH]; [reflexivity|].
  simpl. now rewrite IH.
Qed.



Lemma capable_agents_covered (self : Supervisor) (task_type : string) :
  capable_agents self task_type = [] <-> covered_type self task_type = false.
Proof.
  unfold capable_agents, covered_type.
  induction (sub_agents self) as [|a agents IH]; simpl; [tauto|].
  destruct (agent.can_handle_task a task_type); simpl; [|exact IH].
  split; discriminate.
Qed.

End Delegation.

Example round_robin_example :
  map (fun r => (agent.task_id r, agent.status r))
    (supervisor.execute_tasks_parallel demo.no_provider
       [demo.task_1; demo.task_2; demo.task_3]
       (supervisor.sub_agents demo.a_supervisor))
  = [("web_researcher", "completed"); ("research_task_2", "failed");
     ("web_researcher", "completed")].
Proof. vm_compute. reflexivity. Qed.

(* ================================================================== *)
(** * Further properties of the code *)
(* ================================================================== *)

(** ** web_researcher.py: search results *)

Section SearchResults.

Import web_researcher.

Lemma valid_url_spec (u : string) :
  valid_url u = true <->
  exists rest, u = "http://" ++ rest \/ u = "https://" ++ rest.
Proof.
  unfold valid_url. rewrite andb_true_iff, orb_true_iff, !startswith_spec.
  split.
  - intros [_ [[rest H] | [rest H]]]; exists rest; auto.
  - intros [rest [H | H]]; subst u; split; try reflexivity;
      [left | right]; now exists rest.
Qed.

Lemma contains_blank_append (a b : string) :
  Py.contains " " (a ++ b) = Py.contains " " a || Py.contains " " b.
Proof.
  induction a as [|c a IH].
  - simpl. destruct b; reflexivity.
  - cbn [String.append Py.contains]. rewrite IH.
    cbn [Py.startswith]. rewrite !andb_true_r, orb_assoc. reflexivity.
Qed.

Lemma replace_blank_no_blank (new query : string) :
  Py.contains " " new = false ->
  Py.contains " " (Py.replace_char " "%char new query) = false.
Proof.
  intros Hnew. induction query as [|c query IH]; [reflexivity|].
  cbn [Py.replace_char]. destruct (Ascii.eqb_spec c " "%char) as [-> | Hc].
  - rewrite contains_blank_append, Hnew, IH. reflexivity.
  - cbn [Py.contains Py.startswith]. rewrite IH, andb_true_r, orb_false_r.
    apply Ascii.eqb_neq. congruence.
Qed.

Lemma append_nil_r (a : string) : a ++ EmptyString = a.
Proof. induction a as [|x a IH]; simpl; [reflexivity | now rewrite IH]. Qed.

Lemma is_substring_suffix (pre s : string) : is_substring s (pre ++ s).
Proof. exists pre, EmptyString. now rewrite append_nil_r. Qed.

Lemma is_substring_prefix (s post : string) : is_substring s (s ++ post).
Proof. now exists EmptyString, post. Qed.

Lemma simulate_search_results_urls (query : string) :
  Forall (fun r => valid_url (sr_url r) = true
                   /\ Py.contains " " (sr_url r) = false)
    (simulate_search_results query).
Proof.
  unfold simulate_search_results.
  constructor; [|constructor; [|constructor]]; cbn [sr_url]; split;
    try reflexivity;
    rewrite contains_blank_append, replace_blank_no_blank; reflexivity.
Qed.

End SearchResults.

(** C7.  [perform_web_search] never returns an empty list.  When the
    credential pair is not set, when the provider call raises, or when
    it yields no result, the answer is the placeholder set built from
    the query.  That set has exactly two entries, which depend on the
    query alone: the first is titled [Research on <query>] and the
    second [<query> - Academic Study], their snippets end with the
    query, their URLs are [https] addresses at [example.com] and
    [academic.edu] that end with the query, its blanks replaced by [-]
    and [_], and both are tagged [simulated]; two different queries
    never get the same set. *)
Theorem perform_web_search_fallback
  (self : web_researcher.WebResearcher) (w : web_researcher.World)
  (query : string) :
  web_researcher.perform_web_search self w query <> []
  /\ ((Py.truthy (web_researcher.google_api_key self)
       && Py.truthy (web_researcher.google_search_engine_id self) = false
       \/ (exists e,
             web_researcher.call_google_search_api self w query 10 = Py.Raised e)
       \/ web_researcher.call_google_search_api self w query 10 = Py.Returned [])
      -> web_researcher.perform_web_search self w query
         = web_researcher.simulate_search_results query
         /\ web_researcher.perform_web_search self w query
            = [ {| web_researcher.sr_title := "Research on " ++ query;
                   web_researcher.sr_url :=
                     "https://example.com/research/"
                     ++ Py.replace_char " "%char "-" query;
                   web_researcher.sr_snippet :=
                     "Comprehensive information about " ++ query;
                   web_researcher.sr_domain := "example.com";
                   web_researcher.sr_source := "simulated" |};
                {| web_researcher.sr_title := query ++ " - Academic Study";
                   web_researcher.sr_url :=
                     "https://academic.edu/study/"
                     ++ Py.replace_char " "%char "_" query;
                   web_researcher.sr_snippet :=
                     "Academic research on " ++ query;
                   web_researcher.sr_domain := "academic.edu";
                   web_researcher.sr_source := "simulated" |} ])
  /\ List.length (web_researcher.simulate_search_results query) = 2
  /\ Forall (fun r =>
               is_substring query (web_researcher.sr_title r)
               /\ is_substring query (web_researcher.sr_snippet r)
               /\ (exists rest, web_researcher.sr_url r = "https://" ++ rest)
               /\ Py.contains " " (web_researcher.sr_url r) = false
               /\ web_researcher.sr_source r = "simulated")
       (web_researcher.simulate_search_results query)
  /\ (forall query',
        web_researcher.simulate_search_results query
        = web_researcher.simulate_search_results query' ->
        query = query').
Proof.
  assert (Hfall :
            Py.truthy (web_researcher.google_api_key self)
            && Py.truthy (web_researcher.google_search_engine_id self) = false
            \/ (exists e,
                  web_researcher.call_google_search_api self w query 10
                  = Py.Raised e)
            \/ web_researcher.call_google_search_api self w query 10
               = Py.Returned [] ->
            web_researcher.perform_web_search self w query
            = web_researcher.simulate_search_results query).
  { unfold web_researcher.perform_web_search.
    intros [H | [[e H] | H]]; rewrite H; try reflexivity;
      now destruct (_ && _). }
  split; [|split; [|split; [reflexivity | split]]].
  - unfold web_researcher.perform_web_search. destruct (_ && _).
    + destruct (web_researcher.call_google_search_api self w query 10)
        as [[|r results]|e]; discriminate.
    + discriminate.
  - intros H. split; apply Hfall; exact H.
  - pose proof (simulate_search_results_urls query) as H.
    unfold web_researcher.simulate_search_results in *.
    inversion H as [|r1 l1 [_ H1] H']; subst.
    inversion H' as [|r2 l2 [_ H2] _]; subst.
    cbn [web_researcher.sr_url] in H1, H2.
    constructor; [|constructor; [|constructor]];
      cbn [web_researcher.sr_url web_researcher.sr_title
           web_researcher.sr_snippet web_researcher.sr_source].
    + split; [apply is_substring_suffix|].
      split; [apply is_substring_suffix|].
      split; [eexists; reflexivity|]. split; [exact H1 | reflexivity].
    + split; [apply is_substring_prefix|].
      split; [apply is_substring_suffix|].
      split; [eexists; reflexivity|]. split; [exact H2 | reflexivity].
  - intros query' H. unfold web_researcher.simulate_search_results in H.
    injection H as H _. exact H.
Qed.

(** X1.  Whatever the search provider sends, every result kept by
    [parse_google_search_results] has a URL that starts with [http://]
    or [https://] and is tagged [google_search]; there are at most as
    many results as items, and none when the body has no [items]. *)
Theorem parse_google_search_results_valid
  (w : web_researcher.World) (items : option (list Py.dict)) :
  Forall (fun r =>
            (exists rest,
                web_researcher.sr_url r = "http://" ++ rest
                \/ web_researcher.sr_url r = "https://" ++ rest)
            /\ web_researcher.sr_source r = "google_search")
    (web_researcher.parse_google_search_results w items)
  /\ List.length (web_researcher.parse_google_search_results w items)
     <= List.length (match items with Some l => l | None => [] end)
  /\ web_researcher.parse_google_search_results w None = [].
Proof.
  unfold web_researcher.parse_google_search_results.
  split; [|split; [|reflexivity]].
  - apply Forall_forall. intros r H. apply filter_In in H.
    destruct H as [Hin Hvalid]. split; [now apply valid_url_spec|].
    apply in_map_iff in Hin. destruct Hin as [item [<- _]]. reflexivity.
  - etransitivity; [apply filter_length_le | now rewrite length_map].
Qed.

(** X2.  The placeholder results built for a query have [https] URLs
    without any blank, also when the query has blanks, and their titles
    and snippets contain the query. *)
Theorem simulate_search_results_wellformed (query : string) :
  Forall (fun r =>
            (exists rest, web_researcher.sr_url r = "https://" ++ rest)
            /\ Py.contains " " (web_researcher.sr_url r) = false
            /\ is_substring query (web_researcher.sr_title r)
            /\ is_substring query (web_researcher.sr_snippet r)
            /\ web_researcher.sr_source r = "simulated")
    (web_researcher.simulate_search_results query).
Proof.
  pose proof (simulate_search_results_urls query) as H.
  unfold web_researcher.simulate_search_results in *.
  inversion H as [|r1 l1 [_ H1] H']; subst.
  inversion H' as [|r2 l2 [_ H2] _]; subst.
  cbn [web_researcher.sr_url] in H1, H2.
  constructor; [|constructor; [|constructor]];
    cbn [web_researcher.sr_url web_researcher.sr_title
         web_researcher.sr_snippet web_researcher.sr_source].
  - split; [eexists; reflexivity|]. split; [exact H1|].
    split; [apply is_substring_suffix|].
    split; [apply is_substring_suffix | reflexivity].
  - split; [eexists; reflexivity|]. split; [exact H2|].
    split; [apply is_substring_prefix|].
    split; [apply is_substring_suffix | reflexivity].
Qed.

Lemma perform_web_search_valid
  (self : web_researcher.WebResearcher) (w : web_researcher.World)
  (query : string) :
  Forall (fun r => web_researcher.valid_url (web_researcher.sr_url r) = true)
    (web_researcher.perform_web_search self w query).
Proof.
  assert (Hsim : Forall (fun r => web_researcher.valid_url
                                    (web_researcher.sr_url r) = true)
                   (web_researcher.simulate_search_results query)).
  { eapply Forall_impl; [|apply simulate_search_results_urls].
    intros r H. apply H. }
  unfold web_researcher.perform_web_search.
  destruct (_ && _); [|exact Hsim].
  unfold web_researcher.call_google_search_api.
  destruct (_ || _); [exact Hsim|].
  destruct (web_researcher.google_search_api w query _)
    as [err|status error_text items]; [exact Hsim|].
  destruct (status =? 200); [|exact Hsim].
  destruct (web_researcher.parse_google_search_results w items)
    as [|r rs] eqn:E; [exact Hsim|].
  rewrite <- E. unfold web_researcher.parse_google_search_results.
  apply Forall_forall. intros x Hx. apply filter_In in Hx. apply Hx.
Qed.

(** X3.  Every result that [perform_web_search] returns, from the
    provider or from the placeholder set, has a URL that starts with
    [http://] or [https://]. *)
Theorem perform_web_search_urls
  (self : web_researcher.WebResearcher) (w : web_researcher.World)
  (query : string) :
  Forall (fun r =>
            exists rest,
              web_researcher.sr_url r = "http://" ++ rest
              \/ web_researcher.sr_url r = "https://" ++ rest)
    (web_researcher.perform_web_search self w query).
Proof.
  eapply Forall_impl; [|apply perform_web_search_valid].
  intros r H. now apply valid_url_spec.
Qed.

(** ** web_researcher.py: ranking and confidence *)

Section Ranking.

Import web_researcher.

Lemma relevance_score_range (c : string) (source : SearchResult) :
  (0 <= calculate_relevance_score c source <= 0.6)%Q.
Proof.
  unfold calculate_relevance_score.
  repeat match goal with
         | |- context [if ?b then _ else _] => destruct b
         end;
    (split; [apply Q.min_glb; lra
            | eapply Qle_trans; [apply Q.le_min_l | lra]]).
Qed.

Lemma insert_by_relevance_sorted (x : ExtractedSource)
  (l : list ExtractedSource) :
  descending l -> descending (insert_by_relevance x l).
Proof.
  unfold descending. induction 1 as [|y l Hl IH Hhd]; simpl.
  - repeat constructor.
  - destruct (Qle_bool (relevance_score y) (relevance_score x)) eqn:E.
    + constructor; [now constructor|]. constructor.
      now apply Qle_bool_iff.
    + assert (Hxy : (relevance_score x <= relevance_score y)%Q).
      { destruct (Qlt_le_dec (relevance_score x) (relevance_score y))
          as [H | H]; [now apply Qlt_le_weak|].
        apply Qle_bool_iff in H. congruence. }
      constructor; [exact IH|].
      destruct l as [|z l]; simpl.
      * now constructor.
      * destruct (Qle_bool (relevance_score z) (relevance_score x));
          constructor; [exact Hxy | now inversion Hhd].
Qed.

Lemma sort_by_relevance_sorted (l : list ExtractedSource) :
  descending (sort_by_relevance l).
Proof.
  induction l as [|x l IH]; simpl.
  - constructor.
  - now apply insert_by_relevance_sorted.
Qed.

Lemma flat_map_slot_length {A B} (f : A -> option B) (l : list A) :
  List.length (flat_map (fun x => asyncio.slot (f x)) l) <= List.length l.
Proof.
  induction l as [|x l IH]; simpl; [lia|].
  rewrite length_app. destruct (f x); simpl; lia.
Qed.

Lemma gather_length {A} (order : list nat) (coros : list A) :
  List.length (asyncio.gather order coros) <= List.length coros.
Proof.
  unfold asyncio.gather.
  etransitivity; [apply flat_map_slot_length | now rewrite length_seq].
Qed.

Lemma not_none_length {A} (results : list (option A)) :
  List.length (not_none results) <= List.length results.
Proof.
  unfold not_none. induction results as [|[x|] l IH]; simpl; lia.
Qed.

Lemma extract_content_length (self : WebResearcher) (w : World)
  (search_results : list SearchResult) :
  List.length (extract_content_from_sources self w search_results)
  <= Nat.min (max_sources self) (List.length search_results).
Proof.
  unfold extract_content_from_sources.
  destruct search_results as [|s0 rest]; [simpl; lia|].
  set (results := s0 :: rest).
  rewrite (Permutation_length (sort_by_relevance_perm _)).
  etransitivity; [apply not_none_length|].
  etransitivity; [apply gather_length|].
  now rewrite length_map, length_firstn.
Qed.

Lemma q_sum_upper (bound : Q) (l : list Q) :
  Forall (fun x => x <= bound)%Q l ->
  (q_sum l <= bound * q_of_nat (List.length l))%Q.
Proof.
  intros H. rewrite q_sum_fold_right.
  induction H as [|x l Hx _ IH].
  - cbn [fold_right List.length]. change (q_of_nat 0) with 0%Q.
    rewrite Qmult_0_r. apply Qle_refl.
  - cbn [fold_right List.length].
    assert (E : (q_of_nat (S (List.length l))
                 == q_of_nat (List.length l) + 1)%Q).
    { unfold q_of_nat. rewrite Nat2Z.inj_succ, <- Z.add_1_r, inject_Z_plus.
      reflexivity. }
    rewrite E. lra.
Qed.

Lemma extracted_relevance_range (self : WebResearcher) (w : World)
  (search_results : list SearchResult) :
  Forall (fun x => 0 <= x <= 0.6)%Q
    (map relevance_score (extract_content_from_sources self w search_results)).
Proof.
  apply Forall_map, Forall_forall. intros item H.
  apply extracted_from_source in H. destruct H as [source [_ H]].
  apply extract_single_source_some in H. destruct H as [_ [_ [_ ->]]].
  apply relevance_score_range.
Qed.

Lemma confidence_score_below_cap (extracted_content : list ExtractedSource)
  (sources : list string) :
  Forall (fun x => 0 <= x <= 0.6)%Q (map relevance_score extracted_content) ->
  (calculate_confidence_score extracted_content sources <= 0.84)%Q.
Proof.
  intros Hrel. unfold calculate_confidence_score.
  destruct extracted_content as [|x l]; [lra|].
  set (items := x :: l) in *.
  eapply Qle_trans; [apply Q.le_min_l|].
  assert (H1 : (Qmin (q_of_nat (List.length sources) * 0.2) 0.6 <= 0.6)%Q)
    by apply Q.le_min_r.
  assert (Hpos : (0 < q_of_nat (List.length items))%Q).
  { apply q_of_nat_pos. simpl. lia. }
  assert (H2 : (q_sum (map relevance_score items)
                / q_of_nat (List.length items) <= 0.6)%Q).
  { apply Qle_shift_div_r; [exact Hpos|].
    rewrite <- (length_map relevance_score items).
    apply q_sum_upper. eapply Forall_impl; [|exact Hrel].
    intros a Ha. apply Ha. }
  lra.
Qed.

Lemma extract_reliable_sources_In (extracted_content : list ExtractedSource)
  (u : string) :
  In u (extract_reliable_sources extracted_content) ->
  exists item, In item extracted_content /\ url item = u
               /\ (0.1 < relevance_score item)%Q.
Proof.
  unfold extract_reliable_sources. intros H.
  apply in_map_iff in H. destruct H as [item [<- H]].
  apply filter_In in H. destruct H as [Hin Hrel].
  exists item. split; [exact Hin|]. split; [reflexivity|].
  apply negb_true_iff in Hrel.
  destruct (Qlt_le_dec 0.1 (relevance_score item)) as [H | H]; [exact H|].
  apply Qle_bool_iff in H. congruence.
Qed.

Lemma extract_reliable_sources_length
  (extracted_content : list ExtractedSource) :
  List.length (extract_reliable_sources extracted_content)
  <= List.length extracted_content.
Proof.
  unfold extract_reliable_sources. rewrite length_map.
  apply filter_length_le.
Qed.

(** When no page can be scraped, nothing is extracted. *)
Lemma nothing_scraped_nothing_extracted (self : WebResearcher) (w : World)
  (search_results : list SearchResult) :
  (forall link, scrape_web_content w link = None) ->
  extract_content_from_sources self w search_results = [].
Proof.
  intros Hnone.
  destruct (extract_content_from_sources self w search_results)
    as [|item l] eqn:E; [reflexivity|].
  assert (Hin : In item (extract_content_from_sources self w search_results))
    by (rewrite E; now left).
  apply extracted_from_source in Hin. destruct Hin as [source [_ H]].
  apply extract_single_source_some in H. destruct H as [H _].
  rewrite Hnone in H. discriminate.
Qed.

End Ranking.

(** X4.  A relevance score lies between 0 and 0.6: the three bonuses add
    up to at most 0.3 + 0.2 + 0.1, so the cap at 1.0 is never reached. *)
Theorem relevance_score_at_most_0_6
  (c : string) (source : web_researcher.SearchResult) :
  (0 <= web_researcher.calculate_relevance_score c source <= 0.6)%Q.
Proof. apply relevance_score_range. Qed.

(** X5.  The list returned by [extract_content_from_sources] is in
    descending order of relevance and has at most [max_sources]
    elements, and never more than there are search results. *)
Theorem extract_content_sorted_and_bounded
  (self : web_researcher.WebResearcher) (w : web_researcher.World)
  (search_results : list web_researcher.SearchResult) :
  descending
    (web_researcher.extract_content_from_sources self w search_results)
  /\ List.length
       (web_researcher.extract_content_from_sources self w search_results)
     <= Nat.min (web_researcher.max_sources self)
          (List.length search_results).
Proof.
  split; [|apply extract_content_length].
  unfold web_researcher.extract_content_from_sources.
  destruct search_results as [|s0 rest]; [constructor|].
  apply sort_by_relevance_sorted.
Qed.

(** X6.  Every source listed in the result of
    [WebResearcher.execute_task] is the URL of a result of the web
    search for the task's query, starts with [http://] or [https://],
    and there are at most [max_sources] of them. *)
Theorem execute_task_sources
  (self : web_researcher.WebResearcher) (w : web_researcher.World)
  (task : Py.dict) :
  let r := web_researcher.execute_task self w task in
  Forall (fun u =>
            web_researcher.valid_url u = true
            /\ exists q source,
                 Py.get_opt "query" task = Some q
                 /\ In source (web_researcher.perform_web_search self w q)
                 /\ web_researcher.sr_url source = u)
    (agent.sources r)
  /\ List.length (agent.sources r) <= web_researcher.max_sources self.
Proof.
  cbv zeta. unfold web_researcher.execute_task.
  destruct (Py.get_opt "query" task) as [q|] eqn:Hq;
    [|simpl; split; [constructor | lia]].
  destruct (Py.truthy (Some q)); cbn [negb];
    [|simpl; split; [constructor | lia]].
  cbn [agent.sources].
  set (found := web_researcher.perform_web_search self w q).
  split.
  - apply Forall_forall. intros u Hu.
    apply extract_reliable_sources_In in Hu.
    destruct Hu as [item [Hin [<- _]]].
    apply extracted_from_source in Hin. destruct Hin as [source [Hs He]].
    apply extract_single_source_some in He.
    destruct He as [_ [_ [-> _]]].
    split.
    + pose proof (perform_web_search_valid self w q) as Hv.
      rewrite Forall_forall in Hv. now apply Hv.
    + now exists q, source.
  - etransitivity; [apply extract_reliable_sources_length|].
    etransitivity; [apply extract_content_length|]. apply Nat.le_min_l.
Qed.

(** X7.  The confidence of a result of [WebResearcher.execute_task]
    never exceeds 0.84 (0.6 for the sources plus 0.4 times a mean
    relevance of at most 0.6): the cap at 0.95 is never reached. *)
Theorem execute_task_confidence_at_most_0_84
  (self : web_researcher.WebResearcher) (w : web_researcher.World)
  (task : Py.dict) :
  (agent.confidence_score (web_researcher.execute_task self w task)
   <= 0.84)%Q.
Proof.
  unfold web_researcher.execute_task.
  destruct (negb _); cbn [agent.confidence_score]; [lra|].
  apply confidence_score_below_cap, extracted_relevance_range.
Qed.

(** X8.  When the task has a query but no page can be scraped (every
    fetch raises or answers with another status than 200), the result
    is not a failure: its status is [completed], with no source, a
    confidence of 0 and the finding that no information was found for
    the query. *)
Theorem execute_task_nothing_scraped
  (self : web_researcher.WebResearcher) (w : web_researcher.World)
  (task : Py.dict) (q : string) :
  Py.get_opt "query" task = Some q ->
  Py.nonempty q = true ->
  (forall link, web_researcher.scrape_web_content w link = None) ->
  web_researcher.execute_task self w task =
  {| agent.task_id := web_researcher.agent_id self;
     agent.task_description :=
       Py.get "description" "No description provided" task;
     agent.findings :=
       "Unable to find substantial information about '" ++ q
       ++ "'. No reliable sources were accessible.";
     agent.sources := [];
     agent.confidence_score := 0%Q;
     agent.status := "completed" |}.
Proof.
  intros Hq Hne Hnone. unfold web_researcher.execute_task.
  rewrite Hq. destruct q as [|c q]; [discriminate|].
  cbn [Py.truthy negb].
  rewrite (nothing_scraped_nothing_extracted self w _ Hnone).
  reflexivity.
Qed.

Lemma execute_task_nothing_scraped_witness :
  Py.get_opt "query" demo.task_1 = Some "solar power"
  /\ Py.nonempty "solar power" = true
  /\ (forall link,
        web_researcher.scrape_web_content demo.offline link = None)
  /\ web_researcher.execute_task demo.researcher demo.offline demo.task_1 =
     {| agent.task_id := web_researcher.agent_id demo.researcher;
        agent.task_description :=
          Py.get "description" "No description provided" demo.task_1;
        agent.findings :=
          "Unable to find substantial information about '" ++ "solar power"
          ++ "'. No reliable sources were accessible.";
        agent.sources := [];
        agent.confidence_score := 0%Q;
        agent.status := "completed" |}.
Proof.
  split; [reflexivity|]. split; [reflexivity|].
  split; [intros link; reflexivity|].
  apply (execute_task_nothing_scraped demo.researcher demo.offline
           demo.task_1 "solar power").
  - reflexivity.
  - reflexivity.
  - intros link. reflexivity.
Defined.

Section Findings.

Import web_researcher.

Lemma is_substring_within (pre s post : string) :
  is_substring s (pre ++ s ++ post).
Proof. now exists pre, post. Qed.

Lemma create_fallback_summary_names_query (query : string)
  (extracted_content : list ExtractedSource) :
  is_substring query (create_fallback_summary query extracted_content).
Proof.
  unfold create_fallback_summary.
  destruct extracted_content as [|x l].
  - apply is_substring_within.
  - cbn [firstn Py.enumerate map Py.join].
    rewrite !append_assoc. apply is_substring_within.
Qed.

Lemma synthesize_names_query (w : World)
  (query description context : string)
  (extracted_content : list ExtractedSource) :
  (forall q d c ex, exists e, chat_completion w q d c ex = Py.Raised e) ->
  is_substring query
    (synthesize_research_findings w query description context
       extracted_content).
Proof.
  intros Hchat. unfold synthesize_research_findings.
  destruct extracted_content as [|x l]; [apply is_substring_within|].
  destruct (Hchat query description context (x :: l)) as [e ->].
  apply create_fallback_summary_names_query.
Qed.

End Findings.

(** X9.  When the chat completion raises, the findings of a task with a
    query still name that query: they are either the message that
    nothing was found for it or the summary built from the extracted
    sources, both of which quote the query. *)
Theorem execute_task_findings_name_query
  (self : web_researcher.WebResearcher) (w : web_researcher.World)
  (task : Py.dict) (q : string) :
  Py.get_opt "query" task = Some q ->
  Py.nonempty q = true ->
  (forall qu d c ex,
      exists e, web_researcher.chat_completion w qu d c ex = Py.Raised e) ->
  is_substring q (agent.findings (web_researcher.execute_task self w task))
  /\ agent.status (web_researcher.execute_task self w task) = "completed".
Proof.
  intros Hq Hne Hchat. unfold web_researcher.execute_task.
  rewrite Hq. destruct q as [|c q]; [discriminate|].
  cbn [Py.truthy negb agent.findings agent.status].
  split; [|reflexivity].
  now apply synthesize_names_query.
Qed.

Lemma execute_task_findings_name_query_witness :
  Py.get_opt "query" demo.task_1 = Some "solar power"
  /\ Py.nonempty "solar power" = true
  /\ (forall qu d c ex,
        exists e,
          web_researcher.chat_completion (demo.pages_of_length 1200)
            qu d c ex = Py.Raised e)
  /\ is_substring "solar power"
       (agent.findings
          (web_researcher.execute_task demo.researcher
             (demo.pages_of_length 1200) demo.task_1))
  /\ agent.status
       (web_researcher.execute_task demo.researcher
          (demo.pages_of_length 1200) demo.task_1) = "completed".
Proof.
  split; [reflexivity|]. split; [reflexivity|].
  split; [intros; eexists; reflexivity|].
  apply (execute_task_findings_name_query demo.researcher
           (demo.pages_of_length 1200) demo.task_1 "solar power").
  - reflexivity.
  - reflexivity.
  - intros. eexists. reflexivity.
Defined.

(** ** supervisor.py: grouping and routing *)

Section Grouping.

Import supervisor.

Lemma first_seen_snoc (l : list string) (x : string) :
  first_seen (l ++ [x]) =
  if existsb (String.eqb x) (first_seen l) then first_seen l
  else (first_seen l ++ [x])%list.
Proof. unfold first_seen. now rewrite fold_left_app. Qed.

Lemma existsb_eqb_In (x : string) (l : list string) :
  existsb (String.eqb x) l = true <-> In x l.
Proof.
  rewrite existsb_exists. split.
  - intros [y [Hin E]]. apply String.eqb_eq in E. now subst.
  - intros H. exists x. split; [exact H | apply String.eqb_refl].
Qed.

Lemma first_seen_In (l : list string) (x : string) :
  In x (first_seen l) <-> In x l.
Proof.
  induction l as [|y l IH] using rev_ind; [reflexivity|].
  rewrite first_seen_snoc, in_app_iff.
  destruct (existsb (String.eqb y) (first_seen l)) eqn:E.
  - apply existsb_eqb_In in E. rewrite IH. simpl. split; [tauto|].
    intros [H | [<- | []]]; [exact H | now apply IH].
  - rewrite in_app_iff, IH. reflexivity.
Qed.

Lemma first_seen_NoDup (l : list string) : NoDup (first_seen l).
Proof.
  induction l as [|y l IH] using rev_ind; [constructor|].
  rewrite first_seen_snoc.
  destruct (existsb (String.eqb y) (first_seen l)) eqn:E; [exact IH|].
  apply NoDup_app; [exact IH | repeat constructor; intros [] |].
  intros x Hx [<- | []].
  apply existsb_eqb_In in Hx. congruence.
Qed.

Lemma add_to_group_keys (task_type : string) (task : Py.dict)
  (f : string -> list Py.dict) (keys : list string) :
  NoDup keys ->
  add_to_group task_type task (map (fun k => (k, f k)) keys) =
  if existsb (String.eqb task_type) keys
  then map (fun k => (k, if String.eqb k task_type
                         then (f k ++ [task])%list else f k)) keys
  else (map (fun k => (k, f k)) keys ++ [(task_type, [task])])%list.
Proof.
  induction 1 as [|k keys Hk Hnd IH]; [reflexivity|].
  cbn [map add_to_group existsb]. rewrite (String.eqb_sym task_type k).
  destruct (String.eqb_spec k task_type) as [-> | Hne]; cbn [orb].
  - f_equal. apply map_ext_in. intros k' Hk'.
    destruct (String.eqb_spec k' task_type) as [-> | _];
      [contradiction | reflexivity].
  - rewrite IH. now destruct (existsb (String.eqb task_type) keys).
Qed.

Lemma of_type_snoc (task_type : string) (tasks : list Py.dict)
  (task : Py.dict) :
  of_type task_type (tasks ++ [task]) =
  (of_type task_type tasks
   ++ if String.eqb (type_of task) task_type then [task] else [])%list.
Proof. unfold of_type. rewrite filter_app. reflexivity. Qed.

Lemma of_type_unseen (task_type : string) (tasks : list Py.dict) :
  ~ In task_type (map type_of tasks) -> of_type task_type tasks = [].
Proof.
  intros H. unfold of_type.
  induction tasks as [|t tasks IH]; [reflexivity|]. simpl in *.
  destruct (String.eqb_spec (type_of t) task_type) as [E | _]; [tauto|].
  apply IH. tauto.
Qed.

Lemma group_tasks_by_type_groups (tasks : list Py.dict) :
  group_tasks_by_type tasks =
  map (fun task_type => (task_type, of_type task_type tasks))
    (first_seen (map type_of tasks)).
Proof.
  induction tasks as [|t tasks IH] using rev_ind; [reflexivity|].
  unfold group_tasks_by_type in *. rewrite fold_left_app. cbn [fold_left].
  rewrite IH, map_app. cbn [map]. rewrite first_seen_snoc.
  fold (type_of t).
  rewrite (add_to_group_keys (type_of t) t
             (fun k => of_type k tasks) _ (first_seen_NoDup _)).
  destruct (existsb (String.eqb (type_of t))
              (first_seen (map type_of tasks))) eqn:E.
  - apply map_ext. intros k. rewrite of_type_snoc.
    destruct (String.eqb_spec k (type_of t)) as [-> | Hne].
    + now rewrite String.eqb_refl.
    + destruct (String.eqb_spec (type_of t) k) as [E' | _];
        [congruence | now rewrite app_nil_r].
  - rewrite map_app. cbn [map]. f_equal.
    + apply map_ext_in. intros k Hk. rewrite of_type_snoc.
      destruct (String.eqb_spec (type_of t) k) as [<- | _];
        [|now rewrite app_nil_r].
      apply existsb_eqb_In in Hk. congruence.
    + rewrite of_type_snoc, String.eqb_refl, of_type_unseen; [reflexivity|].
      intros Hin. apply first_seen_In, existsb_eqb_In in Hin. congruence.
Qed.

Lemma group_member (tasks : list Py.dict) (task_type : string)
  (task_list : list Py.dict) :
  In (task_type, task_list) (group_tasks_by_type tasks) ->
  task_list = of_type task_type tasks
  /\ exists task, In task tasks /\ type_of task = task_type.
Proof.
  rewrite group_tasks_by_type_groups. intros H.
  apply in_map_iff in H. destruct H as [k [E Hk]].
  injection E as <- <-. split; [reflexivity|].
  apply first_seen_In, in_map_iff in Hk. destruct Hk as [t [Ht Hin]].
  now exists t.
Qed.

Lemma of_type_In (task_type : string) (tasks : list Py.dict)
  (task : Py.dict) :
  In task (of_type task_type tasks) <->
  In task tasks /\ type_of task = task_type.
Proof.
  unfold of_type. rewrite filter_In, String.eqb_eq. reflexivity.
Qed.

Lemma enumerate_In {A} (l : list A) (start i : nat) (x : A) :
  In (i, x) (Py.enumerate start l) -> In x l.
Proof.
  revert start; induction l as [|y l IH]; intros start; simpl; [tauto|].
  intros [E | H]; [injection E as _ <-; now left | right; eauto].
Qed.

Lemma valid_results_In (results : list (Py.outcome agent.TaskResult))
  (r : agent.TaskResult) :
  In r (valid_results results) <-> In (Py.Returned r) results.
Proof.
  unfold valid_results. rewrite in_flat_map. split.
  - intros [[x|e] [Hin H]]; [|contradiction].
    destruct H as [<- | []]. exact Hin.
  - intros H. exists (Py.Returned r). split; [exact H | now left].
Qed.

(** A result of [execute_tasks_parallel] is what one of the agents of
    the list made of one of the tasks of the list. *)
Lemma execute_tasks_parallel_In (w : World) (tasks : list Py.dict)
  (agents : list agent.BaseAgent) (r : agent.TaskResult) :
  In r (execute_tasks_parallel w tasks agents) ->
  exists task a,
    In task tasks /\ In a agents
    /\ execute_single_task task a = Py.Returned r.
Proof.
  unfold execute_tasks_parallel.
  destruct tasks as [|t0 tasks0]; [contradiction|].
  destruct agents as [|first rest]; [contradiction|].
  set (tasks := t0 :: tasks0). set (agents := first :: rest).
  cbv zeta. intros H.
  apply valid_results_In, gather_In in H.
  unfold task_assignments in H. apply in_map_iff in H.
  destruct H as [[i task] [E Hin]].
  exists task, (round_robin agents first i).
  split; [eapply enumerate_In; eassumption|]. split; [|exact E].
  unfold round_robin. apply nth_In.
  apply Nat.mod_upper_bound. discriminate.
Qed.

Lemma delegate_fold_In (self : Supervisor) (w : World)
  (task_groups : list (string * list Py.dict))
  (all_results : list agent.TaskResult) (r : agent.TaskResult) :
  In r
    (fold_left (fun all_results '(task_type, task_list) =>
                  match capable_agents self task_type with
                  | [] => all_results
                  | capable =>
                      (all_results
                       ++ execute_tasks_parallel w task_list capable)%list
                  end)
       task_groups all_results) ->
  In r all_results
  \/ exists task_type task_list,
       In (task_type, task_list) task_groups
       /\ In r (execute_tasks_parallel w task_list
                  (capable_agents self task_type)).
Proof.
  revert all_results;
    induction task_groups as [|[task_type task_list] rest IH];
    intros all_results H; [now left|].
  cbn [fold_left] in H. apply IH in H.
  destruct H as [H | [ty [tl [Hin H]]]].
  - destruct (capable_agents self task_type) as [|first others] eqn:Hcap;
      [now left|].
    apply in_app_or in H. destruct H as [H | H]; [now left|].
    right. exists task_type, task_list.
    split; [now left | now rewrite Hcap].
  - right. exists ty, tl. split; [now right | exact H].
Qed.

Lemma delegate_tasks_In (self : Supervisor) (w : World)
  (tasks : list Py.dict) (r : agent.TaskResult) :
  In r (delegate_tasks self w tasks) ->
  exists task a,
    In task tasks /\ In a (sub_agents self)
    /\ agent.can_handle_task a (type_of task) = true
    /\ execute_single_task task a = Py.Returned r.
Proof.
  unfold delegate_tasks. destruct tasks as [|t0 tasks0]; [contradiction|].
  set (tasks := t0 :: tasks0). intros H.
  apply delegate_fold_In in H.
  destruct H as [[] | [ty [tl [Hg H]]]].
  apply group_member in Hg. destruct Hg as [-> _].
  apply execute_tasks_parallel_In in H.
  destruct H as [task [a [Htask [Ha E]]]].
  apply of_type_In in Htask. destruct Htask as [Hin <-].
  unfold capable_agents in Ha. apply filter_In in Ha.
  destruct Ha as [Ha Hcan]. now exists task, a.
Qed.

Lemma covered_type_of (self : Supervisor) (task : Py.dict) :
  covered self task = covered_type self (type_of task).
Proof. reflexivity. Qed.

Lemma delegate_fold_skip (self : Supervisor) (w : World)
  (task_groups : list (string * list Py.dict))
  (all_results : list agent.TaskResult) :
  (forall task_type task_list,
      In (task_type, task_list) task_groups ->
      capable_agents self task_type = []) ->
  fold_left (fun all_results '(task_type, task_list) =>
               match capable_agents self task_type with
               | [] => all_results
               | capable =>
                   (all_results
                    ++ execute_tasks_parallel w task_list capable)%list
               end)
    task_groups all_results = all_results.
Proof.
  revert all_results;
    induction task_groups as [|[task_type task_list] rest IH];
    intros all_results H; [reflexivity|].
  cbn [fold_left]. rewrite (H task_type task_list) by now left.
  apply IH. intros ty tl Hin. apply (H ty tl). now right.
Qed.

Lemma group_single_type (task_type : string) (tasks : list Py.dict) :
  tasks <> [] ->
  (forall task, In task tasks -> type_of task = task_type) ->
  group_tasks_by_type tasks = [(task_type, tasks)].
Proof.
  intros Hne Hty.
  induction tasks as [|t tasks IH] using rev_ind; [congruence|].
  unfold group_tasks_by_type in *. rewrite fold_left_app. cbn [fold_left].
  fold (type_of t).
  rewrite (Hty t) by (apply in_or_app; right; now left).
  destruct tasks as [|t0 tasks0]; [reflexivity|].
  rewrite IH.
  - cbn [add_to_group]. now rewrite String.eqb_refl.
  - discriminate.
  - intros task H. apply Hty. apply in_or_app. now left.
Qed.

End Grouping.

(** X10.  [group_tasks_by_type] makes one group per type, in the order
    in which the types first appear in the input; the group of a type
    holds exactly the input tasks of that type ([unknown] for a task
    without a type), in their input order.  No type has two groups and
    no group is empty. *)
Theorem group_tasks_by_type_first_seen (tasks : list Py.dict) :
  supervisor.group_tasks_by_type tasks =
    map (fun task_type => (task_type, of_type task_type tasks))
      (first_seen (map type_of tasks))
  /\ NoDup (map fst (supervisor.group_tasks_by_type tasks))
  /\ Forall (fun g => snd g <> []) (supervisor.group_tasks_by_type tasks).
Proof.
  split; [apply group_tasks_by_type_groups|]. split.
  - rewrite group_tasks_by_type_groups, map_map. cbn [fst].
    rewrite map_id. apply first_seen_NoDup.
  - apply Forall_forall. intros [ty tl] H. cbn [snd].
    apply group_member in H. destruct H as [-> [t [Hin Ht]]].
    intros E. assert (Hin' : In t (of_type ty tasks)) by now apply of_type_In.
    rewrite E in Hin'. contradiction.
Qed.

(** X12.  When no registered agent accepts the type of any of the
    tasks, and in particular when no agent is registered,
    [delegate_tasks] returns the empty list and raises nothing. *)
Theorem delegate_tasks_uncovered
  (self : supervisor.Supervisor) (w : supervisor.World)
  (tasks : list Py.dict) :
  (forall task, In task tasks -> covered self task = false) ->
  supervisor.delegate_tasks self w tasks = [].
Proof.
  intros Hcov. unfold supervisor.delegate_tasks.
  destruct tasks as [|t0 tasks0]; [reflexivity|].
  apply delegate_fold_skip. intros ty tl Hin.
  apply group_member in Hin. destruct Hin as [_ [t [Hin <-]]].
  apply capable_agents_covered. now apply Hcov.
Qed.

Lemma delegate_tasks_uncovered_witness :
  (forall task, In task [demo.task_3] -> covered demo.a_supervisor task = false)
  /\ supervisor.delegate_tasks demo.a_supervisor demo.no_provider [demo.task_3]
     = [].
Proof.
  assert (H : forall task,
             In task [demo.task_3] -> covered demo.a_supervisor task = false).
  { intros task [<- | []]. reflexivity. }
  split; [exact H|].
  apply (delegate_tasks_uncovered demo.a_supervisor demo.no_provider
           [demo.task_3]). exact H.
Defined.

(** X13.  Every result that [delegate_tasks] returns is what the
    per-task wrapper made of one of the input tasks, run by a registered
    agent whose [can_handle_task] accepts the type of that task: a task
    is never handed to an agent that does not accept its type, and no
    result is made up for a task that was not submitted. *)
Theorem delegate_tasks_routing
  (self : supervisor.Supervisor) (w : supervisor.World)
  (tasks : list Py.dict) (r : agent.TaskResult) :
  In r (supervisor.delegate_tasks self w tasks) ->
  exists task a,
    In task tasks /\ In a (supervisor.sub_agents self)
    /\ agent.can_handle_task a (type_of task) = true
    /\ supervisor.execute_single_task task a = Py.Returned r.
Proof. apply delegate_tasks_In. Qed.

Lemma delegate_tasks_routing_witness :
  let r := {| agent.task_id := "research_task_2";
              agent.task_description := "Research on wind power";
              agent.findings := "Task failed with error: boom";
              agent.sources := [];
              agent.confidence_score := 0%Q;
              agent.status := "failed" |} in
  In r (supervisor.delegate_tasks demo.a_supervisor demo.no_provider
          [demo.task_1; demo.task_3; demo.task_2])
  /\ exists task a,
       In task [demo.task_1; demo.task_3; demo.task_2]
       /\ In a (supervisor.sub_agents demo.a_supervisor)
       /\ agent.can_handle_task a (type_of task) = true
       /\ supervisor.execute_single_task task a = Py.Returned r.
Proof.
  cbv zeta.
  assert (H : In {| agent.task_id := "research_task_2";
                    agent.task_description := "Research on wind power";
                    agent.findings := "Task failed with error: boom";
                    agent.sources := [];
                    agent.confidence_score := 0%Q;
                    agent.status := "failed" |}
                (supervisor.delegate_tasks demo.a_supervisor demo.no_provider
                   [demo.task_1; demo.task_3; demo.task_2])).
  { vm_compute. right. left. reflexivity. }
  split; [exact H|].
  exact (delegate_tasks_routing demo.a_supervisor demo.no_provider
           [demo.task_1; demo.task_3; demo.task_2] _ H).
Defined.

(** ** supervisor.py: planning *)

Section Planning.

Import supervisor.

Lemma getitem_returned (key : string) (d : Py.dict) (v : string) :
  Py.getitem key d = Py.Returned v <-> Py.get_opt key d = Some v.
Proof.
  unfold Py.getitem. destruct (Py.get_opt key d); split; congruence.
Qed.

Lemma build_tasks_shape (sub_topics : list Py.dict) :
  forall i tasks,
    build_tasks i sub_topics = Py.Returned tasks ->
    List.length tasks = List.length sub_topics
    /\ forall k task, nth_error tasks k = Some task -> planned_at i k task.
Proof.
  induction sub_topics as [|sub rest IH]; intros i tasks H.
  - apply some_eq_returned in H. subst tasks. split; [reflexivity|].
    intros [|k] task E; discriminate.
  - cbn [build_tasks] in H. unfold Py.bind in H.
    destruct (Py.getitem "query" sub) as [q|]; [|discriminate].
    destruct (Py.getitem "description" sub) as [d|]; [|discriminate].
    destruct (Py.getitem "context" sub) as [c|]; [|discriminate].
    destruct (build_tasks (S i) rest) as [tl|] eqn:E; [|discriminate].
    apply some_eq_returned in H. subst tasks.
    destruct (IH _ _ E) as [Hlen Hshape]. split; [simpl; now rewrite Hlen|].
    intros [|k] task Hk.
    + apply some_eq in Hk. subst task.
      unfold planned_at. rewrite Nat.add_0_r. cbn.
      repeat split; try reflexivity; discriminate.
    + specialize (Hshape k task Hk). unfold planned_at in *.
      now replace (i + S k + 1) with (S i + k + 1) by lia.
Qed.

(** The loop raises [KeyError] exactly when a sub-topic lacks one of
    the three keys it indexes. *)
Lemma build_tasks_returns (sub_topics : list Py.dict) (i : nat) :
  (exists tasks, build_tasks i sub_topics = Py.Returned tasks) <->
  Forall (fun sub => Py.get_opt "query" sub <> None
                     /\ Py.get_opt "description" sub <> None
                     /\ Py.get_opt "context" sub <> None) sub_topics.
Proof.
  revert i; induction sub_topics as [|sub rest IH]; intros i.
  - split; [constructor | intros _; now exists []].
  - cbn [build_tasks]. unfold Py.bind, Py.getitem. split.
    + intros [tasks H].
      destruct (Py.get_opt "query" sub) eqn:Hq; cbv beta iota in H;
        [|discriminate].
      destruct (Py.get_opt "description" sub) eqn:Hd; cbv beta iota in H;
        [|discriminate].
      destruct (Py.get_opt "context" sub) eqn:Hc; cbv beta iota in H;
        [|discriminate].
      destruct (build_tasks (S i) rest) as [tl|] eqn:E; [|discriminate].
      constructor; [repeat split; congruence|].
      apply (IH (S i)). now exists tl.
    + intros H. inversion H as [|? ? [Hq [Hd Hc]] Hrest]; subst.
      destruct (Py.get_opt "query" sub); [|congruence].
      destruct (Py.get_opt "description" sub); [|congruence].
      destruct (Py.get_opt "context" sub); [|congruence].
      apply (IH (S i)) in Hrest. destruct Hrest as [tl ->].
      cbv beta iota. eauto.
Qed.

Lemma generate_follow_up_questions_returns (w : World) (topic : string) :
  exists asked, generate_follow_up_questions w topic = Py.Returned asked.
Proof.
  unfold generate_follow_up_questions.
  destruct (ask_follow_up_questions w topic) as [a|e]; simpl; eauto.
Qed.

(** The context that [plan_research] hands to the analysis. *)
Lemma plan_research_steps (self : Supervisor) (p : Planner)
  (research_topic additional_context : string) :
  exists enhanced_context,
    plan_research self p research_topic additional_context =
    (sub_topics <-
       analyze_and_break_down_topic p research_topic enhanced_context ;;
     tasks <- build_tasks 0 sub_topics ;;
     Py.Returned (set_task_queue self tasks, tasks))
    /\ Py.nonempty enhanced_context = true.
Proof.
  unfold plan_research.
  destruct (Py.nonempty additional_context) eqn:E; cbn [negb].
  - eexists. split; [reflexivity|].
    apply nonempty_length. rewrite !length_append. simpl. lia.
  - destruct (generate_follow_up_questions_returns (base p) research_topic)
      as [asked ->].
    eexists. split; [reflexivity|].
    apply nonempty_length. rewrite !length_append. simpl. lia.
Qed.

Lemma plan_research_shape (self : Supervisor) (p : Planner)
  (research_topic additional_context : string)
  (self' : Supervisor) (tasks : list Py.dict) :
  plan_research self p research_topic additional_context
    = Py.Returned (self', tasks) ->
  task_queue self' = tasks
  /\ sub_agents self' = sub_agents self
  /\ forall k task, nth_error tasks k = Some task -> planned_at 0 k task.
Proof.
  destruct (plan_research_steps self p research_topic additional_context)
    as [ctx [-> _]].
  unfold Py.bind.
  destruct (analyze_and_break_down_topic p research_topic ctx) as [subs|];
    [|discriminate].
  destruct (build_tasks 0 subs) as [tl|] eqn:E; [|discriminate].
  intros H. apply some_eq_returned in H. injection H as <- <-.
  split; [reflexivity|]. split; [reflexivity|].
  apply (build_tasks_shape subs 0 tl E).
Qed.

Lemma plan_research_state (self : Supervisor) (p : Planner)
  (research_topic additional_context : string)
  (self' : Supervisor) (tasks : list Py.dict) :
  plan_research self p research_topic additional_context
    = Py.Returned (self', tasks) ->
  self' = set_task_queue self tasks.
Proof.
  destruct (plan_research_steps self p research_topic additional_context)
    as [ctx [-> _]].
  unfold Py.bind.
  destruct (analyze_and_break_down_topic p research_topic ctx) as [subs|];
    [|discriminate].
  destruct (build_tasks 0 subs) as [tl|]; [|discriminate].
  intros H. apply some_eq_returned in H. now injection H as <- <-.
Qed.

Lemma planned_tasks_web_search (tasks : list Py.dict) :
  (forall k task, nth_error tasks k = Some task -> planned_at 0 k task) ->
  forall task, In task tasks -> type_of task = "web_search".
Proof.
  intros H task Hin. apply In_nth_error in Hin. destruct Hin as [k Hk].
  destruct (H k task Hk) as [_ [Hty _]].
  unfold type_of, Py.get. now rewrite Hty.
Qed.

End Planning.

(** X14.  When [plan_research] returns, the tasks it returns are also
    the supervisor's new queue, whatever the queue held before; the
    summary counts them, the registered agents are unchanged, and the
    task at index [k] has the identifier [research_task_] followed by
    [k + 1], the type [web_search], and a query, a description, a
    context and a priority. *)
Theorem plan_research_tasks
  (self : supervisor.Supervisor) (p : supervisor.Planner)
  (research_topic additional_context : string)
  (self' : supervisor.Supervisor) (tasks : list Py.dict) :
  supervisor.plan_research self p research_topic additional_context
    = Py.Returned (self', tasks) ->
  supervisor.task_queue self' = tasks
  /\ supervisor.queued_tasks (supervisor.get_research_summary self')
     = List.length tasks
  /\ supervisor.sub_agents self' = supervisor.sub_agents self
  /\ forall k task, nth_error tasks k = Some task -> planned_at 0 k task.
Proof.
  intros H. apply plan_research_shape in H. destruct H as [Hq [Ha Hs]].
  split; [exact Hq|]. split; [|split; [exact Ha | exact Hs]].
  unfold supervisor.get_research_summary. cbn. now rewrite Hq.
Qed.

Lemma plan_research_tasks_witness :
  supervisor.plan_research demo_plan.system demo_plan.prose_provider
    "solar power" "focus on Europe"
  = Py.Returned
      (supervisor.set_task_queue demo_plan.system [demo_plan.simple_task],
       [demo_plan.simple_task])
  /\ supervisor.task_queue
       (supervisor.set_task_queue demo_plan.system [demo_plan.simple_task])
     = [demo_plan.simple_task]
  /\ supervisor.queued_tasks
       (supervisor.get_research_summary
          (supervisor.set_task_queue demo_plan.system [demo_plan.simple_task]))
     = List.length [demo_plan.simple_task]
  /\ supervisor.sub_agents
       (supervisor.set_task_queue demo_plan.system [demo_plan.simple_task])
     = supervisor.sub_agents demo_plan.system
  /\ forall k task,
       nth_error [demo_plan.simple_task] k = Some task -> planned_at 0 k task.
Proof.
  split; [reflexivity|].
  apply (plan_research_tasks demo_plan.system demo_plan.prose_provider
           "solar power" "focus on Europe").
  reflexivity.
Defined.

(** X16.  When the chat completion that assesses the complexity raises,
    [analyze_topic_complexity] does not fall back to the word-count
    heuristic: the clause [except json.JSONDecodeError] is evaluated
    before [import json] has run, so the function raises, and
    [plan_research] raises with it, whatever the context. *)
Theorem plan_research_provider_down
  (self : supervisor.Supervisor) (p : supervisor.Planner)
  (research_topic additional_context : string) :
  (forall context,
      exists e,
        supervisor.chat_complexity p research_topic context = Py.Raised e) ->
  (forall context,
      supervisor.analyze_topic_complexity p research_topic context
      = Py.Raised supervisor.json_unbound)
  /\ supervisor.plan_research self p research_topic additional_context
     = Py.Raised supervisor.json_unbound.
Proof.
  intros Hdown.
  assert (Han : forall context,
             supervisor.analyze_topic_complexity p research_topic context
             = Py.Raised supervisor.json_unbound).
  { intros context. unfold supervisor.analyze_topic_complexity.
    now destruct (Hdown context) as [e ->]. }
  split; [exact Han|].
  destruct (plan_research_steps self p research_topic additional_context)
    as [ctx [-> _]].
  unfold supervisor.analyze_and_break_down_topic. now rewrite Han.
Qed.

Lemma plan_research_provider_down_witness :
  (forall context,
      exists e,
        supervisor.chat_complexity demo_plan.provider_down "solar power"
          context = Py.Raised e)
  /\ (forall context,
        supervisor.analyze_topic_complexity demo_plan.provider_down
          "solar power" context = Py.Raised supervisor.json_unbound)
  /\ supervisor.plan_research demo_plan.system demo_plan.provider_down
       "solar power" EmptyString = Py.Raised supervisor.json_unbound.
Proof.
  split; [intros context; eexists; reflexivity|].
  apply (plan_research_provider_down demo_plan.system
           demo_plan.provider_down "solar power" EmptyString).
  intros context. eexists. reflexivity.
Defined.

(** X17.  When the provider answers every planning request but none of
    its answers decodes as JSON, [plan_research] returns exactly one
    task: [research_task_1], of type [web_search] and priority [high],
    whose query is the topic.  Its description is [Research on] the
    topic when the topic has more than three words, and
    [Comprehensive research on] the topic otherwise. *)
Theorem plan_research_malformed_answers
  (self : supervisor.Supervisor) (p : supervisor.Planner)
  (research_topic additional_context : string) :
  (forall topic context,
      exists content,
        supervisor.chat_complexity p topic context = Py.Returned content) ->
  (forall text, exists e, supervisor.json_loads_analysis p text = Py.Raised e) ->
  (forall topic analysis context,
      exists content,
        supervisor.chat_subtopics p topic analysis context
        = Py.Returned content) ->
  (forall text, exists e, supervisor.json_loads_subtopics p text = Py.Raised e) ->
  exists task,
    supervisor.plan_research self p research_topic additional_context
    = Py.Returned (supervisor.set_task_queue self [task], [task])
    /\ Py.get_opt "task_id" task = Some "research_task_1"
    /\ Py.get_opt "type" task = Some "web_search"
    /\ Py.get_opt "query" task = Some research_topic
    /\ Py.get_opt "priority" task = Some "high"
    /\ Py.get_opt "description" task
       = Some (if 3 <? List.length (Py.split research_topic)
               then "Research on " ++ research_topic
               else "Comprehensive research on " ++ research_topic).
Proof.
  intros Hc Hja Hs Hjs.
  destruct (plan_research_steps self p research_topic additional_context)
    as [ctx [-> _]].
  unfold supervisor.analyze_and_break_down_topic,
    supervisor.analyze_topic_complexity.
  destruct (Hc research_topic ctx) as [content ->].
  destruct (Hja (supervisor.strip_code_fence content)) as [e ->].
  cbn [Py.try_except Py.bind supervisor.is_complex
       supervisor._get_fallback_complexity_analysis].
  destruct (3 <? List.length (Py.split research_topic)).
  - unfold supervisor.generate_subtopics.
    destruct (Hs research_topic
                (supervisor._get_fallback_complexity_analysis research_topic)
                ctx) as [content' ->].
    destruct (Hjs (supervisor.strip_code_fence content')) as [e' ->].
    cbn [Py.try_except]. eexists. split; [reflexivity|].
    repeat split; reflexivity.
  - eexists. split; [reflexivity|]. repeat split; reflexivity.
Qed.

Lemma plan_research_malformed_answers_witness :
  (forall topic context,
      exists content,
        supervisor.chat_complexity demo_plan.prose_provider topic context
        = Py.Returned content)
  /\ (forall text,
        exists e,
          supervisor.json_loads_analysis demo_plan.prose_provider text
          = Py.Raised e)
  /\ (forall topic analysis context,
        exists content,
          supervisor.chat_subtopics demo_plan.prose_provider topic analysis
            context = Py.Returned content)
  /\ (forall text,
        exists e,
          supervisor.json_loads_subtopics demo_plan.prose_provider text
          = Py.Raised e)
  /\ exists task,
       supervisor.plan_research demo_plan.system demo_plan.prose_provider
         "how solar power changes grids" EmptyString
       = Py.Returned (supervisor.set_task_queue demo_plan.system [task], [task])
       /\ Py.get_opt "task_id" task = Some "research_task_1"
       /\ Py.get_opt "type" task = Some "web_search"
       /\ Py.get_opt "query" task = Some "how solar power changes grids"
       /\ Py.get_opt "priority" task = Some "high"
       /\ Py.get_opt "description" task
          = Some (if 3 <? List.length (Py.split "how solar power changes grids")
                  then "Research on " ++ "how solar power changes grids"
                  else "Comprehensive research on "
                       ++ "how solar power changes grids").
Proof.
  split; [intros; eexists; reflexivity|].
  split; [intros; eexists; reflexivity|].
  split; [intros; eexists; reflexivity|].
  split; [intros; eexists; reflexivity|].
  apply (plan_research_malformed_answers demo_plan.system
           demo_plan.prose_provider "how solar power changes grids"
           EmptyString); intros; eexists; reflexivity.
Defined.

Example split_example_words :
  Py.split "  how solar	power changes grids " =
  ["how"; "solar"; "power"; "changes"; "grids"].
Proof. reflexivity. Qed.

(** X18.  [Supervisor.execute_task] answers every task whose type is
    not [coordinate_research] with an [unsupported] result of
    confidence 0 and leaves the supervisor as it was, also for the types
    [plan_research] and [delegate_tasks] that its [can_handle_task]
    accepts. *)
Theorem supervisor_execute_task_unsupported
  (self : supervisor.Supervisor) (p : supervisor.Planner) (task : Py.dict) :
  Py.get_opt "type" task <> Some "coordinate_research" ->
  supervisor.execute_task self p task =
    Py.Returned
      (self,
       {| agent.task_id := supervisor.agent_id self;
          agent.task_description := "Unsupported supervisor task";
          agent.findings := "Supervisor only handles coordination tasks";
          agent.sources := [];
          agent.confidence_score := 0%Q;
          agent.status := "unsupported" |})
  /\ supervisor.can_handle_task self "plan_research" = true
  /\ supervisor.can_handle_task self "delegate_tasks" = true.
Proof.
  intros Hty. split; [|split; reflexivity].
  unfold supervisor.execute_task.
  destruct (Py.get_opt "type" task) as [ty|]; [|reflexivity].
  destruct (String.eqb_spec ty "coordinate_research") as [-> | Hne];
    [congruence | reflexivity].
Qed.

Lemma supervisor_execute_task_unsupported_witness :
  Py.get_opt "type" demo_plan.plan_task <> Some "coordinate_research"
  /\ supervisor.execute_task demo_plan.system demo_plan.prose_provider
       demo_plan.plan_task =
     Py.Returned
       (demo_plan.system,
        {| agent.task_id := supervisor.agent_id demo_plan.system;
           agent.task_description := "Unsupported supervisor task";
           agent.findings := "Supervisor only handles coordination tasks";
           agent.sources := [];
           agent.confidence_score := 0%Q;
           agent.status := "unsupported" |})
  /\ supervisor.can_handle_task demo_plan.system "plan_research" = true
  /\ supervisor.can_handle_task demo_plan.system "delegate_tasks" = true.
Proof.
  split; [discriminate|].
  apply (supervisor_execute_task_unsupported demo_plan.system
           demo_plan.prose_provider demo_plan.plan_task).
  discriminate.
Defined.

(** X19.  For a task of type [coordinate_research],
    [Supervisor.execute_task] raises whatever [plan_research] raises for
    the task's query: a planning error is not turned into a failed
    result.  When it returns, the result is [completed] with confidence
    0.9, carries the supervisor's identifier, lists no source whatever
    the sub-agents found, and its findings count the planned tasks and
    the collected results. *)
Theorem supervisor_execute_task_coordinate
  (self : supervisor.Supervisor) (p : supervisor.Planner) (task : Py.dict) :
  Py.get_opt "type" task = Some "coordinate_research" ->
  let topic := Py.get "query" "Unknown topic" task in
  (forall e,
      (forall context,
          supervisor.plan_research self p topic context = Py.Raised e) ->
      supervisor.execute_task self p task = Py.Raised e)
  /\ (forall self' r,
        supervisor.execute_task self p task = Py.Returned (self', r) ->
        agent.status r = "completed"
        /\ (agent.confidence_score r == 0.9)%Q
        /\ agent.sources r = []
        /\ agent.task_id r = supervisor.agent_id self
        /\ agent.findings r =
           "Coordinated research on '" ++ topic ++ "' with "
           ++ Py.str_of_nat (List.length (supervisor.task_queue self'))
           ++ " sub-tasks. " ++ "Collected "
           ++ Py.str_of_nat
                (List.length
                   (supervisor.delegate_tasks self' (supervisor.base p)
                      (supervisor.task_queue self')))
           ++ " results from sub-agents.").
Proof.
  intros Hty topic. unfold supervisor.execute_task. rewrite Hty.
  rewrite String.eqb_refl. fold topic.
  destruct (generate_follow_up_questions_returns (supervisor.base p) topic)
    as [asked ->].
  cbn [Py.bind]. split.
  - intros e Hplan. now rewrite Hplan.
  - intros self' r.
    destruct (supervisor.plan_research self p topic _)
      as [[s1 subtasks]|e] eqn:Hplan; [|discriminate].
    apply plan_research_state in Hplan. subst s1.
    intros H. apply some_eq_returned in H. injection H as <- <-.
    cbn [agent.status agent.confidence_score agent.sources agent.task_id
         agent.findings supervisor.task_queue supervisor.set_task_queue
         supervisor.agent_id].
    repeat split; reflexivity.
Qed.

Lemma supervisor_execute_task_coordinate_witness :
  Py.get_opt "type" demo_plan.coordinate_task = Some "coordinate_research"
  /\ (forall e,
        (forall context,
            supervisor.plan_research demo_plan.system demo_plan.provider_down
              (Py.get "query" "Unknown topic" demo_plan.coordinate_task)
              context = Py.Raised e) ->
        supervisor.execute_task demo_plan.system demo_plan.provider_down
          demo_plan.coordinate_task = Py.Raised e)
  /\ supervisor.execute_task demo_plan.system demo_plan.provider_down
       demo_plan.coordinate_task = Py.Raised supervisor.json_unbound.
Proof.
  split; [reflexivity|].
  pose proof (supervisor_execute_task_coordinate demo_plan.system
                demo_plan.provider_down demo_plan.coordinate_task
                eq_refl) as H.
  cbv zeta in H. destruct H as [Hraise _].
  split; [exact Hraise|].
  apply Hraise. intros context. destruct context; reflexivity.
Defined.

Example coordinate_example :
  match supervisor.execute_task demo_plan.system demo_plan.prose_provider
          demo_plan.coordinate_task with
  | Py.Returned (_, r) =>
      agent.findings r =
      "Coordinated research on 'solar power' with 1 sub-tasks. Collected 1 results from sub-agents."
  | Py.Raised _ => False
  end.
Proof. vm_compute. reflexivity. Qed.

(** ** supervisor.py: the word-count heuristic *)

Section Words.

Lemma split_at_spaces_word_then (w s : string) :
  all_chars (fun c => negb (Py.isspace c)) w = true ->
  Py.split_at_spaces (w ++ String " "%char s) = w :: Py.split_at_spaces s.
Proof.
  induction w as [|c w IH]; intros H; [reflexivity|].
  cbn [all_chars] in H. apply andb_true_iff in H. destruct H as [Hc Hw].
  apply negb_true_iff in Hc.
  cbn [String.append Py.split_at_spaces]. rewrite Hc, IH by exact Hw.
  reflexivity.
Qed.

Lemma split_at_spaces_word (w : string) :
  all_chars (fun c => negb (Py.isspace c)) w = true ->
  Py.split_at_spaces w = [w].
Proof.
  induction w as [|c w IH]; intros H; [reflexivity|].
  cbn [all_chars] in H. apply andb_true_iff in H. destruct H as [Hc Hw].
  apply negb_true_iff in Hc.
  cbn [Py.split_at_spaces]. rewrite Hc, IH by exact Hw. reflexivity.
Qed.

(** Splitting words that were joined with single blanks gives the words
    back. *)
Lemma split_join (ws : list string) :
  Forall (fun w => is_word w = true) ws ->
  Py.split (Py.join " " ws) = ws.
Proof.
  induction 1 as [|w ws Hw Hws IH]; [reflexivity|].
  unfold is_word in Hw. apply andb_true_iff in Hw. destruct Hw as [Hne Hns].
  destruct ws as [|w2 ws].
  - cbn [Py.join]. unfold Py.split. rewrite split_at_spaces_word by exact Hns.
    cbn [filter]. now rewrite Hne.
  - change (Py.join " " (w :: w2 :: ws))
      with (w ++ String " "%char (Py.join " " (w2 :: ws))).
    unfold Py.split in *. rewrite split_at_spaces_word_then by exact Hns.
    cbn [filter]. rewrite Hne. now rewrite IH.
Qed.

End Words.

(** X20.  [str.split] undoes the joining of words with single blanks,
    so for a topic written as [n] words separated by single blanks the
    fallback assessment finds the topic complex exactly when [n] is
    more than three; it recommends one sub-topic and names the topic as
    its only aspect. *)
Theorem fallback_complexity_counts_words (ws : list string) :
  Forall (fun w => is_word w = true) ws ->
  Py.split (Py.join " " ws) = ws
  /\ supervisor.is_complex
       (supervisor._get_fallback_complexity_analysis (Py.join " " ws))
     = Some (3 <? List.length ws)
  /\ supervisor.recommended_subtopics
       (supervisor._get_fallback_complexity_analysis (Py.join " " ws))
     = Some 1
  /\ supervisor.main_aspects
       (supervisor._get_fallback_complexity_analysis (Py.join " " ws))
     = Some [Py.join " " ws].
Proof.
  intros H. split; [now apply split_join|].
  unfold supervisor._get_fallback_complexity_analysis.
  cbn [supervisor.is_complex supervisor.recommended_subtopics
       supervisor.main_aspects].
  rewrite split_join by exact H. repeat split; reflexivity.
Qed.

Lemma fallback_complexity_counts_words_witness :
  Forall (fun w => is_word w = true) ["how"; "solar"; "power"; "works"]
  /\ Py.split (Py.join " " ["how"; "solar"; "power"; "works"])
     = ["how"; "solar"; "power"; "works"]
  /\ supervisor.is_complex
       (supervisor._get_fallback_complexity_analysis
          (Py.join " " ["how"; "solar"; "power"; "works"]))
     = Some (3 <? List.length ["how"; "solar"; "power"; "works"])
  /\ supervisor.recommended_subtopics
       (supervisor._get_fallback_complexity_analysis
          (Py.join " " ["how"; "solar"; "power"; "works"]))
     = Some 1
  /\ supervisor.main_aspects
       (supervisor._get_fallback_complexity_analysis
          (Py.join " " ["how"; "solar"; "power"; "works"]))
     = Some [Py.join " " ["how"; "solar"; "power"; "works"]].
Proof.
  assert (H : Forall (fun w => is_word w = true)
                ["how"; "solar"; "power"; "works"])
    by (repeat constructor).
  split; [exact H|].
  exact (fallback_complexity_counts_words
           ["how"; "solar"; "power"; "works"] H).
Defined.

(** ** speaker.py: further properties of the chunks *)

Section ChunkContent.

Lemma rstrip_idempotent (s : string) : Py.rstrip (Py.rstrip s) = Py.rstrip s.
Proof.
  induction s as [|c s IH]; [reflexivity|].
  cbn [Py.rstrip]. destruct (Py.rstrip s) as [|d r] eqn:E.
  - destruct (Py.isspace c) eqn:Hc; [reflexivity|].
    cbn [Py.rstrip]. now rewrite Hc.
  - cbn [Py.rstrip]. cbn [Py.rstrip] in IH.
    destruct (Py.rstrip r) as [|d' r'] eqn:Er.
    + destruct (Py.isspace d); [discriminate | now rewrite IH].
    + now rewrite IH.
Qed.

Lemma lstrip_starts_clean (s : string) : starts_clean (Py.lstrip s).
Proof.
  induction s as [|c s IH]; [exact I|].
  cbn [Py.lstrip]. destruct (Py.isspace c) eqn:Hc; [exact IH | exact Hc].
Qed.

Lemma rstrip_starts_clean (s : string) :
  starts_clean s -> starts_clean (Py.rstrip s).
Proof.
  destruct s as [|c s]; [trivial|].
  cbn [starts_clean Py.rstrip]. intros Hc.
  destruct (Py.rstrip s); [rewrite Hc|]; exact Hc.
Qed.

Lemma lstrip_clean (s : string) : starts_clean s -> Py.lstrip s = s.
Proof.
  destruct s as [|c s]; [reflexivity|].
  cbn [starts_clean Py.lstrip]. now intros ->.
Qed.

Lemma strip_idempotent (s : string) : Py.strip (Py.strip s) = Py.strip s.
Proof.
  unfold Py.strip.
  rewrite (lstrip_clean (Py.rstrip (Py.lstrip s))).
  - apply rstrip_idempotent.
  - apply rstrip_starts_clean, lstrip_starts_clean.
Qed.

Lemma non_blank_append (a b : string) :
  non_blank (a ++ b) = non_blank a ++ non_blank b.
Proof.
  induction a as [|c a IH]; [reflexivity|].
  cbn [String.append non_blank]. rewrite IH.
  now destruct (Py.isspace c).
Qed.

Lemma non_blank_lstrip (s : string) : non_blank (Py.lstrip s) = non_blank s.
Proof.
  induction s as [|c s IH]; [reflexivity|].
  cbn [Py.lstrip non_blank].
  destruct (Py.isspace c) eqn:Hc; [exact IH|].
  cbn [non_blank]. now rewrite Hc.
Qed.

Lemma non_blank_rstrip (s : string) : non_blank (Py.rstrip s) = non_blank s.
Proof.
  induction s as [|c s IH]; [reflexivity|].
  cbn [Py.rstrip non_blank]. rewrite <- IH.
  destruct (Py.rstrip s) as [|d r].
  - destruct (Py.isspace c) eqn:Hc; [reflexivity|].
    cbn [non_blank]. now rewrite Hc.
  - reflexivity.
Qed.

Lemma non_blank_strip (s : string) : non_blank (Py.strip s) = non_blank s.
Proof. unfold Py.strip. now rewrite non_blank_rstrip, non_blank_lstrip. Qed.

Lemma non_blank_replace_newline (s : string) :
  non_blank (Py.replace_char "010"%char " " s) = non_blank s.
Proof.
  induction s as [|c s IH]; [reflexivity|].
  cbn [Py.replace_char].
  destruct (Ascii.eqb_spec c "010"%char) as [-> | Hc].
  - rewrite non_blank_append, IH. reflexivity.
  - cbn [non_blank]. now rewrite IH.
Qed.

Lemma concat_strings_app (a b : list string) :
  concat_strings (a ++ b) = concat_strings a ++ concat_strings b.
Proof.
  induction a as [|x a IH]; [reflexivity|].
  cbn [app concat_strings fold_right] in *. unfold concat_strings in IH.
  now rewrite IH, append_assoc.
Qed.

Lemma concat_push_front (c : ascii) (pieces : list string) :
  concat_strings (speaker.push_front c pieces)
  = String c (concat_strings pieces).
Proof. destruct pieces; reflexivity. Qed.

(** The pieces of the split hold the text without the separators, which
    are whitespace. *)
Lemma non_blank_re_split (s : string) (st : speaker.scan) :
  non_blank (concat_strings (speaker.re_split_from st s)) = non_blank s.
Proof.
  revert st; induction s as [|c s IH]; intros st; [reflexivity|].
  cbn [speaker.re_split_from].
  destruct st; destruct (Py.isspace c) eqn:Hc;
    try (rewrite concat_push_front; cbn [non_blank]; rewrite Hc, IH;
         reflexivity).
  - cbn [concat_strings fold_right String.append non_blank].
    rewrite Hc. apply IH.
  - cbn [non_blank]. rewrite Hc. apply IH.
Qed.

Lemma chunk_step_content (max_length : nat) (chunks : list string)
  (current_chunk sentence : string) :
  let st := speaker.chunk_step max_length (chunks, current_chunk) sentence in
  non_blank (concat_strings (fst st)) ++ non_blank (snd st)
  = (non_blank (concat_strings chunks) ++ non_blank current_chunk)
    ++ non_blank sentence.
Proof.
  cbv zeta. unfold speaker.chunk_step.
  destruct sentence as [|c sentence]; cbn [Py.nonempty negb fst snd].
  - now rewrite append_nil_r.
  - set (s := String c sentence).
    destruct (_ && _); cbn [fst snd].
    + rewrite concat_strings_app, !non_blank_append.
      cbn [concat_strings fold_right].
      rewrite append_nil_r, non_blank_strip.
      change (non_blank " ") with EmptyString.
      now rewrite append_nil_r, append_assoc.
    + rewrite !non_blank_append.
      change (non_blank " ") with EmptyString.
      now rewrite append_nil_r, append_assoc.
Qed.

Lemma chunk_loop_content (max_length : nat) (sentences : list string) :
  forall st,
    non_blank (concat_strings
                 (fst (fold_left (speaker.chunk_step max_length) sentences st)))
    ++ non_blank (snd (fold_left (speaker.chunk_step max_length) sentences st))
    = (non_blank (concat_strings (fst st)) ++ non_blank (snd st))
      ++ non_blank (concat_strings sentences).
Proof.
  induction sentences as [|sentence sentences IH]; intros [chunks cur].
  - cbn. now rewrite append_nil_r.
  - cbn [fold_left]. rewrite IH.
    destruct (speaker.chunk_step max_length (chunks, cur) sentence)
      as [chunks' cur'] eqn:E.
    pose proof (chunk_step_content max_length chunks cur sentence) as H.
    cbv zeta in H. rewrite E in H. cbn [fst snd] in *. rewrite H.
    cbn [concat_strings fold_right]. rewrite non_blank_append.
    now rewrite !append_assoc.
Qed.

Lemma chunk_step_stripped (max_length : nat) (chunks : list string)
  (current_chunk sentence : string) :
  Forall (fun chunk => Py.strip chunk = chunk) chunks ->
  Forall (fun chunk => Py.strip chunk = chunk)
    (fst (speaker.chunk_step max_length (chunks, current_chunk) sentence)).
Proof.
  intros H. unfold speaker.chunk_step.
  destruct (negb _); [exact H|].
  destruct (_ && _); [|exact H].
  cbn [fst]. apply Forall_app. split; [exact H|].
  constructor; [apply strip_idempotent | constructor].
Qed.

Lemma chunk_loop_stripped (max_length : nat) (sentences : list string) :
  forall st,
    Forall (fun chunk => Py.strip chunk = chunk) (fst st) ->
    Forall (fun chunk => Py.strip chunk = chunk)
      (fst (fold_left (speaker.chunk_step max_length) sentences st)).
Proof.
  induction sentences as [|sentence sentences IH]; intros [chunks cur] H;
    [exact H|].
  cbn [fold_left]. apply IH.
  destruct (speaker.chunk_step max_length (chunks, cur) sentence) eqn:E.
  pose proof (chunk_step_stripped max_length chunks cur sentence H) as H'.
  now rewrite E in H'.
Qed.

End ChunkContent.

(** X21.  No chunk returned by [_split_into_chunks] starts or ends with
    whitespace: stripping a chunk again changes nothing. *)
Theorem chunks_are_stripped (text : string) (max_length : nat) :
  Forall (fun chunk => Py.strip chunk = chunk)
    (speaker._split_into_chunks text max_length).
Proof.
  unfold speaker._split_into_chunks.
  pose proof (chunk_loop_stripped max_length
                (speaker.re_split_sentences
                   (Py.replace_char "010"%char " " text))
                ([], EmptyString)) as H.
  destruct (fold_left _ _ _) as [chunks cur]. cbn [fst] in H.
  specialize (H (Forall_nil _)).
  destruct (Py.nonempty cur); [|exact H].
  apply Forall_app. split; [exact H|].
  constructor; [apply strip_idempotent | constructor].
Qed.

(** X22.  The chunks hold the text: read one after the other, the
    characters of the chunks that are not whitespace are exactly those
    of the text, in the same order.  Splitting drops, adds and moves
    nothing but whitespace. *)
Theorem chunks_keep_the_text (text : string) (max_length : nat) :
  non_blank (concat_strings (speaker._split_into_chunks text max_length))
  = non_blank text.
Proof.
  unfold speaker._split_into_chunks.
  pose proof (chunk_loop_content max_length
                (speaker.re_split_sentences
                   (Py.replace_char "010"%char " " text))
                ([], EmptyString)) as H.
  destruct (fold_left _ _ _) as [chunks cur]. cbn [fst snd] in H.
  unfold speaker.re_split_sentences in H.
  rewrite non_blank_re_split, non_blank_replace_newline in H.
  cbn [concat_strings fold_right non_blank String.append] in H.
  rewrite <- H.
  destruct cur as [|c cur]; cbn [Py.nonempty].
  - cbn [non_blank]. now rewrite append_nil_r.
  - rewrite concat_strings_app, non_blank_append.
    cbn [concat_strings fold_right].
    now rewrite append_nil_r, non_blank_strip.
Qed.

(** X23.  As long as no sentence of the text is longer than the limit,
    every chunk returned by [_split_into_chunks] has at most
    [max_length] characters. *)
Theorem chunks_within_limit (text : string) (max_length : nat) :
  Forall (fun sentence => String.length sentence <= max_length)
    (speaker.re_split_sentences (Py.replace_char "010"%char " " text)) ->
  Forall (fun chunk => String.length chunk <= max_length)
    (speaker._split_into_chunks text max_length).
Proof.
  intros Hs. unfold speaker._split_into_chunks.
  pose proof (chunk_loop_ok max_length _ Hs ([], EmptyString)) as H.
  destruct (fold_left _ _ _) as [chunks cur]. simpl in H.
  destruct H as [Hc Hcur]; [constructor | now left |].
  destruct (Py.nonempty cur); [|exact Hc].
  apply Forall_app. split; [exact Hc|].
  constructor; [now apply chunk_ok_strip | constructor].
Qed.

Lemma chunks_within_limit_witness :
  Forall (fun sentence => String.length sentence <= 16)
    (speaker.re_split_sentences
       (Py.replace_char "010"%char " " "Hello there.  How are you? Fine! "))
  /\ Forall (fun chunk => String.length chunk <= 16)
       (speaker._split_into_chunks "Hello there.  How are you? Fine! " 16).
Proof.
  assert (H : Forall (fun sentence => String.length sentence <= 16)
                (speaker.re_split_sentences
                   (Py.replace_char "010"%char " "
                      "Hello there.  How are you? Fine! "))).
  { repeat (constructor; [apply Nat.leb_le; reflexivity|]). constructor. }
  split; [exact H|].
  exact (chunks_within_limit "Hello there.  How are you? Fine! " 16 H).
Defined.

(** ** speaker.py: the directory name and the voice *)

Section SpeakerNames.

Lemma clean_char_fixed (c : ascii) :
  let c' := if Py.isalnum c then c else "_"%char in
  (if Py.isalnum c' then c' else "_"%char) = c'.
Proof.
  cbv zeta. destruct (Py.isalnum c) eqn:E; [now rewrite E | reflexivity].
Qed.

Lemma set_voice_valid (self : speaker.Speaker) (name : string) :
  In (speaker.voice_name self) speaker.valid_voices ->
  In (speaker.voice_name (speaker.set_voice self name)) speaker.valid_voices.
Proof.
  intros H. unfold speaker.set_voice.
  destruct (existsb (String.eqb name) speaker.valid_voices) eqn:E;
    [|exact H].
  cbn [speaker.voice_name]. now apply existsb_eqb_In.
Qed.

End SpeakerNames.

(** X24.  The directory name that [_convert_text_to_audio] derives from
    the topic has the length of the topic and holds only alphanumeric
    characters and underscores; a topic that is already of that form is
    kept as it is, so cleaning twice is cleaning once. *)
Theorem clean_topic_file_safe (topic_name : string) :
  String.length (speaker.clean_topic topic_name) = String.length topic_name
  /\ all_chars file_safe (speaker.clean_topic topic_name) = true
  /\ speaker.clean_topic (speaker.clean_topic topic_name)
     = speaker.clean_topic topic_name
  /\ (all_chars Py.isalnum topic_name = true ->
      speaker.clean_topic topic_name = topic_name).
Proof.
  induction topic_name as [|c rest [IH1 [IH2 [IH3 IH4]]]].
  - repeat split; reflexivity.
  - cbn [speaker.clean_topic String.length all_chars].
    split; [now rewrite IH1|]. split; [|split].
    + rewrite IH2, andb_true_r. unfold file_safe.
      destruct (Py.isalnum c) eqn:E; [now rewrite E | reflexivity].
    + rewrite IH3. f_equal. apply clean_char_fixed.
    + intros H. apply andb_true_iff in H. destruct H as [Hc Hrest].
      rewrite Hc. f_equal. now apply IH4.
Qed.

Example clean_topic_example :
  speaker.clean_topic "The Future of Remote-Work (2025)!"
  = "The_Future_of_Remote_Work__2025__".
Proof. reflexivity. Qed.

(** X25.  Whatever names are passed to [set_voice], in whatever order,
    the voice of a speaker that starts from [__init__] is always one of
    the six valid voices: an invalid name leaves the speaker as it is,
    and a valid name becomes the voice. *)
Theorem voice_always_valid (names : list string) :
  In (speaker.voice_name (fold_left speaker.set_voice names speaker.__init__))
    speaker.valid_voices
  /\ (forall self name,
        In name speaker.valid_voices ->
        speaker.voice_name (speaker.set_voice self name) = name)
  /\ (forall self name,
        ~ In name speaker.valid_voices -> speaker.set_voice self name = self).
Proof.
  split; [|split].
  - assert (H : forall self,
               In (speaker.voice_name self) speaker.valid_voices ->
               In (speaker.voice_name (fold_left speaker.set_voice names self))
                 speaker.valid_voices).
    { induction names as [|name names IH]; intros self Hself; [exact Hself|].
      cbn [fold_left]. apply IH. now apply set_voice_valid. }
    apply H. cbn. tauto.
  - intros self name Hin. unfold speaker.set_voice.
    apply existsb_eqb_In in Hin. now rewrite Hin.
  - intros self name Hnot. unfold speaker.set_voice.
    destruct (existsb (String.eqb name) speaker.valid_voices) eqn:E;
      [|reflexivity].
    apply existsb_eqb_In in E. contradiction.
Qed.

(** ** speaker.py: a text of blanks *)

Section Blanks.

Lemma isspace_not_sentence_end (c : ascii) :
  Py.isspace c = true -> speaker.is_sentence_end c = false.
Proof.
  unfold speaker.is_sentence_end. intros H.
  destruct (Ascii.eqb_spec c "."%char) as [-> | _]; [discriminate|].
  destruct (Ascii.eqb_spec c "!"%char) as [-> | _]; [discriminate|].
  destruct (Ascii.eqb_spec c "?"%char) as [-> | _]; [discriminate|].
  reflexivity.
Qed.

Lemma re_split_blanks (s : string) :
  all_chars Py.isspace s = true ->
  speaker.re_split_from speaker.AfterOther s = [s].
Proof.
  induction s as [|c s IH]; intros H; [reflexivity|].
  cbn [all_chars] in H. apply andb_true_iff in H. destruct H as [Hc Hs].
  cbn [speaker.re_split_from]. unfold speaker.scan_of.
  rewrite (isspace_not_sentence_end c Hc), IH by exact Hs. reflexivity.
Qed.

Lemma replace_newline_blanks (s : string) :
  all_chars Py.isspace s = true ->
  all_chars Py.isspace (Py.replace_char "010"%char " " s) = true
  /\ (Py.nonempty s = true ->
      Py.nonempty (Py.replace_char "010"%char " " s) = true).
Proof.
  induction s as [|c s IH]; intros H; [split; trivial|].
  cbn [all_chars] in H. apply andb_true_iff in H. destruct H as [Hc Hs].
  destruct (IH Hs) as [IH1 _].
  cbn [Py.replace_char]. destruct (Ascii.eqb c "010"%char).
  - cbn. split; [exact IH1 | reflexivity].
  - cbn [all_chars Py.nonempty]. rewrite Hc, IH1. split; reflexivity.
Qed.

Lemma lstrip_blanks (s : string) :
  all_chars Py.isspace s = true -> Py.lstrip s = EmptyString.
Proof.
  induction s as [|c s IH]; intros H; [reflexivity|].
  cbn [all_chars] in H. apply andb_true_iff in H. destruct H as [Hc Hs].
  cbn [Py.lstrip]. rewrite Hc. now apply IH.
Qed.

End Blanks.

(** X28.  A text that is not empty but holds only whitespace comes back
    from [_split_into_chunks] as one chunk, the empty string, whatever
    the limit: the text counts as a sentence, and stripping leaves
    nothing of it. *)
Theorem blank_text_gives_empty_chunk (text : string) (max_length : nat) :
  Py.nonempty text = true ->
  all_chars Py.isspace text = true ->
  speaker._split_into_chunks text max_length = [EmptyString].
Proof.
  intros Hne Hblank.
  destruct (replace_newline_blanks text Hblank) as [Hb Hn].
  specialize (Hn Hne). unfold speaker._split_into_chunks.
  unfold speaker.re_split_sentences. rewrite re_split_blanks by exact Hb.
  set (s := Py.replace_char "010"%char " " text) in *.
  cbn [fold_left]. unfold speaker.chunk_step. rewrite Hn.
  cbn [negb Py.nonempty andb]. rewrite andb_false_r.
  cbn [String.append].
  assert (E : Py.nonempty (s ++ " ") = true).
  { destruct s; [discriminate | reflexivity]. }
  rewrite E. cbn [app]. rewrite strip_append_space.
  unfold Py.strip. now rewrite lstrip_blanks.
Qed.

Lemma blank_text_gives_empty_chunk_witness :
  Py.nonempty "   " = true
  /\ all_chars Py.isspace "   " = true
  /\ speaker._split_into_chunks "   " 4000 = [EmptyString].
Proof.
  split; [reflexivity|]. split; [reflexivity|].
  apply (blank_text_gives_empty_chunk "   " 4000); reflexivity.
Defined.

(** ** web_researcher.py: the provider's results *)

(** X29.  When both credentials are set, the provider answers 200 and
    at least one of its items has an [http] or [https] link,
    [perform_web_search] returns the provider's results with such a
    link, in the provider's order, and not the placeholder set; the
    provider is asked for ten results. *)
Theorem perform_web_search_provider
  (self : web_researcher.WebResearcher) (w : web_researcher.World)
  (query error_text : string) (items : option (list Py.dict)) :
  Py.truthy (web_researcher.google_api_key self) = true ->
  Py.truthy (web_researcher.google_search_engine_id self) = true ->
  web_researcher.google_search_api w query 10
    = web_researcher.GoogleHttp 200 error_text items ->
  web_researcher.parse_google_search_results w items <> [] ->
  web_researcher.perform_web_search self w query
  = filter (fun r => web_researcher.valid_url (web_researcher.sr_url r))
      (map (web_researcher.parse_item w)
         (match items with Some l => l | None => [] end)).
Proof.
  intros Hk He Hg Hne.
  unfold web_researcher.perform_web_search,
    web_researcher.call_google_search_api.
  rewrite Hk, He. cbn [andb negb orb].
  change (Nat.min 10 10) with 10. rewrite Hg. cbn [Nat.eqb].
  destruct (web_researcher.parse_google_search_results w items) eqn:E;
    [congruence|].
  rewrite <- E. reflexivity.
Qed.

Lemma perform_web_search_provider_witness :
  Py.truthy (web_researcher.google_api_key demo_search.researcher) = true
  /\ Py.truthy (web_researcher.google_search_engine_id demo_search.researcher)
     = true
  /\ web_researcher.google_search_api demo_search.online "solar power" 10
     = web_researcher.GoogleHttp 200 EmptyString (Some demo_search.items)
  /\ web_researcher.parse_google_search_results demo_search.online
       (Some demo_search.items) <> []
  /\ web_researcher.perform_web_search demo_search.researcher
       demo_search.online "solar power"
     = filter (fun r => web_researcher.valid_url (web_researcher.sr_url r))
         (map (web_researcher.parse_item demo_search.online)
            demo_search.items).
Proof.
  split; [reflexivity|]. split; [reflexivity|]. split; [reflexivity|].
  split; [discriminate|].
  apply (perform_web_search_provider demo_search.researcher
           demo_search.online "solar power" EmptyString
           (Some demo_search.items)).
  - reflexivity.
  - reflexivity.
  - reflexivity.
  - discriminate.
Defined.

Example perform_web_search_provider_example :
  map web_researcher.sr_url
    (web_researcher.perform_web_search demo_search.researcher
       demo_search.online "solar power")
  = ["https://energy.gov/solar"].
Proof. reflexivity. Qed.

(* ================================================================== *)
(** * The supervisor on tasks of values *)
(* ================================================================== *)

(** ** Tasks of strings among tasks of values *)

Section Lifting.

Lemma any_eqb_spec (a b : Any.value) : reflect (a = b) (Any.eqb a b).
Proof.
  destruct a as [x|], b as [y|]; simpl; try (constructor; congruence).
  destruct (String.eqb_spec x y); constructor; congruence.
Qed.

Lemma any_eqb_refl (a : Any.value) : Any.eqb a a = true.
Proof. destruct (any_eqb_spec a a); congruence. Qed.

Lemma any_eqb_sym (a b : Any.value) : Any.eqb a b = Any.eqb b a.
Proof.
  destruct (any_eqb_spec a b), (any_eqb_spec b a); congruence.
Qed.

Lemma get_opt_lift (key : string) (d : Py.dict) :
  Any.get_opt key (Any.lift d) = option_map Any.Str (Py.get_opt key d).
Proof.
  induction d as [|[k v] d IH]; [reflexivity|].
  simpl. now destruct (String.eqb k key).
Qed.

Lemma get_lift (key default : string) (d : Py.dict) :
  Any.get key (Any.Str default) (Any.lift d)
  = Any.Str (Py.get key default d).
Proof.
  unfold Any.get, Py.get. rewrite get_opt_lift.
  now destruct (Py.get_opt key d).
Qed.

Lemma truthy_lift (key : string) (d : Py.dict) :
  Any.truthy (Any.get_opt key (Any.lift d)) = Py.truthy (Py.get_opt key d).
Proof. rewrite get_opt_lift. now destruct (Py.get_opt key d) as [[|c s]|]. Qed.

Lemma identified_lift (d : Py.dict) : identified (Any.lift d) = true.
Proof. unfold identified. now rewrite !get_lift. Qed.

(** On a task of strings the coroutine of the supervisor is the one of
    the modules on strings. *)
Lemma execute_single_task_lift (task : Py.dict) (a : any_agent.BaseAgent) :
  any_supervisor.execute_single_task (Any.lift task) a
  = supervisor.execute_single_task task (any_agent.on_strings a).
Proof.
  unfold any_supervisor.execute_single_task, supervisor.execute_single_task.
  cbn [any_agent.on_strings agent.execute_task].
  destruct (any_agent.execute_task a (Any.lift task)) as [r|e];
    [reflexivity|].
  cbn [Py.try_except]. now rewrite !get_lift.
Qed.

(** On a task of strings, in a world whose completions are text, the
    researcher returns the result of the modules on strings. *)
Lemma execute_task_lift (self : web_researcher.WebResearcher)
  (w : web_researcher.World) (task : Py.dict) :
  any_researcher.execute_task self (any_researcher.of_strings w)
    (Any.lift task)
  = Py.Returned (web_researcher.execute_task self w task).
Proof.
  unfold any_researcher.execute_task, web_researcher.execute_task.
  rewrite truthy_lift, !get_lift, get_opt_lift.
  destruct (Py.get_opt "query" task) as [q|]; cbn [option_map Py.truthy];
    [|reflexivity].
  destruct q as [|c q]; cbn [negb]; [reflexivity|].
  cbn [any_researcher.base any_researcher.of_strings].
  unfold any_researcher.synthesize_research_findings,
    web_researcher.synthesize_research_findings.
  destruct (web_researcher.extract_content_from_sources self w _)
    as [|x l]; [reflexivity|].
  cbn [any_researcher.chat_content any_researcher.of_strings Any.format].
  now destruct (web_researcher.chat_completion w _ _ _ _).
Qed.

End Lifting.

(** ** Grouping tasks of values *)

Section AnyGrouping.

Import any_supervisor.

Lemma any_eqb_eq (a b : Any.value) : Any.eqb a b = true <-> a = b.
Proof. destruct (any_eqb_spec a b); split; congruence. Qed.

Lemma first_seen_values_snoc (l : list Any.value) (x : Any.value) :
  first_seen_values (l ++ [x]) =
  if existsb (Any.eqb x) (first_seen_values l) then first_seen_values l
  else (first_seen_values l ++ [x])%list.
Proof. unfold first_seen_values. now rewrite fold_left_app. Qed.

Lemma existsb_any_eqb_In (x : Any.value) (l : list Any.value) :
  existsb (Any.eqb x) l = true <-> In x l.
Proof.
  rewrite existsb_exists. split.
  - intros [y [Hin E]]. apply any_eqb_eq in E. now subst.
  - intros H. exists x. split; [exact H | apply any_eqb_refl].
Qed.

Lemma first_seen_values_In (l : list Any.value) (x : Any.value) :
  In x (first_seen_values l) <-> In x l.
Proof.
  induction l as [|y l IH] using rev_ind; [reflexivity|].
  rewrite first_seen_values_snoc, in_app_iff.
  destruct (existsb (Any.eqb y) (first_seen_values l)) eqn:E.
  - apply existsb_any_eqb_In in E. rewrite IH. simpl. split; [tauto|].
    intros [H | [<- | []]]; [exact H | now apply IH].
  - rewrite in_app_iff, IH. reflexivity.
Qed.

Lemma first_seen_values_NoDup (l : list Any.value) :
  NoDup (first_seen_values l).
Proof.
  induction l as [|y l IH] using rev_ind; [constructor|].
  rewrite first_seen_values_snoc.
  destruct (existsb (Any.eqb y) (first_seen_values l)) eqn:E; [exact IH|].
  apply NoDup_app; [exact IH | repeat constructor; intros [] |].
  intros x Hx [<- | []].
  apply existsb_any_eqb_In in Hx. congruence.
Qed.

Lemma any_add_to_group_keys (task_type : Any.value) (task : Any.dict)
  (f : Any.value -> list Any.dict) (keys : list Any.value) :
  NoDup keys ->
  add_to_group task_type task (map (fun k => (k, f k)) keys) =
  if existsb (Any.eqb task_type) keys
  then map (fun k => (k, if Any.eqb k task_type
                         then (f k ++ [task])%list else f k)) keys
  else (map (fun k => (k, f k)) keys ++ [(task_type, [task])])%list.
Proof.
  induction 1 as [|k keys Hk Hnd IH]; [reflexivity|].
  cbn [map add_to_group existsb]. rewrite (any_eqb_sym task_type k).
  destruct (any_eqb_spec k task_type) as [-> | Hne]; cbn [orb].
  - f_equal. apply map_ext_in. intros k' Hk'.
    destruct (any_eqb_spec k' task_type) as [-> | _];
      [contradiction | reflexivity].
  - rewrite IH. now destruct (existsb (Any.eqb task_type) keys).
Qed.

Lemma any_of_type_snoc (task_type : Any.value) (tasks : list Any.dict)
  (task : Any.dict) :
  any_of_type task_type (tasks ++ [task]) =
  (any_of_type task_type tasks
   ++ if Any.eqb (any_type_of task) task_type then [task] else [])%list.
Proof. unfold any_of_type. rewrite filter_app. reflexivity. Qed.

Lemma any_of_type_unseen (task_type : Any.value) (tasks : list Any.dict) :
  ~ In task_type (map any_type_of tasks) -> any_of_type task_type tasks = [].
Proof.
  intros H. unfold any_of_type.
  induction tasks as [|t tasks IH]; [reflexivity|]. simpl in *.
  destruct (any_eqb_spec (any_type_of t) task_type) as [E | _]; [tauto|].
  apply IH. tauto.
Qed.

Lemma any_of_type_In (task_type : Any.value) (tasks : list Any.dict)
  (task : Any.dict) :
  In task (any_of_type task_type tasks) <->
  In task tasks /\ any_type_of task = task_type.
Proof.
  unfold any_of_type. rewrite filter_In, any_eqb_eq. reflexivity.
Qed.

(** One group per value of [type], in the order of first occurrence,
    each with its tasks in input order: the dictionary of the code, also
    when a type is [None]. *)
Lemma any_group_tasks_by_type_groups (tasks : list Any.dict) :
  group_tasks_by_type tasks =
  map (fun task_type => (task_type, any_of_type task_type tasks))
    (first_seen_values (map any_type_of tasks)).
Proof.
  induction tasks as [|t tasks IH] using rev_ind; [reflexivity|].
  unfold group_tasks_by_type in *. rewrite fold_left_app. cbn [fold_left].
  rewrite IH, map_app. cbn [map]. rewrite first_seen_values_snoc.
  fold (any_type_of t).
  rewrite (any_add_to_group_keys (any_type_of t) t
             (fun k => any_of_type k tasks) _ (first_seen_values_NoDup _)).
  destruct (existsb (Any.eqb (any_type_of t))
              (first_seen_values (map any_type_of tasks))) eqn:E.
  - apply map_ext. intros k. rewrite any_of_type_snoc.
    destruct (any_eqb_spec k (any_type_of t)) as [-> | Hne].
    + now rewrite any_eqb_refl.
    + destruct (any_eqb_spec (any_type_of t) k) as [E' | _];
        [congruence | now rewrite app_nil_r].
  - rewrite map_app. cbn [map]. f_equal.
    + apply map_ext_in. intros k Hk. rewrite any_of_type_snoc.
      destruct (any_eqb_spec (any_type_of t) k) as [<- | _];
        [|now rewrite app_nil_r].
      apply existsb_any_eqb_In in Hk. congruence.
    + rewrite any_of_type_snoc, any_eqb_refl, any_of_type_unseen;
        [reflexivity|].
      intros Hin. apply first_seen_values_In, existsb_any_eqb_In in Hin.
      congruence.
Qed.

Lemma any_group_member (tasks : list Any.dict) (task_type : Any.value)
  (task_list : list Any.dict) :
  In (task_type, task_list) (group_tasks_by_type tasks) ->
  task_list = any_of_type task_type tasks
  /\ exists task, In task tasks /\ any_type_of task = task_type.
Proof.
  rewrite any_group_tasks_by_type_groups. intros H.
  apply in_map_iff in H. destruct H as [k [E Hk]].
  injection E as <- <-. split; [reflexivity|].
  apply first_seen_values_In, in_map_iff in Hk.
  destruct Hk as [t [Ht Hin]]. now exists t.
Qed.



End AnyGrouping.

(** ** Delegating tasks of values *)

Section AnyDelegation.

Import any_supervisor.

Lemma execute_single_task_returned (task : Any.dict) (a : any_agent.BaseAgent)
  (r : agent.TaskResult) :
  any_agent.execute_task a task = Py.Returned r ->
  execute_single_task task a = Py.Returned r.
Proof. intros H. unfold execute_single_task. now rewrite H. Qed.

Lemma execute_single_task_raised (task : Any.dict) (a : any_agent.BaseAgent)
  (e : string) :
  any_agent.execute_task a task = Py.Raised e ->
  execute_single_task task a = synthetic_failure task e.
Proof. intros H. unfold execute_single_task. now rewrite H. Qed.

Lemma synthetic_failure_identified (task : Any.dict) (e : string) :
  identified task = true ->
  synthetic_failure task e =
  Py.Returned
    {| agent.task_id :=
         Any.format (Any.get "task_id" (Any.Str "failed_task") task);
       agent.task_description :=
         Any.format (Any.get "description" (Any.Str "Failed task") task);
       agent.findings := "Task failed with error: " ++ e;
       agent.sources := [];
       agent.confidence_score := 0%Q;
       agent.status := "failed" |}.
Proof.
  unfold identified, synthetic_failure, pydantic.TaskResult.
  destruct (Any.get "task_id" _ task) as [i|]; [|discriminate].
  destruct (Any.get "description" _ task) as [d|]; [|discriminate].
  reflexivity.
Qed.

Lemma synthetic_failure_unidentified (task : Any.dict) (e : string) :
  identified task = false ->
  synthetic_failure task e = Py.Raised pydantic.validation_error.
Proof.
  unfold identified, synthetic_failure, pydantic.TaskResult.
  destruct (Any.get "task_id" _ task) as [i|]; [|reflexivity].
  destruct (Any.get "description" _ task) as [d|]; [discriminate|].
  reflexivity.
Qed.

Lemma execute_single_task_identified (task : Any.dict)
  (a : any_agent.BaseAgent) :
  identified task = true ->
  exists r, execute_single_task task a = Py.Returned r.
Proof.
  intros H. destruct (any_agent.execute_task a task) as [r|e] eqn:E.
  - exists r. now apply execute_single_task_returned.
  - rewrite (execute_single_task_raised _ _ _ E).
    rewrite synthetic_failure_identified by exact H. eauto.
Qed.

Lemma execute_single_task_dropped (task : Any.dict)
  (a : any_agent.BaseAgent) (e : string) :
  execute_single_task task a = Py.Raised e ->
  identified task = false
  /\ exists e', any_agent.execute_task a task = Py.Raised e'.
Proof.
  intros H. destruct (any_agent.execute_task a task) as [r|e'] eqn:E.
  - rewrite (execute_single_task_returned _ _ _ E) in H. discriminate.
  - split; [|now exists e'].
    destruct (identified task) eqn:Hid; [|reflexivity].
    rewrite (execute_single_task_raised _ _ _ E) in H.
    rewrite synthetic_failure_identified in H by exact Hid. discriminate.
Qed.



Lemma any_task_assignments_return (tasks : list Any.dict)
  (agents : list any_agent.BaseAgent) (first : any_agent.BaseAgent) :
  (forall task, In task tasks -> identified task = true) ->
  Forall (fun result => exists r, result = Py.Returned r)
    (task_assignments tasks agents first).
Proof.
  intros H. apply Forall_map, Forall_forall. intros [i task] Hin.
  apply execute_single_task_identified, H.
  eapply enumerate_In; eassumption.
Qed.


(** When every coroutine completes once, the results are those of the
    coroutines that returned, in the order of the tasks. *)
Lemma any_execute_tasks_parallel_fair (w : supervisor.World)
  (tasks : list Any.dict) (first : any_agent.BaseAgent)
  (rest : list any_agent.BaseAgent) :
  asyncio.fair (supervisor.scheduler w) ->
  execute_tasks_parallel w tasks (first :: rest)
  = supervisor.valid_results (task_assignments tasks (first :: rest) first).
Proof.
  intros Hfair. destruct tasks as [|t tasks]; [reflexivity|].
  unfold execute_tasks_parallel. cbv zeta.
  rewrite gather_submission_order by apply Hfair. reflexivity.
Qed.




Lemma any_delegate_fold (self : Supervisor) (w : supervisor.World)
  (task_groups : list (Any.value * list Any.dict))
  (all_results : list agent.TaskResult) :
  fold_left (fun all_results '(task_type, task_list) =>
               match capable_agents self task_type with
               | [] => all_results
               | capable =>
                   (all_results
                    ++ execute_tasks_parallel w task_list capable)%list
               end)
    task_groups all_results
  = (all_results
     ++ flat_map (fun '(task_type, task_list) =>
                    match capable_agents self task_type with
                    | [] => []
                    | capable => execute_tasks_parallel w task_list capable
                    end) task_groups)%list.
Proof.
  revert all_results;
    induction task_groups as [|[task_type task_list] rest IH];
    intros all_results; cbn [fold_left flat_map];
    [now rewrite app_nil_r|].
  rewrite IH.
  destruct (capable_agents self task_type) as [|first others];
    [reflexivity | now rewrite app_assoc].
Qed.






(** A result of [execute_tasks_parallel] is what one of the agents of
    the list made of one of the tasks of the list. *)
Lemma any_execute_tasks_parallel_In (w : supervisor.World)
  (tasks : list Any.dict) (agents : list any_agent.BaseAgent)
  (r : agent.TaskResult) :
  In r (execute_tasks_parallel w tasks agents) ->
  exists task a,
    In task tasks /\ In a agents
    /\ execute_single_task task a = Py.Returned r.
Proof.
  unfold execute_tasks_parallel.
  destruct tasks as [|t0 tasks0]; [contradiction|].
  destruct agents as [|first rest]; [contradiction|].
  set (tasks := t0 :: tasks0). set (agents := first :: rest).
  cbv zeta. intros H.
  apply valid_results_In, gather_In in H.
  unfold task_assignments in H. apply in_map_iff in H.
  destruct H as [[i task] [E Hin]].
  exists task, (round_robin agents first i).
  split; [eapply enumerate_In; eassumption|]. split; [|exact E].
  unfold round_robin. apply nth_In.
  apply Nat.mod_upper_bound. discriminate.
Qed.

Lemma any_delegate_tasks_In (self : Supervisor) (w : supervisor.World)
  (tasks : list Any.dict) (r : agent.TaskResult) :
  In r (delegate_tasks self w tasks) ->
  exists task a,
    In task tasks /\ In a (sub_agents self)
    /\ any_agent.can_handle_task a (any_type_of task) = true
    /\ execute_single_task task a = Py.Returned r.
Proof.
  unfold delegate_tasks. destruct tasks as [|t0 tasks0]; [contradiction|].
  set (tasks := t0 :: tasks0). rewrite any_delegate_fold. cbn [app].
  intros H. apply in_flat_map in H. destruct H as [[ty tl] [Hg H]].
  apply any_group_member in Hg. destruct Hg as [-> _].
  destruct (capable_agents self ty) as [|first rest] eqn:Hcap;
    [contradiction|].
  apply any_execute_tasks_parallel_In in H.
  destruct H as [task [a [Htask [Ha E]]]].
  apply any_of_type_In in Htask. destruct Htask as [Hin <-].
  rewrite <- Hcap in Ha. unfold capable_agents in Ha.
  apply filter_In in Ha. destruct Ha as [Ha Hcan]. now exists task, a.
Qed.

Lemma any_group_single_type (task_type : Any.value) (tasks : list Any.dict) :
  tasks <> [] ->
  (forall task, In task tasks -> any_type_of task = task_type) ->
  group_tasks_by_type tasks = [(task_type, tasks)].
Proof.
  intros Hne Hty.
  induction tasks as [|t tasks IH] using rev_ind; [congruence|].
  unfold group_tasks_by_type in *. rewrite fold_left_app. cbn [fold_left].
  fold (any_type_of t).
  rewrite (Hty t) by (apply in_or_app; right; now left).
  destruct tasks as [|t0 tasks0]; [reflexivity|].
  rewrite IH.
  - cbn [add_to_group]. now rewrite any_eqb_refl.
  - discriminate.
  - intros task H. apply Hty. apply in_or_app. now left.
Qed.

Lemma any_delegate_single_type (self : Supervisor) (w : supervisor.World)
  (tasks : list Any.dict) (task_type : Any.value)
  (first : any_agent.BaseAgent) (rest : list any_agent.BaseAgent) :
  asyncio.fair (supervisor.scheduler w) ->
  (forall task, In task tasks -> any_type_of task = task_type) ->
  capable_agents self task_type = first :: rest ->
  delegate_tasks self w tasks
  = supervisor.valid_results (task_assignments tasks (first :: rest) first).
Proof.
  intros Hfair Hty Hcap. unfold delegate_tasks.
  destruct tasks as [|t0 tasks0]; [reflexivity|].
  rewrite (any_group_single_type task_type) by (assumption || discriminate).
  cbn [fold_left]. rewrite Hcap. cbn [app].
  now apply any_execute_tasks_parallel_fair.
Qed.

End AnyDelegation.







(** ** The system of [main_system] on tasks of values *)

Section AnySystem.

Import any_supervisor.

Lemma pydantic_returned (task_id task_description findings : Any.value)
  (sources : list string) (confidence_score : Q) (status : string)
  (r : agent.TaskResult) :
  pydantic.TaskResult task_id task_description findings sources
    confidence_score status = Py.Returned r ->
  exists i d f,
    task_id = Any.Str i /\ task_description = Any.Str d
    /\ findings = Any.Str f
    /\ r = {| agent.task_id := i;
              agent.task_description := d;
              agent.findings := f;
              agent.sources := sources;
              agent.confidence_score := confidence_score;
              agent.status := status |}.
Proof.
  unfold pydantic.TaskResult.
  destruct task_id as [i|]; [|discriminate].
  destruct task_description as [d|]; [|discriminate].
  destruct findings as [f|]; [|discriminate].
  cbn. intros H. apply some_eq_returned in H. subst r.
  now exists i, d, f.
Qed.

Lemma pydantic_null_description (task_id findings : Any.value)
  (sources : list string) (confidence_score : Q) (status : string) :
  Any.is_str task_id = true ->
  pydantic.TaskResult task_id Any.NoneValue findings sources
    confidence_score status = Py.Raised pydantic.validation_error.
Proof. destruct task_id as [i|]; [reflexivity | discriminate]. Qed.

Lemma described_is_str (default : string) (task : Any.dict) :
  Any.is_str (Any.get "description" (Any.Str default) task) = described task.
Proof.
  unfold Any.get, described.
  now destruct (Any.get_opt "description" task) as [[d|]|].
Qed.

Lemma undescribed_get (default : string) (task : Any.dict) :
  described task = false ->
  Any.get "description" (Any.Str default) task = Any.NoneValue.
Proof.
  unfold Any.get, described.
  now destruct (Any.get_opt "description" task) as [[d|]|].
Qed.

Variable researcher : web_researcher.WebResearcher.
Variable rw : any_researcher.World.

(** What the researcher returns, when it returns. *)
Lemma researcher_returned (task : Any.dict) (r : agent.TaskResult) :
  any_researcher.execute_task researcher rw task = Py.Returned r ->
  agent.task_id r = web_researcher.agent_id researcher
  /\ Any.Str (agent.task_description r)
     = Any.get "description" (Any.Str "No description provided") task
  /\ result_invariant r
  /\ (agent.confidence_score r <= 0.84)%Q
  /\ (agent.status r = "completed" \/ agent.status r = "failed").
Proof.
  unfold any_researcher.execute_task.
  destruct (negb (Any.truthy (Any.get_opt "query" task))); cbv zeta;
    intros H; apply pydantic_returned in H;
    destruct H as [i [d [f [Hi [Hd [_ ->]]]]]];
    cbn [agent.task_id agent.task_description agent.confidence_score
         agent.status];
    (split; [congruence|]); (split; [congruence|]).
  - split; [|split; [lra | now right]].
    split; cbn; [split; lra | intros _; split; reflexivity].
  - split; [|split; [|now left]].
    + split; cbn [agent.confidence_score agent.status agent.sources].
      * apply confidence_score_bounds, extracted_relevance_nonneg.
      * discriminate.
    + apply confidence_score_below_cap, extracted_relevance_range.
Qed.

(** A task with a null description: the researcher cannot build its
    result. *)
Lemma researcher_undescribed (task : Any.dict) :
  described task = false ->
  any_researcher.execute_task researcher rw task
  = Py.Raised pydantic.validation_error.
Proof.
  intros H. unfold any_researcher.execute_task.
  rewrite (undescribed_get _ task H).
  destruct (negb (Any.truthy (Any.get_opt "query" task))); reflexivity.
Qed.

Lemma system_capable_agents :
  capable_agents (_setup_agents researcher rw) (Any.Str "web_search")
  = [any_researcher.as_agent researcher rw].
Proof. reflexivity. Qed.

Lemma map_enumerate {A B} (f : A -> B) (l : list A) (start : nat) :
  map (fun '(i, x) => f x) (Py.enumerate start l) = map f l.
Proof.
  revert start; induction l as [|x l IH]; intros start; simpl;
    [reflexivity | now rewrite IH].
Qed.

Lemma single_agent_assignments (tasks : list Any.dict)
  (a : any_agent.BaseAgent) :
  task_assignments tasks [a] a
  = map (fun task => execute_single_task task a) tasks.
Proof.
  unfold task_assignments.
  rewrite <- (map_enumerate (fun task => execute_single_task task a) tasks 0).
  apply map_ext. intros [i task]. unfold round_robin.
  cbn [List.length]. now rewrite Nat.mod_1_r.
Qed.

Lemma planned_identified (task : Any.dict) :
  planned task = true -> identified task = described task.
Proof.
  unfold planned, identified. intros H. apply andb_true_iff in H.
  destruct H as [_ ->]. now rewrite described_is_str.
Qed.

Lemma planned_type (task : Any.dict) :
  planned task = true -> any_type_of task = Any.Str "web_search".
Proof.
  unfold planned. intros H. apply andb_true_iff in H.
  destruct H as [H _]. now apply any_eqb_eq in H.
Qed.

Lemma valid_results_map_length {A} (f : A -> Py.outcome agent.TaskResult)
  (keep : A -> bool) (l : list A) :
  (forall x, In x l -> keep x = true -> exists r, f x = Py.Returned r) ->
  (forall x, In x l -> keep x = false -> exists e, f x = Py.Raised e) ->
  List.length (supervisor.valid_results (map f l))
  = List.length (filter keep l).
Proof.
  induction l as [|x l IH]; intros Hk Hd; [reflexivity|].
  cbn [map filter].
  assert (IH' : List.length (supervisor.valid_results (map f l))
                = List.length (filter keep l)).
  { apply IH; intros y Hy; [apply Hk | apply Hd]; now right. }
  destruct (keep x) eqn:E.
  - destruct (Hk x (or_introl eq_refl) E) as [r Hr].
    unfold supervisor.valid_results in *. cbn [flat_map]. rewrite Hr.
    cbn [app List.length]. now rewrite IH'.
  - destruct (Hd x (or_introl eq_refl) E) as [e He].
    unfold supervisor.valid_results in *. cbn [flat_map]. rewrite He.
    exact IH'.
Qed.

End AnySystem.

(** The tasks that [plan_research] returns have the shape [planned]. *)
Lemma plan_research_planned (self : supervisor.Supervisor)
  (p : supervisor.Planner) (research_topic additional_context : string)
  (self' : supervisor.Supervisor) (tasks : list Py.dict) :
  supervisor.plan_research self p research_topic additional_context
    = Py.Returned (self', tasks) ->
  forall task, In task tasks -> planned (Any.lift task) = true.
Proof.
  intros H task Hin. apply plan_research_shape in H.
  destruct H as [_ [_ Hshape]].
  apply In_nth_error in Hin. destruct Hin as [k Hk].
  destruct (Hshape k task Hk) as [Hid [Hty _]].
  unfold planned, any_type_of, Any.get. rewrite !get_opt_lift, Hid, Hty.
  reflexivity.
Qed.

(** X11.  When all the tasks have the same type and some agent accepts
    it, [delegate_tasks] returns the results of the coroutines that
    returned, in the order of the input, the coroutine at index [i]
    being the one of [agents[i % len(agents)]] on the task at index
    [i]; when every task has a string or no entry for [task_id] and
    [description], no coroutine raises and the result at index [i] is
    the one for the task at index [i], whatever the order of
    completion. *)
Theorem delegate_tasks_single_type
  (self : any_supervisor.Supervisor) (w : supervisor.World)
  (tasks : list Any.dict) (task_type : Any.value)
  (first : any_agent.BaseAgent) (rest : list any_agent.BaseAgent) :
  asyncio.fair (supervisor.scheduler w) ->
  (forall task, In task tasks -> any_type_of task = task_type) ->
  any_supervisor.capable_agents self task_type = first :: rest ->
  any_supervisor.delegate_tasks self w tasks
  = supervisor.valid_results
      (any_supervisor.task_assignments tasks (first :: rest) first)
  /\ ((forall task, In task tasks -> identified task = true) ->
      map Py.Returned (any_supervisor.delegate_tasks self w tasks)
      = any_supervisor.task_assignments tasks (first :: rest) first).
Proof.
  intros Hfair Hty Hcap.
  assert (E : any_supervisor.delegate_tasks self w tasks
              = supervisor.valid_results
                  (any_supervisor.task_assignments tasks (first :: rest)
                     first))
    by now apply (any_delegate_single_type self w tasks task_type).
  split; [exact E|].
  intros Hid. rewrite E.
  now apply valid_results_all, any_task_assignments_return.
Qed.

Lemma delegate_tasks_single_type_witness :
  asyncio.fair (supervisor.scheduler demo.no_provider)
  /\ (forall task,
        In task [demo_any.null_description; demo_any.wind_task] ->
        any_type_of task = Any.Str "web_search")
  /\ any_supervisor.capable_agents demo_any.two_agents (Any.Str "web_search")
     = any_researcher.as_agent demo.researcher demo_any.offline
       :: [demo_any.broken_agent]
  /\ any_supervisor.delegate_tasks demo_any.two_agents demo.no_provider
       [demo_any.null_description; demo_any.wind_task]
     = supervisor.valid_results
         (any_supervisor.task_assignments
            [demo_any.null_description; demo_any.wind_task]
            (any_researcher.as_agent demo.researcher demo_any.offline
             :: [demo_any.broken_agent])
            (any_researcher.as_agent demo.researcher demo_any.offline)).
Proof.
  assert (Hty : forall task,
             In task [demo_any.null_description; demo_any.wind_task] ->
             any_type_of task = Any.Str "web_search").
  { intros task [<- | [<- | []]]; reflexivity. }
  split; [exact last_first_fair|]. split; [exact Hty|].
  split; [reflexivity|].
  apply (delegate_tasks_single_type demo_any.two_agents demo.no_provider
           [demo_any.null_description; demo_any.wind_task]
           (Any.Str "web_search")
           (any_researcher.as_agent demo.researcher demo_any.offline)
           [demo_any.broken_agent] last_first_fair Hty).
  reflexivity.
Defined.

(** X15.  In the system as [main_system] sets it up, with the web
    researcher as only agent, take tasks shaped as [plan_research]
    builds them: the type is [web_search] and the [task_id] is a
    string.  Then [delegate_tasks] returns, in the order of the tasks,
    one result for each task whose description is a string (or absent):
    the result of the researcher, or, when the researcher raised (as it
    does when the text of the completion is null), the failure result
    under the identifier of the task.  A task whose description is null
    gets no result: the researcher cannot build its result and the
    supervisor cannot build the failure result. *)
Theorem planned_tasks_answered
  (researcher : web_researcher.WebResearcher) (rw : any_researcher.World)
  (sw : supervisor.World) (tasks : list Any.dict) :
  asyncio.fair (supervisor.scheduler sw) ->
  (forall task, In task tasks -> planned task = true) ->
  any_supervisor.delegate_tasks
    (any_supervisor._setup_agents researcher rw) sw tasks
  = supervisor.valid_results
      (map (fun task =>
              any_supervisor.execute_single_task task
                (any_researcher.as_agent researcher rw)) tasks)
  /\ (forall task,
        In task tasks -> described task = true ->
        exists r,
          any_supervisor.execute_single_task task
            (any_researcher.as_agent researcher rw) = Py.Returned r
          /\ In r (any_supervisor.delegate_tasks
                     (any_supervisor._setup_agents researcher rw) sw tasks)
          /\ (any_researcher.execute_task researcher rw task = Py.Returned r
              \/ (exists e,
                     any_researcher.execute_task researcher rw task
                     = Py.Raised e)
                 /\ agent.status r = "failed"
                 /\ Any.Str (agent.task_id r)
                    = Any.get "task_id" (Any.Str "failed_task") task))
  /\ (forall task,
        In task tasks -> described task = false ->
        any_supervisor.execute_single_task task
          (any_researcher.as_agent researcher rw)
        = Py.Raised pydantic.validation_error)
  /\ List.length
       (any_supervisor.delegate_tasks
          (any_supervisor._setup_agents researcher rw) sw tasks)
     = List.length (filter described tasks).
Proof.
  intros Hfair Hplanned.
  set (a := any_researcher.as_agent researcher rw).
  assert (E : any_supervisor.delegate_tasks
                (any_supervisor._setup_agents researcher rw) sw tasks
              = supervisor.valid_results
                  (map (fun task => any_supervisor.execute_single_task task a)
                     tasks)).
  { rewrite <- single_agent_assignments.
    apply (any_delegate_single_type _ sw tasks (Any.Str "web_search") a []).
    - exact Hfair.
    - intros task Hin. now apply planned_type, Hplanned.
    - apply system_capable_agents. }
  assert (Hkeep : forall task,
             In task tasks -> described task = true ->
             exists r,
               any_supervisor.execute_single_task task a = Py.Returned r).
  { intros task Hin Hd. apply execute_single_task_identified.
    now rewrite planned_identified by now apply Hplanned. }
  assert (Hdrop : forall task,
             In task tasks -> described task = false ->
             any_supervisor.execute_single_task task a
             = Py.Raised pydantic.validation_error).
  { intros task Hin Hd.
    rewrite (execute_single_task_raised task a pydantic.validation_error)
      by now apply researcher_undescribed.
    apply synthetic_failure_unidentified.
    now rewrite planned_identified by now apply Hplanned. }
  split; [exact E|]. split; [|split; [exact Hdrop|]].
  - intros task Hin Hd. destruct (Hkeep task Hin Hd) as [r Hr].
    exists r. split; [exact Hr|]. split.
    + rewrite E. apply valid_results_In. rewrite <- Hr.
      now apply (in_map (fun task =>
                           any_supervisor.execute_single_task task a)).
    + destruct (any_researcher.execute_task researcher rw task)
        as [r'|e] eqn:Hex.
      * left. rewrite (execute_single_task_returned task a r' Hex) in Hr.
        exact Hr.
      * right. split; [now exists e|].
        rewrite (execute_single_task_raised task a e Hex) in Hr.
        rewrite synthetic_failure_identified in Hr
          by now rewrite planned_identified by now apply Hplanned.
        apply some_eq_returned in Hr. subst r.
        cbn [agent.status agent.task_id]. split; [reflexivity|].
        pose proof (Hplanned task Hin) as Hp. unfold planned in Hp.
        apply andb_true_iff in Hp. destruct Hp as [_ Hp].
        now destruct (Any.get "task_id" _ task).
  - rewrite E. apply valid_results_map_length; [exact Hkeep|].
    intros task Hin Hd. eexists. now apply Hdrop.
Qed.

Lemma planned_tasks_answered_witness :
  asyncio.fair (supervisor.scheduler demo.no_provider)
  /\ (forall task,
        In task [demo_any.wind_task; demo_any.null_description] ->
        planned task = true)
  /\ List.length
       (any_supervisor.delegate_tasks
          (any_supervisor._setup_agents demo.researcher demo_any.no_text)
          demo.no_provider [demo_any.wind_task; demo_any.null_description])
     = List.length
         (filter described [demo_any.wind_task; demo_any.null_description]).
Proof.
  assert (Hp : forall task,
             In task [demo_any.wind_task; demo_any.null_description] ->
             planned task = true).
  { intros task [<- | [<- | []]]; reflexivity. }
  split; [exact last_first_fair|]. split; [exact Hp|].
  apply (planned_tasks_answered demo.researcher demo_any.no_text
           demo.no_provider [demo_any.wind_task; demo_any.null_description]
           last_first_fair Hp).
Defined.

Example null_completion_example :
  map (fun r => (agent.task_id r, agent.status r))
    (any_supervisor.delegate_tasks
       (any_supervisor._setup_agents demo.researcher demo_any.no_text)
       demo.no_provider [demo_any.wind_task; demo_any.null_description])
  = [("research_task_2", "failed")].
Proof. vm_compute. reflexivity. Qed.

(** X27.  In the system as [main_system] sets it up, whatever the tasks
    and the order of completion, every result that [delegate_tasks]
    returns keeps the result invariant: a confidence between 0 and 1,
    and no confidence and no source when it failed.  It is either a
    result of the web researcher for one of the tasks, which carries
    the researcher's identifier and the status [completed] or [failed],
    or the failure result that the supervisor built for one of the
    tasks because the researcher raised on it: it has the status
    [failed], no source and the confidence 0, carries the identifier of
    the task and quotes the error. *)
Theorem system_results
  (researcher : web_researcher.WebResearcher) (rw : any_researcher.World)
  (sw : supervisor.World) (tasks : list Any.dict) :
  Forall (fun r =>
            result_invariant r
            /\ ((agent.task_id r = web_researcher.agent_id researcher
                 /\ (agent.status r = "completed"
                     \/ agent.status r = "failed")
                 /\ exists task,
                      In task tasks
                      /\ any_researcher.execute_task researcher rw task
                         = Py.Returned r)
                \/ (agent.status r = "failed"
                    /\ agent.sources r = []
                    /\ (agent.confidence_score r == 0)%Q
                    /\ exists task e,
                         In task tasks
                         /\ any_researcher.execute_task researcher rw task
                            = Py.Raised e
                         /\ agent.findings r
                            = "Task failed with error: " ++ e
                         /\ Any.Str (agent.task_id r)
                            = Any.get "task_id" (Any.Str "failed_task")
                                task)))
    (any_supervisor.delegate_tasks
       (any_supervisor._setup_agents researcher rw) sw tasks).
Proof.
  apply Forall_forall. intros r Hr. apply any_delegate_tasks_In in Hr.
  destruct Hr as [task [a [Hin [Ha [_ E]]]]].
  destruct Ha as [<- | []].
  cbn [any_researcher.as_agent any_agent.execute_task] in E.
  destruct (any_researcher.execute_task researcher rw task) as [r'|e] eqn:Hex.
  - rewrite (execute_single_task_returned task _ r') in E by exact Hex.
    apply some_eq_returned in E. subst r'.
    destruct (researcher_returned researcher rw task r Hex)
      as [Hid [_ [Hinv [Hcap Hst]]]].
    split; [exact Hinv|]. left.
    split; [exact Hid|]. split; [exact Hst|]. now exists task.
  - rewrite (execute_single_task_raised task _ e) in E by exact Hex.
    destruct (identified task) eqn:Hidf.
    + rewrite synthetic_failure_identified in E by exact Hidf.
      apply some_eq_returned in E. subst r.
      cbn [agent.status agent.sources agent.confidence_score agent.findings
           agent.task_id].
      split; [|right].
      * split; cbn; [split; lra | intros _; split; reflexivity].
      * split; [reflexivity|]. split; [reflexivity|].
        split; [reflexivity|]. exists task, e.
        split; [exact Hin|]. split; [exact Hex|].
        split; [reflexivity|].
        unfold identified in Hidf. apply andb_true_iff in Hidf.
        destruct Hidf as [Hidf _].
        now destruct (Any.get "task_id" _ task).
    + rewrite synthetic_failure_unidentified in E by exact Hidf.
      discriminate.
Qed.

(** ** Tasks of strings: the two readings of the supervisor agree *)

Section DelegationLifting.

Lemma enumerate_map {A B} (f : A -> B) (l : list A) (start : nat) :
  Py.enumerate start (map f l)
  = map (fun '(i, x) => (i, f x)) (Py.enumerate start l).
Proof.
  revert start; induction l as [|x l IH]; intros start; simpl;
    [reflexivity | now rewrite IH].
Qed.

Lemma filter_map_comm {A B} (f : B -> bool) (g : A -> B) (l : list A) :
  filter f (map g l) = map g (filter (fun x => f (g x)) l).
Proof.
  induction l as [|x l IH]; simpl; [reflexivity|].
  destruct (f (g x)); simpl; now rewrite IH.
Qed.

Lemma add_to_group_lift (task_type : string) (task : Py.dict)
  (task_groups : list (string * list Py.dict)) :
  any_supervisor.add_to_group (Any.Str task_type) (Any.lift task)
    (map any_supervisor.lift_group task_groups)
  = map any_supervisor.lift_group (supervisor.add_to_group task_type task task_groups).
Proof.
  induction task_groups as [|[k task_list] rest IH]; [reflexivity|].
  cbn [map any_supervisor.lift_group fst snd any_supervisor.add_to_group
       supervisor.add_to_group Any.eqb].
  destruct (String.eqb k task_type).
  - cbn [map]. unfold any_supervisor.lift_group at 2. cbn [fst snd].
    now rewrite map_app.
  - cbn [map]. now rewrite IH.
Qed.

Lemma group_tasks_by_type_lift (tasks : list Py.dict) :
  any_supervisor.group_tasks_by_type (map Any.lift tasks)
  = map any_supervisor.lift_group (supervisor.group_tasks_by_type tasks).
Proof.
  unfold any_supervisor.group_tasks_by_type, supervisor.group_tasks_by_type.
  change (@nil (Any.value * list Any.dict)) with (map any_supervisor.lift_group []).
  generalize (@nil (string * list Py.dict)).
  induction tasks as [|t tasks IH]; intros task_groups; [reflexivity|].
  cbn [map fold_left]. rewrite get_lift, add_to_group_lift. apply IH.
Qed.

Lemma capable_agents_lift (self : any_supervisor.Supervisor)
  (task_type : string) :
  supervisor.capable_agents (any_supervisor.on_strings self) task_type
  = map any_agent.on_strings
      (any_supervisor.capable_agents self (Any.Str task_type)).
Proof.
  unfold supervisor.capable_agents, any_supervisor.capable_agents.
  cbn [any_supervisor.on_strings supervisor.sub_agents].
  now rewrite filter_map_comm.
Qed.

Lemma task_assignments_lift (tasks : list Py.dict)
  (agents : list any_agent.BaseAgent) (first : any_agent.BaseAgent) :
  any_supervisor.task_assignments (map Any.lift tasks) agents first
  = supervisor.task_assignments tasks (map any_agent.on_strings agents)
      (any_agent.on_strings first).
Proof.
  unfold any_supervisor.task_assignments, supervisor.task_assignments.
  rewrite enumerate_map, map_map. apply map_ext. intros [i task].
  rewrite execute_single_task_lift. f_equal.
  unfold any_supervisor.round_robin, supervisor.round_robin.
  now rewrite length_map, map_nth.
Qed.

Lemma execute_tasks_parallel_lift (w : supervisor.World)
  (tasks : list Py.dict) (agents : list any_agent.BaseAgent) :
  any_supervisor.execute_tasks_parallel w (map Any.lift tasks) agents
  = supervisor.execute_tasks_parallel w tasks
      (map any_agent.on_strings agents).
Proof.
  unfold any_supervisor.execute_tasks_parallel,
    supervisor.execute_tasks_parallel.
  destruct tasks as [|t tasks]; [reflexivity|].
  destruct agents as [|first rest]; [reflexivity|].
  cbn [map]. cbv zeta.
  change (Any.lift t :: map Any.lift tasks) with (map Any.lift (t :: tasks)).
  change (any_agent.on_strings first :: map any_agent.on_strings rest)
    with (map any_agent.on_strings (first :: rest)).
  now rewrite task_assignments_lift.
Qed.

Lemma delegate_fold_lift (self : any_supervisor.Supervisor)
  (w : supervisor.World) (task_groups : list (string * list Py.dict))
  (all_results : list agent.TaskResult) :
  fold_left (fun all_results '(task_type, task_list) =>
               match any_supervisor.capable_agents self task_type with
               | [] => all_results
               | capable =>
                   (all_results
                    ++ any_supervisor.execute_tasks_parallel w task_list
                         capable)%list
               end)
    (map any_supervisor.lift_group task_groups) all_results
  = fold_left (fun all_results '(task_type, task_list) =>
                 match supervisor.capable_agents
                         (any_supervisor.on_strings self) task_type with
                 | [] => all_results
                 | capable =>
                     (all_results
                      ++ supervisor.execute_tasks_parallel w task_list
                           capable)%list
                 end)
      task_groups all_results.
Proof.
  revert all_results;
    induction task_groups as [|[task_type task_list] rest IH];
    intros all_results; [reflexivity|].
  cbn [map fold_left any_supervisor.lift_group fst snd].
  rewrite capable_agents_lift, IH.
  destruct (any_supervisor.capable_agents self (Any.Str task_type))
    as [|first others] eqn:Hcap; [reflexivity|].
  now rewrite execute_tasks_parallel_lift.
Qed.

(** On tasks of strings, [delegate_tasks] on tasks of values is
    [delegate_tasks] of the modules on strings. *)
Lemma delegate_tasks_lift (self : any_supervisor.Supervisor)
  (w : supervisor.World) (tasks : list Py.dict) :
  any_supervisor.delegate_tasks self w (map Any.lift tasks)
  = supervisor.delegate_tasks (any_supervisor.on_strings self) w tasks.
Proof.
  unfold any_supervisor.delegate_tasks, supervisor.delegate_tasks.
  destruct tasks as [|t0 tasks0]; [reflexivity|].
  cbn [map].
  change (Any.lift t0 :: map Any.lift tasks0)
    with (map Any.lift (t0 :: tasks0)).
  rewrite group_tasks_by_type_lift. apply delegate_fold_lift.
Qed.

End DelegationLifting.
